(** * pdf_translator: a shallow embedding of the translation pipeline

    The development follows the source tree of the repository:
    [utils.py], [llm.py], [text_utils.py], [translate.py], [ocr.py] and
    [main.py].  Python values are modelled as follows.

    - [str] is a list of Unicode code points ([pystr]); [len] is the length
      of that list, so Cyrillic text counts one per letter as in Python.
    - [int] is [Z].  A [float] is the rational [Q] it denotes.  The float
      arithmetic of the text renderer ([translate.py]: the width and height
      limits of a bbox, the base lines of the inserted text) rounds to
      binary64 as the source does ([round64]); the quotients of the
      classifier and of [is_formula] and the canvas coordinates of [ocr.py]
      are computed exactly.  A product of two [int]s with the factor 0.5 is
      exact (below 2^53).
    - [dict] used as a map is a [gmap]; a [dict] whose iteration order is
      observed (the paragraph store) is an association list.
    - Effects (stdout, the file system, the translation cache object, HTTP
      requests, sleeping) are threaded through a state-and-exception monad
      [M] over a [world].  Standard output is a UTF-8 stream in strict mode:
      a line that quotes a text of the document or of the endpoint's answer
      raises [UnicodeEncodeError] when it holds a lone surrogate
      ([print_text]); the other lines (fixed messages, numbers, hashes,
      paths, the endpoint's decoded [response.text], exception messages) are
      taken to be printable.
    - A file written with [json.dump] holds a JSON document; when a string
      of the document cannot be encoded as UTF-8 the write stops half-way
      and the file is left with data that is not a JSON document. *)

From Stdlib Require Import ZArith QArith List Ascii String Lia Bool.
From stdpp Require Import base gmap strings list.

Local Open Scope Z_scope.

(** ** Python strings *)

Abbreviation pystr := (list N).

(** A literal of the source, as code points. *)
Definition lit (s : string) : pystr :=
  List.map N_of_ascii (list_ascii_of_string s).

Definition len {A} (l : list A) : Z := Z.of_nat (length l).

(** [str.isspace] for one code point (CPython's [Py_UNICODE_ISSPACE]). *)
Definition isspace (c : N) : bool :=
  ((9 <=? c) && (c <=? 13) || (28 <=? c) && (c <=? 32)
   || (c =? 133) || (c =? 160) || (c =? 5760)
   || (8192 <=? c) && (c <=? 8202)
   || (c =? 8232) || (c =? 8233) || (c =? 8239) || (c =? 8287)
   || (c =? 12288))%N.

(** [s.split()] with no argument: maximal runs of non-space characters. *)
Fixpoint split_from (cur : pystr) (s : pystr) : list pystr :=
  match s with
  | [] => match cur with [] => [] | _ => [rev cur] end
  | c :: s' =>
      if isspace c
      then match cur with
           | [] => split_from [] s'
           | _ => rev cur :: split_from [] s'
           end
      else split_from (c :: cur) s'
  end.

Definition split (s : pystr) : list pystr := split_from [] s.

(** [sep.join(parts)] *)
Fixpoint join (sep : pystr) (parts : list pystr) : pystr :=
  match parts with
  | [] => []
  | [p] => p
  | p :: rest => p ++ sep ++ join sep rest
  end.

Definition space : pystr := [32%N].

Fixpoint lstrip (s : pystr) : pystr :=
  match s with
  | c :: s' => if isspace c then lstrip s' else s
  | [] => []
  end.

(** [s.strip()] *)
Definition strip (s : pystr) : pystr := rev (lstrip (rev (lstrip s))).

(** [needle in hay] for two strings: substring test. *)
Fixpoint is_prefix (p s : pystr) : bool :=
  match p, s with
  | [], _ => true
  | _ :: _, [] => false
  | a :: p', b :: s' => (a =? b)%N && is_prefix p' s'
  end.

Fixpoint substring_in (needle hay : pystr) : bool :=
  is_prefix needle hay ||
  match hay with
  | [] => false
  | _ :: hay' => substring_in needle hay'
  end.

Definition pystr_eqb (a b : pystr) : bool := bool_decide (a = b).

(** A surrogate code point (U+D800 to U+DFFF). *)
Definition is_surrogate (c : N) : bool := ((55296 <=? c) && (c <=? 57343))%N.

(** [s.encode('utf-8')] succeeds: the string holds no surrogate. *)
Definition encodable (s : pystr) : bool :=
  forallb (fun c => negb (is_surrogate c)) s.

(** ** Exceptions *)

Inductive exn :=
| TypeError | ValueError | KeyError | IndexError | AttributeError
| NameError | ZeroDivisionError | JSONDecodeError | RequestException
| RuntimeError | UnicodeEncodeError | FileNotFoundError.

(** Errors of pure computations. *)
Definition res (A : Type) : Type := exn + A.

#[global] Instance res_ret : MRet res := fun _ a => inr a.
#[global] Instance res_bind : MBind res := fun _ _ f r =>
  match r with
  | inr a => f a
  | inl e => inl e
  end.

(** ** [str(n)] and [int(s)] for integers *)

Definition digit_char (d : Z) : N := Z.to_N (48 + d).

Fixpoint digits_fuel (fuel : nat) (n : Z) : pystr :=
  match fuel with
  | O => []
  | S f =>
      if n <? 10 then [digit_char n]
      else digits_fuel f (n / 10) ++ [digit_char (n mod 10)]
  end.

Definition digits (n : Z) : pystr := digits_fuel (S (Z.to_nat (Z.log2 n))) n.

(** [str(z)] *)
Definition py_str (z : Z) : pystr :=
  if z <? 0 then 45%N :: digits (- z) else digits z.

Definition digit_of (c : N) : option Z :=
  if ((48 <=? c) && (c <=? 57))%N then Some (Z.of_N c - 48) else None.

(** Digits with single underscores between them, as [int] accepts. *)
Fixpoint parse_digits (acc : Z) (after_digit : bool) (s : pystr) : option Z :=
  match s with
  | [] => if after_digit then Some acc else None
  | c :: s' =>
      if (c =? 95)%N
      then (if after_digit then parse_digits acc false s' else None)
      else match digit_of c with
           | Some d => parse_digits (10 * acc + d) true s'
           | None => None
           end
  end.

(** [int(s)] on a string: surrounding white space, an optional sign, ASCII
    digits.  (CPython also accepts the decimal digits of other scripts;
    those are a [ValueError] here.) *)
Definition py_int (s : pystr) : res Z :=
  let body :=
    match strip s with
    | c :: r =>
        if (c =? 43)%N then parse_digits 0 false r
        else if (c =? 45)%N then Z.opp <$> parse_digits 0 false r
        else parse_digits 0 false (c :: r)
    | [] => None
    end in
  match body with
  | Some z => inr z
  | None => inl ValueError
  end.

(** ** JSON values, as [json.load] returns them *)

#[warnings="-register-all"]
Inductive json :=
| JNull
| JBool (b : bool)
| JNum (q : Q)
| JStr (s : pystr)
| JArr (items : list json)
| JObj (members : list (pystr * json)).

(** [obj[key]] with a string key. *)
Fixpoint assoc {A} (k : pystr) (kvs : list (pystr * A)) : option A :=
  match kvs with
  | [] => None
  | (k', v) :: rest => if pystr_eqb k k' then Some v else assoc k rest
  end.

Definition is_jstr (s : pystr) (j : json) : bool :=
  match j with JStr s' => pystr_eqb s s' | _ => false end.

(** [key in container] for a string [key]. *)
Definition py_contains (key : pystr) (j : json) : res bool :=
  match j with
  | JObj kvs => inr (bool_decide (is_Some (assoc key kvs)))
  | JArr l => inr (existsb (is_jstr key) l)
  | JStr s => inr (substring_in key s)
  | _ => inl TypeError
  end.

(** [container[key]] for a string [key]. *)
Definition py_getitem (j : json) (key : pystr) : res json :=
  match j with
  | JObj kvs => match assoc key kvs with Some v => inr v | None => inl KeyError end
  | _ => inl TypeError
  end.

(** [container[0]] *)
Definition py_getitem0 (j : json) : res json :=
  match j with
  | JArr (x :: _) => inr x
  | JArr [] => inl IndexError
  | JStr (c :: _) => inr (JStr [c])
  | JStr [] => inl IndexError
  | JObj _ => inl KeyError
  | _ => inl TypeError
  end.

(** [iter(value)]: what a [for] loop, tuple unpacking or [tuple(...)] sees. *)
Definition py_iter (j : json) : res (list json) :=
  match j with
  | JArr l => inr l
  | JStr s => inr ((fun c => JStr [c]) <$> s)
  | JObj kvs => inr ((fun kv => JStr kv.1) <$> kvs)
  | _ => inl TypeError
  end.

(** ** Numbers *)

(** [a < b] on exact rationals. *)
Definition Qltb (a b : Q) : bool := negb (Qle_bool b a).

(** An [int] where a [float] is expected. *)
Definition of_int (z : Z) : Q := inject_Z z.

(** [a / b] ("true division"): raises on a zero divisor. *)
Definition py_div (a b : Q) : res Q :=
  if Qeq_bool b 0 then inl ZeroDivisionError else inr (a / b)%Q.

(** ** binary64 *)

(** The integer nearest to [num / den] (for [den > 0]), ties to even. *)
Definition round_half_even (num den : Z) : Z :=
  let quo := num / den in
  let rem := num mod den in
  if 2 * rem <? den then quo
  else if den <? 2 * rem then quo + 1
  else if Z.even quo then quo else quo + 1.

(** The binary64 number nearest to [q], ties to even: 53 significant bits,
    the last place no finer than [2^-1074].  (No overflow: numbers beyond
    the binary64 range do not occur as page coordinates.) *)
Definition round64 (q : Q) : Q :=
  let n := Qnum q in
  let d := Z.pos (Qden q) in
  if n =? 0 then 0%Q
  else
    let a := Z.abs n in
    let e0 := Z.log2 a - Z.log2 d in
    let below := if 0 <=? e0 then a <? d * 2 ^ e0 else a * 2 ^ (- e0) <? d in
    let e := if below then e0 - 1 else e0 in        (* 2^e <= a/d < 2^(e+1) *)
    let p := Z.max (e - 52) (-1074) in              (* the last place is 2^p *)
    let m := if 0 <=? p then round_half_even a (d * 2 ^ p)
             else round_half_even (a * 2 ^ (- p)) d in
    let v := if 0 <=? p then inject_Z (m * 2 ^ p)
             else Qred (m # Z.to_pos (2 ^ (- p))) in
    if n <? 0 then (- v)%Q else v.

(** [a + b] and [a - b] on floats; an operand that is not a binary64 number
    (a decimal of a JSON file) is read as the nearest one. *)
Definition fl_add (a b : Q) : Q := round64 (round64 a + round64 b).
Definition fl_sub (a b : Q) : Q := round64 (round64 a - round64 b).

(** ** The world a run acts on *)

(** [Dict[str, Dict[str, str]]]: document hash, then text hash. *)
Abbreviation cache := (gmap pystr (gmap pystr pystr)).

(** A bounding box [(x0, y0, x1, y1)]. *)
Record bbox := BBox { x0 : Q; y0 : Q; x1 : Q; y1 : Q }.

(** [Dict[int, List[Tuple[str, bbox]]]], in insertion order. *)
Abbreviation paragraphs_by_page := (list (Z * list (pystr * bbox))).

Inductive image_src :=
| PagePixmap (page_idx : nat)               (* the rasterized source page *)
| TextBitmap (w h : Z) (lines : list pystr) (* text drawn on a bitmap *).

(** What is drawn on a page of the output document. *)
Inductive draw_op :=
| InsertImage (rect : bbox) (src : image_src)
| InsertFont (fontname : pystr)
| DrawRect (rect : bbox)
| InsertText (x y : Q) (line : pystr) (fontname : pystr) (fontsize : Z)
| CanvasImage (x y w h : Q) (src : image_src)   (* reportlab: c.drawImage *)
| CanvasRect (x y w h : Q)                      (* reportlab: c.rect, white fill *)
| DrawString (x y : Q) (line : pystr)           (* reportlab: c.drawString *).

Inductive out_page :=
| CopiedPage (page_idx : nat)
| DrawnPage (ops : list draw_op).

Inductive file :=
| FJson (j : json)          (* a JSON document *)
| FPdf (pages : list out_page)
| FBytes.                   (* anything else: fonts, images, a document cut short *)

Record world := World {
  fs : gmap pystr file;      (* files by path *)
  stdout : list pystr;       (* printed lines, oldest first *)
  cache_obj : cache;         (* the dict object passed around as [cache] *)
  posts : nat;               (* requests.post calls issued so far *)
  slept : list Z;            (* time.sleep delays, oldest first *)
}.

(** ** The state-and-exception monad *)

Definition M (A : Type) : Type := world -> res A * world.

#[global] Instance M_ret : MRet M := fun _ a w => (inr a, w).
#[global] Instance M_bind : MBind M := fun _ _ f m w =>
  match m w with
  | (inr a, w') => f a w'
  | (inl e, w') => (inl e, w')
  end.

(** Bind with the computation first, so that the type of the bound variable
    is known when the continuation is read. *)
Definition bind_first {T : Type -> Type} `{MBind T} {A B} (m : T A) (k : A -> T B)
  : T B := mbind k m.

Notation "x <- m ;; k" := (bind_first m (fun x => k))
  (at level 100, m at next level, k at level 200, right associativity).

Definition raise {A} (e : exn) : M A := fun w => (inl e, w).

(** [try: m  except Exception as e: h e] *)
Definition try_except {A} (m : M A) (h : exn -> M A) : M A := fun w =>
  match m w with
  | (inl e, w') => h e w'
  | r => r
  end.

Definition lift {A} (r : res A) : M A := fun w => (r, w).

Definition print (line : pystr) : M unit := fun w =>
  (inr tt, World (fs w) (stdout w ++ [line]) (cache_obj w) (posts w) (slept w)).

(** [print] of a line that quotes a text of the document or of the
    endpoint's answer: standard output cannot encode a lone surrogate, so
    nothing is written and [UnicodeEncodeError] is raised. *)
Definition print_text (line : pystr) : M unit :=
  if encodable line then print line else raise UnicodeEncodeError.

Definition sleep (d : Z) : M unit := fun w =>
  (inr tt, World (fs w) (stdout w) (cache_obj w) (posts w) (slept w ++ [d])).

Definition get_cache : M cache := fun w => (inr (cache_obj w), w).

Definition put_cache (c : cache) : M unit := fun w =>
  (inr tt, World (fs w) (stdout w) c (posts w) (slept w)).

(** [os.path.exists(path)] *)
Definition path_exists (path : pystr) : M bool := fun w =>
  (inr (bool_decide (is_Some (fs w !! path))), w).

Definition write_file (path : pystr) (f : file) : M unit := fun w =>
  (inr tt, World (<[path := f]> (fs w)) (stdout w) (cache_obj w) (posts w) (slept w)).

Definition read_file (path : pystr) : M (option file) := fun w =>
  (inr (fs w !! path), w).

(** ** What the program is given from outside *)

(** An HTTP response: [status_code], [text], and what [response.json()]
    returns ([None] when it raises). *)
Record response := Response {
  status_code : Z;
  resp_text : pystr;
  resp_json : option json;
}.

(** A page of the input document, as the PDF library reports it. *)
Record page_info := PageInfo {
  block_types : list Z;      (* page.get_text("blocks"), the [6] field of each *)
  image_count : nat;         (* len(page.get_images(full=True)) *)
  page_width : Q;            (* page.rect.width *)
  page_height : Q;           (* page.rect.height *)
}.

Record env := Env {
  md5_hexdigest : pystr -> pystr;       (* hashlib.md5(data).hexdigest(), by the text
                                           whose UTF-8 encoding [data] is *)
  get_file_md5 : pystr -> pystr;        (* md5 of the file at a path *)
  config_path : pystr;                  (* expanded ~/.meeseeks_box/llm *)
  config_found : bool;
  config_error : option pystr;          (* reading the config file failed with this text *)
  API_KEY : option pystr;               (* after the file and os.environ were read *)
  OPENAI_API_ENDPOINT : option pystr;
  http_post : nat -> option response;   (* n-th requests.post; None: it raises *)
  pages : list page_info;               (* the input document, as fitz.open reads it *)
  extracted_direct : paragraphs_by_page;(* extract_paragraphs on the input *)
  extracted_ocr : paragraphs_by_page;   (* extract_text_with_ocr on the input *)
  fitz_version : pystr;                 (* str(fitz.version) *)
  font_loaded : bool;                   (* fitz.Font("tiro") succeeds *)
  insert_font_ok : nat -> bool;         (* dst_page.insert_font succeeds on a page *)
  test_insert_text_ok : pystr -> pystr -> Z -> bool; (* line, fontname, fontsize *)
  dst_insert_text_ok : pystr -> pystr -> Z -> bool;
  string_width : pystr -> Q;            (* canvas.stringWidth(s, 'CyrillicFont', 11) *)
  glyph_bbox : pystr -> Z * Z;          (* width and height from font.getbbox *)
  run_on_other_cache : json -> M unit;  (* the rest of [main] when the cache file holds
                                           JSON that is not a cache: not described here *)
}.

(** Text of an exception in an f-string: the class name stands for it. *)
Definition exn_text (e : exn) : pystr :=
  match e with
  | TypeError => lit "TypeError" | ValueError => lit "ValueError"
  | KeyError => lit "KeyError" | IndexError => lit "IndexError"
  | AttributeError => lit "AttributeError" | NameError => lit "NameError"
  | ZeroDivisionError => lit "ZeroDivisionError"
  | JSONDecodeError => lit "JSONDecodeError"
  | RequestException => lit "RequestException"
  | RuntimeError => lit "RuntimeError"
  | UnicodeEncodeError => lit "UnicodeEncodeError"
  | FileNotFoundError => lit "FileNotFoundError"
  end.

(** Truth value of an optional string: [None] and [''] are false. *)
Definition truthy_str (s : option pystr) : bool :=
  match s with Some (_ :: _) => true | _ => false end.

Definition str_or_none (s : option pystr) : pystr :=
  match s with Some s => s | None => lit "None" end.

(** * The program *)

Section Program.

Variable E : env.

(** ** utils.py *)

Definition cache_lookup (c : cache) (file_md5 text_md5 : pystr) : option pystr :=
  c !! file_md5 ≫= (fun d => d !! text_md5).

(** [if file_md5 not in cache: cache[file_md5] = {}] followed by
    [cache[file_md5][text_md5] = value]. *)
Definition cache_store (c : cache) (file_md5 text_md5 value : pystr) : cache :=
  let c' := match c !! file_md5 with
            | Some _ => c
            | None => <[file_md5 := ∅]> c
            end in
  <[file_md5 := <[text_md5 := value]> (default ∅ (c' !! file_md5))]> c'.

(** [get_text_md5(text)]: encoding the text raises on a surrogate. *)
Definition get_text_md5 (text : pystr) : res pystr :=
  if encodable text then inr (md5_hexdigest E text) else inl UnicodeEncodeError.

(** The cache as a JSON document, and a JSON value read as a cache: an
    object of objects of strings. *)
Definition json_of_entries (d : gmap pystr pystr) : json :=
  JObj ((fun kv : pystr * pystr => (kv.1, JStr kv.2)) <$> map_to_list d).

Definition json_of_cache (c : cache) : json :=
  JObj ((fun kv : pystr * gmap pystr pystr => (kv.1, json_of_entries kv.2))
          <$> map_to_list c).

Definition entries_of_json (j : json) : option (gmap pystr pystr) :=
  match j with
  | JObj members =>
      list_to_map <$>
        mapM (fun kv : pystr * json =>
                match kv.2 with JStr s => Some (kv.1, s) | _ => None end) members
  | _ => None
  end.

Definition cache_of_json (j : json) : option cache :=
  match j with
  | JObj members =>
      list_to_map <$>
        mapM (fun kv : pystr * json =>
                d ← entries_of_json kv.2; Some (kv.1, d)) members
  | _ => None
  end.

(** What [json.load] gave for the cache file. *)
Inductive loaded_cache :=
| LoadedCache (c : cache)     (* a [Dict[str, Dict[str, str]]] *)
| LoadedOther (j : json).     (* a JSON value of another shape *)

(** [load_translation_cache]: a missing or unreadable file gives [{}], a
    JSON document is returned as it is. *)
Definition load_translation_cache (cache_file : pystr) : M loaded_cache :=
  found <- path_exists cache_file;;
  if found then
    f <- read_file cache_file;;
    match f with
    | Some (FJson j) =>
        mret match cache_of_json j with
             | Some c => LoadedCache c
             | None => LoadedOther j
             end
    | _ =>
        print (lit "Warning: Failed to load cache file: " ++ exn_text JSONDecodeError);;
        mret (LoadedCache ∅)
    end
  else mret (LoadedCache ∅).

(** Every key and value of the cache can be written to a UTF-8 file. *)
Definition cache_encodable (c : cache) : bool :=
  forallb (fun kv : pystr * gmap pystr pystr =>
             encodable kv.1
             && forallb (fun e : pystr * pystr => encodable e.1 && encodable e.2)
                  (map_to_list kv.2))
    (map_to_list c).

(** [save_translation_cache]: a failed dump leaves the file cut short and
    is reported, not raised. *)
Definition save_translation_cache (cache_file : pystr) (c : cache) : M unit :=
  if cache_encodable c then write_file cache_file (FJson (json_of_cache c))
  else
    write_file cache_file FBytes;;
    print (lit "Warning: Failed to save cache file: " ++ exn_text UnicodeEncodeError).

(** ** llm.py *)

Definition load_api_config : M (option pystr * option pystr) :=
  (if config_found E then
     match config_error E with
     | Some e => print (lit "Warning: Failed to load config file: " ++ e)
     | None => mret tt
     end
   else print (lit "Warning: Config file not found at " ++ config_path E));;
  (if truthy_str (API_KEY E) then mret tt
   else print (lit "Warning: API_KEY not found in config or environment"));;
  (if truthy_str (OPENAI_API_ENDPOINT E) then mret tt
   else print (lit "Warning: OPENAI_API_ENDPOINT not found in config or environment"));;
  mret (API_KEY E, OPENAI_API_ENDPOINT E).

(** ** translate.py: [translate_text] *)

(** [requests.post(...)]: the next response of the endpoint, or an exception. *)
Definition requests_post : M response := fun w =>
  let w' := World (fs w) (stdout w) (cache_obj w) (S (posts w)) (slept w) in
  match http_post E (posts w) with
  | Some r => (inr r, w')
  | None => (inl RequestException, w')
  end.

(** [response.json()] *)
Definition response_json (r : response) : res json :=
  match resp_json r with
  | Some j => inr j
  | None => inl JSONDecodeError
  end.

(** Lines 62-66: [Some translated], or [None] for the [else] branch. *)
Definition read_choices (result : json) : res (option pystr) :=
  has_response <- py_contains (lit "response") result;;
  if negb has_response then mret None else
  inner <- py_getitem result (lit "response");;
  has_choices <- py_contains (lit "choices") inner;;
  if negb has_choices then mret None else
  choices <- py_getitem inner (lit "choices");;
  first <- py_getitem0 choices;;
  message <- py_getitem first (lit "message");;
  content <- py_getitem message (lit "content");;
  match content with
  | JStr s => mret (Some (strip s))
  | _ => inl AttributeError
  end.

Definition max_retries : Z := 3.

(** What one pass of the [for attempt in range(max_retries)] body does:
    [Some v] is [return v], [None] falls through to the next attempt.  The
    second component is [retry_delay] afterwards. *)
Definition retry_or_give_up (text : pystr) (attempt retry_delay : Z)
  : M (option pystr * Z) :=
  if attempt <? max_retries - 1 then
    sleep retry_delay;;
    mret (None, retry_delay * 2)
  else mret (Some text, retry_delay).

(** Lines 68-70: the two lines printed in debug mode. *)
Definition debug_lines (text translated : pystr) (debug_mode : bool) : M unit :=
  if debug_mode then
    print_text (lit "Original: " ++ take 50 text ++ lit "...");;
    print_text (lit "Translated: " ++ take 50 translated ++ lit "...")
  else mret tt.

Definition attempt_body (text file_md5 text_md5 : pystr) (debug_mode : bool)
    (attempt retry_delay : Z) : M (option pystr * Z) :=
  try_except
    (response <- requests_post;;
     if status_code response =? 200 then
       result <- lift (response_json response);;
       choices <- lift (read_choices result);;
       match choices with
       | Some translated =>
           debug_lines text translated debug_mode;;
           c <- get_cache;;
           put_cache (cache_store c file_md5 text_md5 translated);;
           mret (Some translated, retry_delay)
       | None =>
           print (lit "API Warning: Something with choices: " ++ resp_text response);;
           mret (Some text, retry_delay)
       end
     else
       print (lit "API Error: " ++ py_str (status_code response) ++ lit ", "
              ++ resp_text response);;
       retry_or_give_up text attempt retry_delay)
    (fun e =>
       print (lit "Error translating text (attempt " ++ py_str (attempt + 1)
              ++ lit "/" ++ py_str max_retries ++ lit "): " ++ exn_text e);;
       retry_or_give_up text attempt retry_delay).

(** [for attempt in range(max_retries): ...] then [return text]. *)
Fixpoint attempts (text file_md5 text_md5 : pystr) (debug_mode : bool)
    (remaining : nat) (attempt retry_delay : Z) : M pystr :=
  match remaining with
  | O => mret text
  | S remaining' =>
      r <- attempt_body text file_md5 text_md5 debug_mode attempt retry_delay;;
      match r with
      | (Some v, _) => mret v
      | (None, retry_delay') =>
          attempts text file_md5 text_md5 debug_mode remaining'
                   (attempt + 1) retry_delay'
      end
  end.

(** [translate_text(text, file_md5, cache, ignore_cache, debug_mode)]; the
    [cache] argument is the dict object held in the world. *)
Definition translate_text (text file_md5 : pystr) (ignore_cache debug_mode : bool)
  : M pystr :=
  text_md5 <- lift (get_text_md5 text);;
  c <- get_cache;;
  match (if ignore_cache then None else cache_lookup c file_md5 text_md5) with
  | Some cached =>
      print (lit "Cache hit! Using cached translation.");;
      mret cached
  | None =>
      config <- load_api_config;;
      let api_key := config.1 in
      let api_endpoint := config.2 in
      if negb (truthy_str api_key) || negb (truthy_str api_endpoint) then
        print (lit "Error: API configuration incomplete. Please check ~/.meeseeks_box/llm file.");;
        mret text
      else
        attempts text file_md5 text_md5 debug_mode (Z.to_nat max_retries) 0 2
  end.


(** ** text_utils.py *)

(** [= + - * / ^] and the integral, sum, product, root and comparison signs. *)
Definition formula_indicators : list N :=
  [61; 43; 45; 42; 47; 94; 8747; 8721; 8719; 8730; 8776; 8800; 8804; 8805]%N.

Definition is_indicator (c : N) : bool :=
  existsb (N.eqb c) formula_indicators.

Definition is_formula (text : pystr) : res bool :=
  let math_symbols_count := len (filter (fun c => is_indicator c = true) text) in
  let words := len (split text) in
  if (1 <? math_symbols_count) && (words <? 5) then mret true
  else
    ratio <- py_div (of_int math_symbols_count) (of_int (len text));;
    mret (Qltb (5 # 100) ratio).

(** ** ocr.py: the classifier *)

(** One pass of the loop of [is_image_based_pdf] over a sampled page. *)
Definition page_ratio_step (text_content_ratio : Q) (page : page_info) : Q :=
  let text_blocks_count := len (filter (fun t => t = 0) (block_types page)) in
  let image_blocks := Z.of_nat (image_count page) in
  if 0 <? text_blocks_count + image_blocks then
    (text_content_ratio
     + of_int text_blocks_count / of_int (text_blocks_count + image_blocks))%Q
  else text_content_ratio.

Definition is_image_based_pdf (doc : list page_info) (threshold : Q) : res bool :=
  let total_pages := len doc in
  let sampled := take (Z.to_nat (Z.min total_pages 5)) doc in
  let text_content_ratio := fold_left page_ratio_step sampled 0%Q in
  avg_ratio <- py_div text_content_ratio (of_int (Z.min total_pages 5));;
  mret (Qltb avg_ratio threshold).

(** ** translate.py: fonts and the raster fallback *)

(** First path of a list that exists. *)
Fixpoint first_existing (paths : list pystr) : M (option pystr) :=
  match paths with
  | [] => mret None
  | p :: rest =>
      found <- path_exists p;;
      if found then mret (Some p) else first_existing rest
  end.

Definition recommended_fonts : list (pystr * list pystr) :=
  [ (lit "Times New Roman", [lit "/Library/Fonts/Times New Roman.ttf";
                             lit "/Library/Fonts/TimesNewRomanPSMT.ttf"]);
    (lit "Georgia", [lit "/Library/Fonts/Georgia.ttf";
                     lit "/System/Library/Fonts/Supplemental/Georgia.ttf"]);
    (lit "Palatino", [lit "/Library/Fonts/Palatino.ttc";
                      lit "/System/Library/Fonts/Palatino.ttc"]);
    (lit "Arial", [lit "/Library/Fonts/Arial.ttf";
                   lit "/Library/Fonts/Arial Unicode.ttf"]);
    (lit "DejaVu Serif", [lit "/usr/share/fonts/truetype/dejavu/DejaVuSerif.ttf"]);
    (lit "Times New Roman", [lit "C:/Windows/Fonts/times.ttf"]) ].

(** [d[k] = v] on a dict kept in insertion order. *)
Fixpoint dict_set {K V} `{EqDecision K} (d : list (K * V)) (k : K) (v : V)
  : list (K * V) :=
  match d with
  | [] => [(k, v)]
  | (k', v') :: rest =>
      if decide (k = k') then (k, v) :: rest else (k', v') :: dict_set rest k v
  end.

(** [d.get(k)] *)
Fixpoint dict_get {K V} `{EqDecision K} (d : list (K * V)) (k : K) : option V :=
  match d with
  | [] => None
  | (k', v) :: rest => if decide (k = k') then Some v else dict_get rest k
  end.

Fixpoint check_font_availability_from (fonts : list (pystr * list pystr))
    (available : list (pystr * pystr)) : M (list (pystr * pystr)) :=
  match fonts with
  | [] => mret available
  | (name, paths) :: rest =>
      found <- first_existing paths;;
      check_font_availability_from rest
        match found with
        | Some path => dict_set available name path
        | None => available
        end
  end.

Definition check_font_availability : M (list (pystr * pystr)) :=
  check_font_availability_from recommended_fonts [].

(** The word loop of [fallback_insert_text_as_image], lines 198-226. *)
Fixpoint fallback_wrap (width : Z) (words : list pystr)
    (lines : list pystr) (current_line : list pystr) : list pystr :=
  match words with
  | [] =>
      match current_line with
      | [] => lines
      | _ => lines ++ [join space current_line]
      end
  | word :: rest =>
      let test_line := join space (current_line ++ [word]) in
      let w := (glyph_bbox E test_line).1 in
      if w <=? width - 10 then fallback_wrap width rest lines (current_line ++ [word])
      else
        match current_line with
        | [] => fallback_wrap width rest (lines ++ [word]) current_line
        | _ => fallback_wrap width rest (lines ++ [join space current_line]) [word]
        end
  end.

(** [int(x)] of a float: truncation toward zero. *)
Definition int_of_float (q : Q) : Z := Z.quot (Qnum q) (Z.pos (Qden q)).

(** [fallback_insert_text_as_image(page, text, bbox)]: the operation it adds
    to [page]. *)
Definition fallback_insert_text_as_image (text : pystr) (b : bbox) : M draw_op :=
  let width := int_of_float (x1 b - x0 b) in
  let height := int_of_float (y1 b - y0 b) in
  _ <- check_font_availability;;
  let lines := fallback_wrap width (split text) [] [] in
  mret (InsertImage b (TextBitmap width height lines)).

(** ** translate.py: [create_clean_translated_pdf] *)

Definition candidate_sizes : list Z := [11; 10; 9; 8; 7; 6].

(** [len(test_line) * font_size * width_factor < max_width] *)
Definition line_fits (test_line : pystr) (font_size : Z) (max_width : Q) : bool :=
  Qltb (of_int (len test_line * font_size) * (1 # 2)) max_width.

(** [bbox[2] - bbox[0] - 4] and [bbox[3] - bbox[1] - 5], as floats. *)
Definition max_width (b : bbox) : Q := fl_sub (fl_sub (x1 b) (x0 b)) 4.
Definition max_height (b : bbox) : Q := fl_sub (fl_sub (y1 b) (y0 b)) 5.

(** How the word loop of the fitting test ends. *)
Inductive fit_end :=
| WordsDone (line : list pystr) (current_y : Z)  (* all words placed, [line] left to render *)
| LineRaised                  (* inserting a full line raised: printed, [fits = False] *)
| TooTall.                    (* a line starts beyond the height: [fits = False] *)

(** The word loop of the fitting test, lines 383-409, from the state
    ([line], [current_y]); [y] is the first base line. *)
Fixpoint fit_words (font_name : pystr) (font_size : Z) (b : bbox) (y : Z)
    (words : list pystr) (line : list pystr) (current_y : Z) : fit_end :=
  match words with
  | [] => WordsDone line current_y
  | word :: rest =>
      match line with
      | [] => fit_words font_name font_size b y rest [word] current_y
      | _ =>
          let test_line := join space (line ++ [word]) in
          if line_fits test_line font_size (max_width b) then
            fit_words font_name font_size b y rest (line ++ [word]) current_y
          else if negb (test_insert_text_ok E (join space line) font_name font_size)
          then LineRaised
          else
            let line_height := font_size + 2 in
            let current_y := current_y + line_height in
            if Qltb (max_height b) (of_int (current_y - y))
            then TooTall
            else fit_words font_name font_size b y rest [word] current_y
      end
  end.

(** Lines 356-420 for one candidate size: the value of [fits] at the end. *)
Definition fits_at (font_name : pystr) (translated_text : pystr) (b : bbox)
    (font_size : Z) : bool :=
  let y := 50 + font_size in
  match fit_words font_name font_size b y (split translated_text) [] y with
  | WordsDone [] _ => true
  | WordsDone line _ => test_insert_text_ok E (join space line) font_name font_size
  | _ => false
  end.

(** The same lines with what they print: the error of a full line that
    could not be inserted (the last line fails silently). *)
Definition try_font_size (font_name translated_text : pystr) (b : bbox)
    (font_size : Z) : M bool :=
  let y := 50 + font_size in
  match fit_words font_name font_size b y (split translated_text) [] y with
  | LineRaised => print (lit "Error rendering line: " ++ exn_text RuntimeError)
  | _ => mret tt
  end;;
  mret (fits_at font_name translated_text b font_size).

(** The [for font_size in ...] loop with its [break]. *)
Fixpoint search_font_size (font_name translated_text : pystr) (b : bbox)
    (sizes : list Z) : M (option Z) :=
  match sizes with
  | [] => mret None
  | font_size :: rest =>
      fits <- try_font_size font_name translated_text b font_size;;
      if fits then mret (Some font_size)
      else search_font_size font_name translated_text b rest
  end.

(** [dst_page.insert_text(...)]: the operation, or the exception. *)
Definition dst_insert_text (x y : Q) (line : list pystr) (font_name : pystr)
    (font_size : Z) : res draw_op :=
  let s := join space line in
  if dst_insert_text_ok E s font_name font_size
  then inr (InsertText x y s font_name font_size)
  else inl RuntimeError.

(** The word loop of the commit path, lines 445-463. *)
Fixpoint commit_words (font_name : pystr) (best_font_size : Z) (b : bbox) (x : Q)
    (words : list pystr) (line : list pystr) (current_y : Q)
  : res (list draw_op) :=
  match words with
  | [] =>
      match line with
      | [] => mret []
      | _ =>
          op <- dst_insert_text x current_y line font_name best_font_size;;
          mret [op]
      end
  | word :: rest =>
      match line with
      | [] => commit_words font_name best_font_size b x rest [word] current_y
      | _ =>
          let test_line := join space (line ++ [word]) in
          if line_fits test_line best_font_size (max_width b) then
            commit_words font_name best_font_size b x rest (line ++ [word]) current_y
          else
            op <- dst_insert_text x current_y line font_name best_font_size;;
            let line_height := best_font_size + 2 in
            ops <- commit_words font_name best_font_size b x rest [word]
                     (fl_add current_y (of_int line_height));;
            mret (op :: ops)
      end
  end.

(** Lines 429-465: what is drawn once the search is over. *)
Definition commit (font_name translated_text : pystr) (b : bbox) (i : nat)
    (best_font_size : option Z) : M (list draw_op) :=
  match best_font_size with
  | Some size =>
      if negb (size =? 0) then
        print (lit "Success with font size " ++ py_str size ++ lit " for paragraph "
               ++ py_str (Z.of_nat i + 1));;
        ops <- lift (commit_words font_name size b (fl_add (x0 b) 2)
                       (split translated_text) [] (fl_add (y0 b) (of_int size)));;
        mret (DrawRect b :: ops)
      else
        print (lit "Warning: Could not fit text for paragraph " ++ py_str (Z.of_nat i + 1));;
        mret []
  | None =>
      print (lit "Warning: Could not fit text for paragraph " ++ py_str (Z.of_nat i + 1));;
      mret []
  end.

(** The translation shown for a paragraph, lines 345-350. *)
Definition translation_for (file_md5 text : pystr) (i : nat) : M pystr :=
  text_md5 <- lift (get_text_md5 text);;
  c <- get_cache;;
  match cache_lookup c file_md5 text_md5 with
  | Some translated_text => mret translated_text
  | None =>
      print (lit "Warning: Translation not found for paragraph "
             ++ py_str (Z.of_nat i + 1) ++ lit ". Using original text.");;
      mret text
  end.

(** The body of [for i, (text, bbox) in enumerate(paragraphs)], lines
    338-465: the operations it adds to [dst_page]. *)
Definition render_paragraph (file_md5 font_name : pystr) (i : nat)
    (text : pystr) (b : bbox) : M (list draw_op) :=
  formula <- lift (is_formula text);;
  if formula then
    print (lit "Skipping formula in paragraph " ++ py_str (Z.of_nat i + 1));;
    mret []
  else
    translated_text <- translation_for file_md5 text i;;
    best_font_size <- search_font_size font_name translated_text b candidate_sizes;;
    commit font_name translated_text b i best_font_size.

Fixpoint render_paragraphs (file_md5 font_name : pystr) (i : nat)
    (paragraphs : list (pystr * bbox)) : M (list draw_op) :=
  match paragraphs with
  | [] => mret []
  | (text, b) :: rest =>
      ops <- render_paragraph file_md5 font_name i text b;;
      more <- render_paragraphs file_md5 font_name (S i) rest;;
      mret (ops ++ more)
  end.

(** [debug_mode and (page_idx < start_page or
                     (end_page is not None and page_idx > end_page))] *)
Definition outside_debug_range (debug_mode : bool) (start_page : Z)
    (end_page : option Z) (page_idx : Z) : bool :=
  debug_mode &&
  ((page_idx <? start_page) ||
   match end_page with Some e => e <? page_idx | None => false end).

(** Lines 287-469 for one page that is processed. *)
Definition render_page (paragraphs_by_page : paragraphs_by_page) (file_md5 : pystr)
    (page_idx : nat) (src_page : page_info) : M out_page :=
  let paragraphs := default [] (dict_get paragraphs_by_page (Z.of_nat page_idx)) in
  let page_rect := BBox 0 0 (page_width src_page) (page_height src_page) in
  let background := InsertImage page_rect (PagePixmap page_idx) in
  font <-
    (if font_loaded E then
       if insert_font_ok E page_idx then
         print (lit "Successfully inserted font into page");;
         mret ([InsertFont (lit "F0")], lit "F0")
       else
         print (lit "Could not insert font into page: " ++ exn_text RuntimeError);;
         mret ([], lit "tiro")
     else mret ([], lit "tiro"));;
  ops <- render_paragraphs file_md5 font.2 0 paragraphs;;
  mret (DrawnPage (background :: font.1 ++ ops)).

Fixpoint render_pages (paragraphs_by_page : paragraphs_by_page) (file_md5 : pystr)
    (debug_mode : bool) (start_page : Z) (end_page : option Z)
    (page_idx : nat) (src_pages : list page_info) : M (list out_page) :=
  match src_pages with
  | [] => mret []
  | src_page :: rest =>
      page <-
        (if outside_debug_range debug_mode start_page end_page (Z.of_nat page_idx)
         then mret (CopiedPage page_idx)
         else render_page paragraphs_by_page file_md5 page_idx src_page);;
      more <- render_pages paragraphs_by_page file_md5 debug_mode start_page
                end_page (S page_idx) rest;;
      mret (page :: more)
  end.

(** [create_clean_translated_pdf]; [translation_cache] is the dict object of
    the world.  The document is saved only when every page went through. *)
Definition create_clean_translated_pdf (output_pdf : pystr)
    (paragraphs_by_page : paragraphs_by_page) (file_md5 : pystr)
    (debug_mode : bool) (start_page : Z) (end_page : option Z) : M unit :=
  print (lit "PyMuPDF version: " ++ fitz_version E);;
  (if font_loaded E then print (lit "Successfully loaded tiro font")
   else print (lit "Could not load tiro font: " ++ exn_text RuntimeError));;
  dst_doc <- render_pages paragraphs_by_page file_md5 debug_mode start_page
               end_page 0 (pages E);;
  write_file output_pdf (FPdf dst_doc);;
  print (lit "Translation completed. Output saved to " ++ output_pdf).

(** ** ocr.py: [create_translated_pdf_ocr_approach] *)

(** Values that reach a parameter of no fixed type. *)
Inductive pyval :=
| PNone
| PBool (b : bool)
| PInt (z : Z)
| PStr (s : pystr)
| PDict (c : cache).

(** Truth value, as [if v] and [v and ...] test it. *)
Definition truthy (v : pyval) : bool :=
  match v with
  | PNone => false
  | PBool b => b
  | PInt z => negb (z =? 0)
  | PStr s => match s with [] => false | _ => true end
  | PDict c => negb (bool_decide (c = ∅))
  end.

(** [n < v] and [n > v] for an [int] on the left. *)
Definition int_lt (n : Z) (v : pyval) : res bool :=
  match v with
  | PInt z => inr (n <? z)
  | PBool b => inr (n <? (if b then 1 else 0))
  | _ => inl TypeError
  end.

Definition int_gt (n : Z) (v : pyval) : res bool :=
  match v with
  | PInt z => inr (z <? n)
  | PBool b => inr ((if b then 1 else 0) <? n)
  | _ => inl TypeError
  end.

(** A call of [translate_text] with positional arguments: [text], [file_md5] and [cache] are
    required, [ignore_cache] and [debug_mode] optional.  Too few or too many
    arguments raise [TypeError] before the body runs. *)
Definition call_translate_text (args : list pyval) : M pystr :=
  match args with
  | [PStr text; PStr file_md5; PDict _] =>
      translate_text text file_md5 false false
  | [PStr text; PStr file_md5; PDict _; ignore_cache] =>
      translate_text text file_md5 (truthy ignore_cache) false
  | [PStr text; PStr file_md5; PDict _; ignore_cache; debug_mode] =>
      translate_text text file_md5 (truthy ignore_cache) (truthy debug_mode)
  | _ => raise TypeError
  end.

Definition possible_fonts : list pystr :=
  [ lit "/usr/share/fonts/truetype/dejavu/DejaVuSans.ttf";
    lit "/usr/share/fonts/truetype/liberation/LiberationSans-Regular.ttf";
    lit "/Library/Fonts/Arial Unicode.ttf";
    lit "/System/Library/Fonts/Supplemental/Arial Unicode.ttf";
    lit "C:/Windows/Fonts/arial.ttf";
    lit "C:/Windows/Fonts/times.ttf" ].

(** The word loop of the OCR path, lines 225-239. *)
Fixpoint ocr_wrap (text_width : Q) (words : list pystr)
    (lines : list pystr) (current_line : list pystr) : list pystr :=
  match words with
  | [] =>
      match current_line with
      | [] => lines
      | _ => lines ++ [join space current_line]
      end
  | word :: rest =>
      let test_line := join space (current_line ++ [word]) in
      if Qle_bool (string_width E test_line) text_width
      then ocr_wrap text_width rest lines (current_line ++ [word])
      else
        match current_line with
        | [] => ocr_wrap text_width rest (lines ++ [word]) []
        | _ => ocr_wrap text_width rest (lines ++ [join space current_line]) [word]
        end
  end.

(** Drawing the lines, lines 242-253; [j] counts from 0. *)
Fixpoint ocr_draw_lines (height : Q) (b : bbox) (j : Z) (lines : list pystr)
  : list draw_op :=
  match lines with
  | [] => []
  | line :: rest =>
      let line_height := 14 in
      let y_pos := (height - y0 b - of_int ((j + 1) * line_height))%Q in
      if Qltb (height - y1 b) y_pos then
        DrawString (x0 b + 2) y_pos line :: ocr_draw_lines height b (j + 1) rest
      else if 0 <? j then
        [DrawString (x0 b + 2) (height - y0 b - of_int (j * line_height)) (lit "...")]
      else []
  end.

(** The body of the paragraph loop, lines 208-253. *)
Definition ocr_paragraph (height : Q) (i n : nat) (page_num : Z)
    (text : pystr) (b : bbox) : M (list draw_op) :=
  print (lit "Translating paragraph " ++ py_str (Z.of_nat i + 1) ++ lit "/"
         ++ py_str (Z.of_nat n) ++ lit " on page " ++ py_str (page_num + 1)
         ++ lit "...");;
  translated_text <- call_translate_text [PStr text];;
  let text_width := (x1 b - x0 b - 4)%Q in
  let lines := ocr_wrap text_width (split translated_text) [] [] in
  mret (CanvasRect (x0 b) (height - y1 b) (x1 b - x0 b) (y1 b - y0 b)
        :: ocr_draw_lines height b 0 lines).

Fixpoint ocr_paragraphs (height : Q) (i n : nat) (page_num : Z)
    (paragraphs : list (pystr * bbox)) : M (list draw_op) :=
  match paragraphs with
  | [] => mret []
  | (text, b) :: rest =>
      ops <- ocr_paragraph height i n page_num text b;;
      more <- ocr_paragraphs height (S i) n page_num rest;;
      mret (ops ++ more)
  end.

Definition delete_file (path : pystr) : M unit := fun w =>
  (inr tt, World (delete path (fs w)) (stdout w) (cache_obj w) (posts w) (slept w)).

(** Lines 172-266 for one page. *)
Definition ocr_page (paragraphs_by_page : paragraphs_by_page)
    (debug_mode start_page end_page : pyval) (page_num : nat) (page : page_info)
  : M out_page :=
  skip <-
    (if truthy debug_mode then
       lift (below <- int_lt (Z.of_nat page_num) start_page;;
             if below then mret true else int_gt (Z.of_nat page_num) end_page)
     else mret false);;
  if skip then mret (CopiedPage page_num)
  else
    let paragraphs := default [] (dict_get paragraphs_by_page (Z.of_nat page_num)) in
    match paragraphs with
    | [] => mret (CopiedPage page_num)
    | _ =>
        let width := page_width page in
        let height := page_height page in
        let temp_img_path :=
          lit "temp_page_" ++ py_str (Z.of_nat page_num) ++ lit ".jpg" in
        write_file temp_img_path FBytes;;
        ops <- ocr_paragraphs height 0 (length paragraphs) (Z.of_nat page_num)
                 paragraphs;;
        delete_file temp_img_path;;
        mret (DrawnPage (CanvasImage 0 0 width height (PagePixmap page_num) :: ops))
    end.

Fixpoint ocr_pages (paragraphs_by_page : paragraphs_by_page)
    (debug_mode start_page end_page : pyval) (page_num : nat)
    (doc : list page_info) : M (list out_page) :=
  match doc with
  | [] => mret []
  | page :: rest =>
      p <- ocr_page paragraphs_by_page debug_mode start_page end_page page_num page;;
      more <- ocr_pages paragraphs_by_page debug_mode start_page end_page
                (S page_num) rest;;
      mret (p :: more)
  end.

(** [create_translated_pdf_ocr_approach(input_pdf, output_pdf,
    paragraphs_by_page, debug_mode, start_page, end_page)] *)
Definition create_translated_pdf_ocr_approach (output_pdf : pystr)
    (paragraphs_by_page : paragraphs_by_page)
    (debug_mode start_page end_page : pyval) : M unit :=
  font_path <- first_existing possible_fonts;;
  match font_path with
  | None =>
      print (lit "Warning: Could not find a font that supports Cyrillic characters")
  | Some font_path =>
      print (lit "Using font: " ++ font_path ++ lit " for Russian text");;
      out <- ocr_pages paragraphs_by_page debug_mode start_page end_page 0 (pages E);;
      write_file output_pdf (FPdf out);;
      print (lit "Translation completed. Output saved to " ++ output_pdf)
  end.

(** ** main.py *)

Inductive command := Translate | Regenerate.

(** The parsed command line. *)
Record args := Args {
  arg_command : command;
  input_pdf : pystr;
  output_pdf : pystr;
  ignore_cache : bool;
  font : option pystr;
  debug : bool;
  start_page : Z;
  end_page : option Z;
}.

(** [list(bbox)] *)
Definition bbox_to_json (b : bbox) : json :=
  JArr [JNum (x0 b); JNum (y0 b); JNum (x1 b); JNum (y1 b)].

(** [(text, list(bbox))], which [json.dump] writes as an array. *)
Definition fragment_to_json (p : pystr * bbox) : json :=
  JArr [JStr p.1; bbox_to_json p.2].

(** Lines 72-76: [serializable_data], filled page by page. *)
Fixpoint serialize_from (serializable_data : list (pystr * json))
    (items : paragraphs_by_page) : list (pystr * json) :=
  match items with
  | [] => serializable_data
  | (page_num, paragraphs) :: rest =>
      serialize_from
        (dict_set serializable_data (py_str page_num)
           (JArr (fragment_to_json <$> paragraphs)))
        rest
  end.

Definition serialize_paragraphs (p : paragraphs_by_page) : json :=
  JObj (serialize_from [] p).

(** A fragment as it comes back: [(text, tuple(bbox))] with whatever the
    file held. *)
Abbreviation raw_paragraphs := (list (Z * list (json * list json))).

(** [(text, tuple(bbox)) for text, bbox in paragraphs], one element. *)
Definition fragment_of_json (item : json) : res (json * list json) :=
  pair <- py_iter item;;
  match pair with
  | [text; bbox] =>
      t <- py_iter bbox;;
      mret (text, t)
  | _ => inl ValueError
  end.

Fixpoint map_res {A B} (f : A -> res B) (l : list A) : res (list B) :=
  match l with
  | [] => mret []
  | a :: rest =>
      b <- f a;;
      bs <- map_res f rest;;
      mret (b :: bs)
  end.

(** Lines 112-116: [paragraphs_by_page], filled member by member. *)
Fixpoint deserialize_from (paragraphs_by_page : raw_paragraphs)
    (members : list (pystr * json)) : res raw_paragraphs :=
  match members with
  | [] => mret paragraphs_by_page
  | (page_num_str, paragraphs) :: rest =>
      (* the list on the right is built before the key on the left *)
      items <- py_iter paragraphs;;
      fragments <- map_res fragment_of_json items;;
      page_num <- py_int page_num_str;;
      deserialize_from (dict_set paragraphs_by_page page_num fragments) rest
  end.

Definition deserialize_paragraphs (serialized_data : json) : res raw_paragraphs :=
  match serialized_data with
  | JObj members => deserialize_from [] members
  | _ => inl AttributeError
  end.

(** The loaded value of a fragment written by [fragment_to_json]. *)
Definition raw_fragment (p : pystr * bbox) : json * list json :=
  (JStr p.1, [JNum (x0 p.2); JNum (y0 p.2); JNum (x1 p.2); JNum (y1 p.2)]).

Definition raw_of (p : paragraphs_by_page) : raw_paragraphs :=
  (fun kv : Z * list (pystr * bbox) => (kv.1, raw_fragment <$> kv.2)) <$> p.

(** The renderers read [text] as a string and [bbox[0..3]] as numbers;
    loaded values of another shape are refused where they are handed over. *)
Definition typed_fragment (f : json * list json) : res (pystr * bbox) :=
  match f with
  | (JStr text, [JNum a; JNum b; JNum c; JNum d]) => mret (text, BBox a b c d)
  | _ => inl TypeError
  end.

Fixpoint typed_paragraphs (raw : raw_paragraphs) : res paragraphs_by_page :=
  match raw with
  | [] => mret []
  | (page_num, fragments) :: rest =>
      fs <- map_res typed_fragment fragments;;
      more <- typed_paragraphs rest;;
      mret ((page_num, fs) :: more)
  end.

(** The module globals [DEBUG_MODE], [DEBUG_START_PAGE], [DEBUG_END_PAGE];
    the last one is bound only when [--end-page] was given. *)
Definition skip_page (a : args) (page_num : Z) : res bool :=
  if negb (debug a) then mret false
  else if page_num <? start_page a then mret true
  else
    match end_page a with
    | None => inl NameError
    | Some e => mret (e <? page_num)
    end.

(** Line 88: the line printed before a paragraph is translated. *)
Definition progress_line (i n : nat) (page_num : Z) : pystr :=
  lit "Translating paragraph " ++ py_str (Z.of_nat i + 1) ++ lit "/"
  ++ py_str (Z.of_nat n) ++ lit " on page " ++ py_str (page_num + 1) ++ lit "...".

(** Lines 87-96 for one paragraph. *)
Definition translate_paragraph (a : args) (file_md5 : pystr) (i n : nat)
    (page_num : Z) (text : pystr) : M unit :=
  print (progress_line i n page_num);;
  translated_text <- translate_text text file_md5 (ignore_cache a) false;;
  text_md5 <- lift (get_text_md5 text);;
  translation_cache <- get_cache;;
  put_cache (cache_store translation_cache file_md5 text_md5 translated_text).

Fixpoint translate_paragraphs (a : args) (file_md5 : pystr) (i n : nat)
    (page_num : Z) (paragraphs : list (pystr * bbox)) : M unit :=
  match paragraphs with
  | [] => mret tt
  | (text, _) :: rest =>
      translate_paragraph a file_md5 i n page_num text;;
      translate_paragraphs a file_md5 (S i) n page_num rest
  end.

(** Lines 83-96. *)
Fixpoint translate_pages (a : args) (file_md5 : pystr)
    (items : paragraphs_by_page) : M unit :=
  match items with
  | [] => mret tt
  | (page_num, paragraphs) :: rest =>
      skip <- lift (skip_page a page_num);;
      (if skip then mret tt
       else translate_paragraphs a file_md5 0 (length paragraphs) page_num paragraphs);;
      translate_pages a file_md5 rest
  end.

Definition cache_file : pystr := lit "translation_cache.json".

Definition paragraphs_file_of (file_md5 : pystr) : pystr :=
  file_md5 ++ lit "_paragraphs.json".

Definition total_paragraphs (p : paragraphs_by_page) : Z :=
  fold_right Z.add 0 ((fun kv : Z * list (pystr * bbox) => len kv.2) <$> p).

(** Every text of the paragraphs can be written to a UTF-8 file. *)
Definition paragraphs_encodable (p : paragraphs_by_page) : bool :=
  forallb (fun kv : Z * list (pystr * bbox) =>
             forallb (fun f : pystr * bbox => encodable f.1) kv.2) p.

(** Lines 70-77: the paragraphs file is opened for writing and the
    paragraphs are dumped; a text that cannot be encoded stops the dump. *)
Definition save_paragraphs (path : pystr) (p : paragraphs_by_page) : M unit :=
  if paragraphs_encodable p then write_file path (FJson (serialize_paragraphs p))
  else
    write_file path FBytes;;
    raise UnicodeEncodeError.

(** Lines 109-116: the paragraphs file read back. *)
Definition load_paragraphs (path : pystr) : M raw_paragraphs :=
  f <- read_file path;;
  serialized_data <-
    match f with
    | Some (FJson j) => mret j
    | Some _ => raise JSONDecodeError
    | None => raise FileNotFoundError
    end;;
  lift (deserialize_paragraphs serialized_data).

(** Lines 60-80 of the [translate] branch: the paragraphs are extracted,
    written to the paragraphs file and counted. *)
Definition extract_and_save (file_md5 : pystr) (is_image_pdf : bool)
  : M paragraphs_by_page :=
  paragraphs_by_page <-
    (if is_image_pdf then
       print (lit "Using OCR to extract text...");;
       mret (extracted_ocr E)
     else
       print (lit "Extracting text directly from PDF...");;
       mret (extracted_direct E));;
  save_paragraphs (paragraphs_file_of file_md5) paragraphs_by_page;;
  print (lit "Found " ++ py_str (total_paragraphs paragraphs_by_page)
         ++ lit " paragraphs across " ++ py_str (len paragraphs_by_page)
         ++ lit " pages");;
  mret paragraphs_by_page.

(** The [translate] branch, lines 60-100. *)
Definition main_translate (a : args) (file_md5 : pystr) (is_image_pdf : bool)
  : M unit :=
  paragraphs_by_page <- extract_and_save file_md5 is_image_pdf;;
  translate_pages a file_md5 paragraphs_by_page;;
  translation_cache <- get_cache;;
  save_translation_cache cache_file translation_cache;;
  print (lit "Translation completed. Cache saved to " ++ cache_file).

Definition opt_str (s : option pystr) : pyval :=
  match s with Some s => PStr s | None => PNone end.

(** The [regenerate] branch, lines 102-133. *)
Definition main_regenerate (a : args) (file_md5 : pystr) (is_image_pdf : bool)
  : M unit :=
  let paragraphs_file := paragraphs_file_of file_md5 in
  found <- path_exists paragraphs_file;;
  if negb found then
    print (lit "Error: Paragraphs file " ++ paragraphs_file
           ++ lit " not found. Run 'translate' command first.")
  else
    raw <- load_paragraphs paragraphs_file;;
    paragraphs_by_page <- lift (typed_paragraphs raw);;
    translation_cache <- get_cache;;
    (if is_image_pdf then
       print (lit "Creating translated PDF with image-based approach...");;
       create_translated_pdf_ocr_approach (output_pdf a) paragraphs_by_page
         (PDict translation_cache) (PStr file_md5) (opt_str (font a))
     else
       print (lit "Creating translated PDF with text-based approach...");;
       create_clean_translated_pdf (output_pdf a) paragraphs_by_page file_md5
         false 0 None);;
    print (lit "PDF regeneration completed. Output saved to " ++ output_pdf a).

(** [len(value)] *)
Definition py_len (j : json) : res Z :=
  match j with
  | JObj members => inr (len members)
  | JArr items => inr (len items)
  | JStr s => inr (len s)
  | _ => inl TypeError
  end.

(** Lines 50-53: the cache is asked for the document. *)
Definition report_cache (a : args) (file_md5 : pystr) (translation_cache : loaded_cache)
  : M unit :=
  match translation_cache with
  | LoadedCache c =>
      match c !! file_md5 with
      | Some entries =>
          if negb (ignore_cache a) then
            print (lit "File found in cache with " ++ py_str (Z.of_nat (size entries))
                   ++ lit " translated paragraphs")
          else print (lit "File not in cache or cache is being ignored")
      | None => print (lit "File not in cache or cache is being ignored")
      end
  | LoadedOther j =>
      found <- lift (py_contains file_md5 j);;
      if found && negb (ignore_cache a) then
        entries <- lift (py_getitem j file_md5);;
        n <- lift (py_len entries);;
        print (lit "File found in cache with " ++ py_str n
               ++ lit " translated paragraphs")
      else print (lit "File not in cache or cache is being ignored")
  end.

(** Lines 34-57: configuration, cache, document hash and classification.
    Returns [file_md5], [is_image_pdf] and the loaded cache. *)
Definition main_prelude (a : args) : M (pystr * bool * loaded_cache) :=
  config <- load_api_config;;
  print (lit "API Endpoint: " ++ str_or_none config.2);;
  print (lit "API Key found: " ++ if truthy_str config.1 then lit "Yes" else lit "No");;
  translation_cache <- load_translation_cache cache_file;;
  let file_md5 := get_file_md5 E (input_pdf a) in
  print (lit "File MD5: " ++ file_md5);;
  report_cache a file_md5 translation_cache;;
  is_image_pdf <- lift (is_image_based_pdf (pages E) (3 # 10));;
  print (lit "PDF is primarily "
         ++ (if is_image_pdf then lit "image-based" else lit "text-based"));;
  mret (file_md5, is_image_pdf, translation_cache).

(** [main]; the cache that was loaded becomes the dict object of the world.
    The functions above take the cache as a [Dict[str, Dict[str, str]]]: a
    run on a cache file of another shape is left to the environment. *)
Definition main (a : args) : M unit :=
  st <- main_prelude a;;
  match st.2 with
  | LoadedCache c =>
      put_cache c;;
      match arg_command a with
      | Translate => main_translate a st.1.1 st.1.2
      | Regenerate => main_regenerate a st.1.1 st.1.2
      end
  | LoadedOther j => run_on_other_cache E j
  end.

(** ** Notions used to state the properties *)

(** How one attempt of [translate_text] ends, by what the endpoint answers:
    with a translation, with the [else] branch of line 64 (the original text
    is returned at once), or in a way that asks for a retry (an exception
    inside [try], or a status other than 200). *)
Inductive outcome :=
| Success (translated : pystr)
| Passthrough
| Retry.

Definition classify (debug_mode : bool) (r : option response) : outcome :=
  match r with
  | None => Retry
  | Some response =>
      if status_code response =? 200 then
        match (result <- response_json response;; read_choices result) with
        | inr (Some translated) =>
            (* line 70, inside [try]: the translation is printed in debug mode *)
            if debug_mode && negb (encodable (take 50 translated)) then Retry
            else Success translated
        | inr None => Passthrough
        | inl _ => Retry
        end
      else Retry
  end.

(** The outcomes of the next [n] requests, seen from a world. *)
Definition outcomes (debug_mode : bool) (w : world) (n : nat) : list outcome :=
  (fun k => classify debug_mode (http_post E (posts w + k)%nat)) <$> seq 0 n.

(** The first outcome that does not ask for a retry, if there is one. *)
Fixpoint decisive (os : list outcome) : outcome :=
  match os with
  | [] => Retry
  | Retry :: rest => decisive rest
  | o :: _ => o
  end.

(** The number of requests issued until then. *)
Fixpoint consumed (os : list outcome) : nat :=
  match os with
  | [] => O
  | Retry :: rest => S (consumed rest)
  | _ :: _ => 1%nat
  end.

(** [translate_text] goes to the network: the cache is bypassed or has no
    entry for the text. *)
Definition cache_miss (w : world) (file_md5 text : pystr) (ignore_cache : bool)
  : Prop :=
  ignore_cache = true
  \/ cache_lookup (cache_obj w) file_md5 (md5_hexdigest E text) = None.

Definition config_complete : Prop :=
  truthy_str (API_KEY E) = true /\ truthy_str (OPENAI_API_ENDPOINT E) = true.

End Program.

(** The answers of the endpoint, in the words of the retry policy.  An
    answer that is followed by a retry: a transport error, a status other
    than 200, a 200 answer whose body is not JSON, or one whose list of
    choices is empty. *)
Inductive answer_retried : option response -> Prop :=
| transport_error : answer_retried None
| error_status (r : response) :
    status_code r <> 200 -> answer_retried (Some r)
| unparsable_body (r : response) :
    status_code r = 200 -> resp_json r = None -> answer_retried (Some r)
| no_first_choice (r : response) (members inner : list (pystr * json)) :
    status_code r = 200 -> resp_json r = Some (JObj members) ->
    assoc (lit "response") members = Some (JObj inner) ->
    assoc (lit "choices") inner = Some (JArr []) ->
    answer_retried (Some r).

(** A 200 answer whose body is a JSON object without the [response] member,
    or with a [response] object without the [choices] member. *)
Inductive answer_without_choices : option response -> Prop :=
| no_response_member (r : response) (members : list (pystr * json)) :
    status_code r = 200 -> resp_json r = Some (JObj members) ->
    assoc (lit "response") members = None ->
    answer_without_choices (Some r)
| no_choices_member (r : response) (members inner : list (pystr * json)) :
    status_code r = 200 -> resp_json r = Some (JObj members) ->
    assoc (lit "response") members = Some (JObj inner) ->
    assoc (lit "choices") inner = None ->
    answer_without_choices (Some r).

(** The cache file is absent, is not a JSON document, or holds a cache. *)
Definition cache_file_well_formed (w : world) : Prop :=
  forall j, fs w !! cache_file = Some (FJson j) -> is_Some (cache_of_json j).

(** A 200 answer that carries [content] as the first choice. *)
Definition answer_translated (r : option response) (content : pystr) : Prop :=
  exists (response : response) (members inner first message : list (pystr * json))
         (more : list json),
    r = Some response
    /\ status_code response = 200
    /\ resp_json response = Some (JObj members)
    /\ assoc (lit "response") members = Some (JObj inner)
    /\ assoc (lit "choices") inner = Some (JArr (JObj first :: more))
    /\ assoc (lit "message") first = Some (JObj message)
    /\ assoc (lit "content") message = Some (JStr content).

(** An ASCII digit. *)
Definition is_digit_char (c : N) : Prop := (48 <= c <= 57)%N.

(** The member of the paragraphs file written for one page. *)
Definition member_of (kv : Z * list (pystr * bbox)) : pystr * json :=
  (py_str kv.1, JArr (fragment_to_json <$> kv.2)).

(** [sys.exit(main())] of the console script: the status of the process. *)
Definition exit_status (r : res unit) : Z :=
  match r with
  | inr tt => 0
  | inl _ => 1
  end.

(** * Extraction *)

(** A block of [page.get_text("blocks")]: the four coordinates, the text
    ([block[4]]) and the type ([block[6]]). *)
Record text_block := TextBlock {
  block_x0 : Q; block_y0 : Q; block_x1 : Q; block_y1 : Q;
  block_text : pystr;
  block_type : Z;
}.

(** One entry of [pytesseract.image_to_data]: the columns [text], [left],
    [top], [width] and [height] at one index. *)
Record ocr_token := OcrToken {
  tok_text : pystr;
  tok_left : Z; tok_top : Z; tok_width : Z; tok_height : Z;
}.

Section Extraction.

(** [detect(text)]: the language code, or an exception. *)
Variable detect : pystr -> res pystr.

(** [debug_mode and (page_num < start_page or page_num > end_page)]; the
    bounds default to [None]. *)
Definition outside_range (debug_mode : bool) (start_page end_page : pyval)
    (page_num : Z) : res bool :=
  if debug_mode then
    below <- int_lt page_num start_page;;
    if below then mret true else int_gt page_num end_page
  else mret false.

(** ** text_utils.py: [extract_paragraphs] *)

(** Lines 38-51 for one block: the paragraph it gives, if any. *)
Definition block_paragraph (block : text_block) : option (pystr * bbox) :=
  if block_type block =? 0 then
    let text := block_text block in
    match strip text with
    | [] => None
    | _ =>
        let long := 10 <? len (strip text) in
        let tried : res bool :=
          if long then
            formula <- is_formula text;;
            if formula then mret false
            else
              lang <- detect text;;
              mret (bool_decide (lang = lit "en"))
          else mret false in
        let keep := match tried with
                    | inr k => k
                    | inl _ => long         (* the bare [except:] *)
                    end in
        if keep
        then Some (text, BBox (block_x0 block) (block_y0 block)
                               (block_x1 block) (block_y1 block))
        else None
    end
  else None.

Fixpoint extract_pages (debug_mode : bool) (start_page end_page : pyval)
    (page_num : Z) (doc : list (list text_block))
    (by_page : paragraphs_by_page) : res paragraphs_by_page :=
  match doc with
  | [] => mret by_page
  | text_blocks :: rest =>
      skip <- outside_range debug_mode start_page end_page page_num;;
      let paragraphs := if skip then [] else omap block_paragraph text_blocks in
      extract_pages debug_mode start_page end_page (page_num + 1) rest
        (dict_set by_page page_num paragraphs)
  end.

(** [extract_paragraphs(pdf_path, debug_mode, start_page, end_page)] on the
    text blocks of the pages of the document. *)
Definition extract_paragraphs (doc : list (list text_block)) (debug_mode : bool)
    (start_page end_page : pyval) : res paragraphs_by_page :=
  extract_pages debug_mode start_page end_page 0 doc [].

(** ** ocr.py: [extract_text_with_ocr] *)

(** Lines 85-92: the box after one more token. *)
Definition expand_bbox (current_bbox : option (Z * Z * Z * Z)) (t : ocr_token)
  : Z * Z * Z * Z :=
  let x := tok_left t in
  let y := tok_top t in
  let w := tok_width t in
  let h := tok_height t in
  match current_bbox with
  | None => (x, y, x + w, y + h)
  | Some (a, b, c, d) => (Z.min a x, Z.min b y, Z.max c (x + w), Z.max d (y + h))
  end.

(** [tuple(current_bbox)] *)
Definition tuple_bbox (current_bbox : option (Z * Z * Z * Z)) : res bbox :=
  match current_bbox with
  | Some (a, b, c, d) => mret (BBox (of_int a) (of_int b) (of_int c) (of_int d))
  | None => inl TypeError
  end.

(** Lines 97-107 (and 114-121): the paragraph that ends here is kept or
    dropped. *)
Definition close_paragraph (paragraphs : list (pystr * bbox))
    (current_paragraph : list pystr) (current_bbox : option (Z * Z * Z * Z))
  : res (list (pystr * bbox)) :=
  let paragraph_text := join space current_paragraph in
  if 10 <? len (strip paragraph_text) then
    formula <- is_formula paragraph_text;;
    if formula then mret paragraphs
    else
      let keep := match detect paragraph_text with
                  | inr lang => bool_decide (lang = lit "en")
                  | inl _ => true
                  end in
      if keep then
        box <- tuple_bbox current_bbox;;
        mret (paragraphs ++ [(paragraph_text, box)])
      else mret paragraphs
  else mret paragraphs.

(** Lines 77-121: the loop over the tokens of one page. *)
Fixpoint ocr_group (tokens : list ocr_token) (paragraphs : list (pystr * bbox))
    (current_paragraph : list pystr) (current_bbox : option (Z * Z * Z * Z))
  : res (list (pystr * bbox)) :=
  match tokens with
  | [] =>
      match current_paragraph with
      | [] => mret paragraphs
      | _ => close_paragraph paragraphs current_paragraph current_bbox
      end
  | t :: rest =>
      match strip (tok_text t) with
      | _ :: _ =>
          ocr_group rest paragraphs (current_paragraph ++ [tok_text t])
            (Some (expand_bbox current_bbox t))
      | [] =>
          match current_paragraph with
          | [] => ocr_group rest paragraphs current_paragraph current_bbox
          | _ =>
              paragraphs' <- close_paragraph paragraphs current_paragraph current_bbox;;
              ocr_group rest paragraphs' [] None
          end
      end
  end.

Fixpoint ocr_extract_pages (debug_mode : bool) (start_page end_page : pyval)
    (page_num : Z) (images : list (list ocr_token))
    (by_page : paragraphs_by_page) : res paragraphs_by_page :=
  match images with
  | [] => mret by_page
  | ocr_data :: rest =>
      skip <- outside_range debug_mode start_page end_page page_num;;
      paragraphs <- (if skip then mret [] else ocr_group ocr_data [] [] None);;
      ocr_extract_pages debug_mode start_page end_page (page_num + 1) rest
        (dict_set by_page page_num paragraphs)
  end.

(** [extract_text_with_ocr(pdf_path, debug_mode, start_page, end_page)] on
    the OCR data of the page images. *)
Definition extract_text_with_ocr (images : list (list ocr_token)) (debug_mode : bool)
    (start_page end_page : pyval) : res paragraphs_by_page :=
  ocr_extract_pages debug_mode start_page end_page 0 images [].

End Extraction.

(** ** Further notions used to state the properties *)

(** Two worlds with the same cache object and the same number of requests
    issued: what [translate_text] does next is the same in both. *)
Definition same_state (w w' : world) : Prop :=
  cache_obj w' = cache_obj w /\ posts w' = posts w.

(** The world in which the translate loop, started in [w], reaches the
    paragraph that follows the paragraphs [before] on the page [page_num]
    (of [n] paragraphs) that follows the pages [pre]. *)
Definition paragraph_reached (E : env) (a : args) (file_md5 : pystr)
    (pre : paragraphs_by_page) (page_num : Z) (before : list (pystr * bbox))
    (n : nat) (w : world) : world :=
  (translate_paragraphs E a file_md5 0 n page_num before
     (translate_pages E a file_md5 pre w).2).2.

(** The world in which [translate_text] is called for that paragraph: the
    progress line has been printed. *)
Definition paragraph_called (E : env) (a : args) (file_md5 : pystr)
    (pre : paragraphs_by_page) (page_num : Z) (before : list (pystr * bbox))
    (n : nat) (w : world) : world :=
  (print (progress_line (length before) n page_num)
     (paragraph_reached E a file_md5 pre page_num before n w)).2.

(** The word loop of the fitting test placed all the words. *)
Definition fit_done (r : fit_end) : bool :=
  match r with WordsDone _ _ => true | _ => false end.

(** The lines of text inserted by a list of operations, in order. *)
Definition inserted_lines (ops : list draw_op) : list pystr :=
  omap (fun op => match op with
                  | InsertText _ _ line _ _ => Some line
                  | _ => None
                  end) ops.

(** The number of formula indicators in a text. *)
Definition math_symbols (text : pystr) : Z :=
  len (filter (fun c => is_indicator c = true) text).

(** The box of a token. *)
Definition token_inside (t : ocr_token) (box : Z * Z * Z * Z) : Prop :=
  box.1.1.1 <= tok_left t /\ box.1.1.2 <= tok_top t
  /\ tok_left t + tok_width t <= box.1.2 /\ tok_top t + tok_height t <= box.2.

(** The delays of [n] retries starting from [retry_delay]: each one is
    twice the one before. *)
Fixpoint backoff (n : nat) (retry_delay : Z) : list Z :=
  match n with
  | O => []
  | S n' => retry_delay :: backoff n' (retry_delay * 2)
  end.

(** Nothing but printing happened between two worlds. *)
Definition only_printed (w w' : world) : Prop :=
  fs w' = fs w /\ cache_obj w' = cache_obj w /\ posts w' = posts w
  /\ slept w' = slept w.

(** A list of lines is the words of [words] in order, cut into non-empty
    groups, each group joined by spaces. *)
Definition wraps (lines : list pystr) (words : list pystr) : Prop :=
  exists groups : list (list pystr),
    lines = join space <$> groups
    /\ concat groups = words
    /\ Forall (fun group => group <> []) groups.

(** The smallest box around the tokens of a group: it holds the box of
    each token, and each of its sides is a side of one of them. *)
Definition bounding_box (group : list ocr_token) (box : Z * Z * Z * Z) : Prop :=
  (forall t, In t group -> token_inside t box)
  /\ (exists t, In t group /\ tok_left t = box.1.1.1)
  /\ (exists t, In t group /\ tok_top t = box.1.1.2)
  /\ (exists t, In t group /\ tok_left t + tok_width t = box.1.2)
  /\ (exists t, In t group /\ tok_top t + tok_height t = box.2).

(** A token whose text is empty after stripping, if there is a token. *)
Definition blank_or_absent (t : option ocr_token) : Prop :=
  match t with
  | Some t => strip (tok_text t) = []
  | None => True
  end.

(** A paragraph made of tokens of a page: the tokens of the page are
    [before ++ group ++ after], where [group] is a non-empty run of
    consecutive non-blank tokens that cannot be extended (the token before
    it, and the token after it, is blank or is not there); the text is the
    texts of the run in order joined by spaces, and the box is the smallest
    box around the tokens of the run. *)
Definition paragraph_of_tokens (tokens : list ocr_token) (p : pystr * bbox) : Prop :=
  exists (before group after : list ocr_token) (box : Z * Z * Z * Z),
    tokens = before ++ group ++ after
    /\ group <> []
    /\ (forall t, In t group -> strip (tok_text t) <> [])
    /\ blank_or_absent (last before)
    /\ blank_or_absent (head after)
    /\ p.1 = join space (tok_text <$> group)
    /\ p.2 = BBox (of_int box.1.1.1) (of_int box.1.1.2) (of_int box.1.2) (of_int box.2)
    /\ bounding_box group box.

(** A paragraph as [extract_text_with_ocr] keeps it. *)
Definition kept_paragraph (tokens : list ocr_token) (p : pystr * bbox) : Prop :=
  paragraph_of_tokens tokens p
  /\ 10 < len (strip p.1)
  /\ is_formula p.1 = inr false.

(** The state of the grouping loop after the tokens [before ++ group],
    while the run [group] is being collected. *)
Definition group_state (before group : list ocr_token)
    (current_paragraph : list pystr) (current_bbox : option (Z * Z * Z * Z)) : Prop :=
  current_paragraph = tok_text <$> group
  /\ (forall t, In t group -> strip (tok_text t) <> [])
  /\ blank_or_absent (last before)
  /\ match current_bbox with
     | None => group = []
     | Some box => bounding_box group box
     end.

(** A page without text blocks; a page with text blocks and no image. *)
Definition no_text_block (page : page_info) : Prop :=
  filter (fun t => t = 0) (block_types page) = [].

Definition text_only (page : page_info) : Prop :=
  filter (fun t => t = 0) (block_types page) <> [] /\ image_count page = O.

(** * Sample runs *)

Module Samples.

(** A well-formed body of the endpoint carrying [s] as the translation. *)
Definition chat_body (s : pystr) : json :=
  JObj [(lit "response",
         JObj [(lit "choices",
                JArr [JObj [(lit "message",
                             JObj [(lit "content", JStr s)])]])])].

Definition translated (s : pystr) : response :=
  Response 200 (lit "{...}") (Some (chat_body s)).

Definition server_error : response :=
  Response 500 (lit "Internal Server Error") None.

(** Status 200 and nothing in the body. *)
Definition empty_200 : response := Response 200 [] None.

(** Status 200 and a JSON body with no [response] member. *)
Definition no_choices_200 : response :=
  Response 200 (lit "{}") (Some (JObj [])).

Definition letter_page : page_info := PageInfo [0; 0; 0] 0 612 792.
Definition scanned_page : page_info := PageInfo [] 1 612 792.

(** An environment with the given endpoint, document and paragraphs; hashes
    are the identity; [test_ok] and [dst_ok] say whether text insertion
    succeeds on the test page and on the output page. *)
Definition sample_env (endpoint : nat -> option response) (doc : list page_info)
    (paragraphs : paragraphs_by_page) (test_ok dst_ok : bool) : env :=
  {| md5_hexdigest := fun s => s;
     get_file_md5 := fun _ => lit "d0c";
     config_path := lit "/home/user/.meeseeks_box/llm";
     config_found := true;
     config_error := None;
     API_KEY := Some (lit "key");
     OPENAI_API_ENDPOINT := Some (lit "https://llm.example/v1");
     http_post := endpoint;
     pages := doc;
     extracted_direct := paragraphs;
     extracted_ocr := paragraphs;
     fitz_version := lit "1.25.4";
     font_loaded := true;
     insert_font_ok := fun _ => true;
     test_insert_text_ok := fun _ _ _ => test_ok;
     dst_insert_text_ok := fun _ _ _ => dst_ok;
     string_width := fun s => of_int (len s * 6);
     glyph_bbox := fun s => (len s * 7, 12);
     run_on_other_cache := fun _ => raise RuntimeError |}.

Definition empty_world : world := World ∅ [] ∅ 0 [].

Definition hello : pystr := lit "Hello world, this is a paragraph.".
Definition privet : pystr := lit "Privet mir".

Definition wide_box : bbox := BBox 72 100 540 200.
Definition tiny_box : bbox := BBox 72 100 82 105.

Definition one_paragraph : paragraphs_by_page := [(0, [(hello, wide_box)])].

Definition regenerate_args : args :=
  Args Regenerate (lit "in.pdf") (lit "out.pdf") false None false 0 None.

Definition translate_args : args :=
  Args Translate (lit "in.pdf") (lit "out.pdf") false None false 0 None.

(** Every request is answered with the translation. *)
Definition fits_env : env :=
  sample_env (fun _ => Some (translated privet)) [letter_page] one_paragraph true true.

(** The test insertion raises for every line. *)
Definition test_fails_env : env :=
  sample_env (fun _ => Some (translated privet)) [letter_page] one_paragraph false true.

(** The test insertion succeeds, the insertion on the output page raises. *)
Definition commit_fails_env : env :=
  sample_env (fun _ => Some (translated privet)) [letter_page] one_paragraph true false.

(** The first request is answered 200 with an empty body, the next ones
    with the translation. *)
Definition empty_then_ok_env : env :=
  sample_env (fun k => match k with O => Some empty_200 | _ => Some (translated privet) end)
    [letter_page] one_paragraph true true.

(** The first request is answered 500, the next ones with the translation. *)
Definition flaky_env : env :=
  sample_env (fun k => match k with O => Some server_error | _ => Some (translated privet) end)
    [letter_page] one_paragraph true true.

(** No request gets through. *)
Definition down_env : env :=
  sample_env (fun _ => None) [letter_page] one_paragraph true true.

(** A scanned document: one page, one image, no text block. *)
Definition scanned_env : env :=
  sample_env (fun _ => Some (translated privet)) [scanned_page] one_paragraph true true.

Definition cached_world : world :=
  World ∅ [] {[ lit "d0c" := {[ hello := privet ]} ]} 0 [].

(** A machine with a Cyrillic font installed and nothing else. *)
Definition font_world : world :=
  World {[ lit "/usr/share/fonts/truetype/dejavu/DejaVuSans.ttf" := FBytes ]}
    [] ∅ 0 [].

(** The same machine after [translate] on the scanned document. *)
Definition translated_world : world := (main scanned_env translate_args font_world).2.

(** The paragraphs file is there, the translation cache file is not. *)
Definition no_cache_world : world :=
  World (<[ paragraphs_file_of (lit "d0c") := FJson (serialize_paragraphs one_paragraph) ]>
           (fs font_world)) [] ∅ 0 [].

Definition narrow_box : bbox := BBox 72 100 172 140.

(** Every request is answered with a translation that is a lone surrogate. *)
Definition surrogate_answer_env : env :=
  sample_env (fun _ => Some (translated [55296%N])) [letter_page] one_paragraph
    true true.

(** The cache file holds [null]. *)
Definition null_cache_world : world :=
  World {[ cache_file := FJson JNull ]} [] ∅ 0 [].

(** A box whose sides are the binary64 numbers nearest to 0.1 and 59.1. *)
Definition decimal_box : bbox := BBox (round64 (1 # 10)) 0 (round64 (591 # 10)) 10.

(** Two pages, one of them without fragments. *)
Definition two_fragments : paragraphs_by_page :=
  [(0, [(hello, wide_box); (privet, narrow_box)]); (2, [])].

(** A fragment whose text is a lone surrogate, U+D800. *)
Definition surrogate_paragraph : paragraphs_by_page :=
  [(0, [([55296%N], wide_box)])].

(** The same text on two pages. *)
Definition same_text_twice : paragraphs_by_page :=
  [(0, [(hello, wide_box)]); (1, [(hello, wide_box)])].

(** The first three requests do not get through, the next ones are answered
    with the translation. *)
Definition late_env : env :=
  sample_env (fun k => if (k <? 3)%nat then None else Some (translated privet))
    [letter_page; letter_page] same_text_twice true true.

(** [translate --ignore-cache] *)
Definition ignore_cache_args : args :=
  Args Translate (lit "in.pdf") (lit "out.pdf") true None false 0 None.

(** No API key is configured. *)
Definition no_key_env : env :=
  {| md5_hexdigest := fun s => s;
     get_file_md5 := fun _ => lit "d0c";
     config_path := lit "/home/user/.meeseeks_box/llm";
     config_found := false;
     config_error := None;
     API_KEY := None;
     OPENAI_API_ENDPOINT := Some (lit "https://llm.example/v1");
     http_post := fun _ => Some (translated privet);
     pages := [letter_page];
     extracted_direct := one_paragraph;
     extracted_ocr := one_paragraph;
     fitz_version := lit "1.25.4";
     font_loaded := true;
     insert_font_ok := fun _ => true;
     test_insert_text_ok := fun _ _ _ => true;
     dst_insert_text_ok := fun _ _ _ => true;
     string_width := fun s => of_int (len s * 6);
     glyph_bbox := fun s => (len s * 7, 12);
     run_on_other_cache := fun _ => raise RuntimeError |}.

(** The two lines the sample paragraph is committed on in the narrow box. *)
Definition two_lines : list draw_op :=
  [InsertText 74 111 (lit "Hello world, this") (lit "tiro") 11;
   InsertText 74 124 (lit "is a paragraph.") (lit "tiro") 11].

(** The page drawn for the sample document. *)
Definition drawn_page : out_page :=
  DrawnPage [InsertImage (BBox 0 0 612 792) (PagePixmap 0);
             InsertFont (lit "F0");
             DrawRect wide_box;
             InsertText 74 111 privet (lit "F0") 11].

(** A detector that takes every text for English. *)
Definition always_english : pystr -> res pystr := fun _ => inr (lit "en").

Definition hello_block : text_block := TextBlock 72 100 540 200 hello 0.

(** Three words, a blank entry that ends the paragraph, and a stray letter. *)
Definition page_tokens : list ocr_token :=
  [OcrToken (lit "Hello") 10 20 30 8; OcrToken (lit "world,") 45 21 32 9;
   OcrToken (lit "again") 80 19 28 8; OcrToken (lit " ") 0 0 0 0;
   OcrToken (lit "x") 10 40 5 5].

Definition page_tokens_paragraph : pystr * bbox :=
  (lit "Hello world, again", BBox 10 19 108 30).

End Samples.


(** * Properties *)

(** Unfolding the monad. *)
Ltac unfold_M :=
  unfold bind_first, mbind, M_bind, mret, M_ret, res_bind, res_ret, lift, raise,
    try_except, print, sleep, get_cache, put_cache, path_exists, write_file,
    read_file, delete_file in *.

(** ** Numbers *)

Lemma Qltb_lt (a b : Q) : Qltb a b = true <-> (a < b)%Q.
Proof.
  unfold Qltb. rewrite negb_true_iff, <- not_true_iff_false, Qle_bool_iff.
  split; [apply Qnot_le_lt | apply Qlt_not_le].
Qed.

Lemma Qltb_ge (a b : Q) : Qltb a b = false <-> (b <= a)%Q.
Proof.
  unfold Qltb. rewrite negb_false_iff. apply Qle_bool_iff.
Qed.

Lemma py_div_positive (a : Q) (n : Z) :
  0 < n -> py_div a (of_int n) = inr (a / of_int n)%Q.
Proof.
  intros Hn. unfold py_div, of_int.
  destruct (Qeq_bool (inject_Z n) 0) eqn:Heq; [|reflexivity].
  apply Qeq_bool_eq in Heq. unfold Qeq, inject_Z in Heq. simpl in Heq. lia.
Qed.

(** ** The classifier *)

Section Classifier.

(** A document with at least one page is classified, by comparing the
    average of the page ratios with the threshold. *)
Lemma is_image_based_pdf_nonempty (doc : list page_info) (threshold : Q) :
  doc <> [] ->
  is_image_based_pdf doc threshold =
  inr (Qltb (fold_left page_ratio_step (take (Z.to_nat (Z.min (len doc) 5)) doc) 0%Q
             / of_int (Z.min (len doc) 5))%Q threshold).
Proof.
  intros Hne. unfold is_image_based_pdf, bind_first, mbind, res_bind.
  rewrite py_div_positive; [reflexivity|].
  destruct doc; [congruence|]. unfold len. simpl length. lia.
Qed.

(** The loop adds nothing for a page with no blocks. *)
Lemma page_ratio_step_no_blocks (acc : Q) (page : page_info) :
  len (filter (fun t => t = 0) (block_types page)) = 0 ->
  image_count page = O ->
  page_ratio_step acc page = acc.
Proof.
  intros Ht Hi. unfold page_ratio_step. rewrite Ht, Hi. reflexivity.
Qed.

(** The scenario of the specification: four sampled pages with one text
    block and three images each average 0.25, below 0.3. *)
Example average_quarter_is_image_based :
  is_image_based_pdf (replicate 4 (PageInfo [0] 3 612 792)) (3 # 10) = inr true.
Proof. reflexivity. Qed.

(** C6: the classifier samples [min(5, page_count)] pages and averages their
    ratios, but the final division by [min(total_pages, 5)] is not guarded:
    on a document with no pages it raises [ZeroDivisionError] instead of
    returning a classification. *)
Theorem is_image_based_pdf_no_pages (threshold : Q) :
  is_image_based_pdf [] threshold = inl ZeroDivisionError.
Proof. reflexivity. Qed.

End Classifier.

(** ** The translator *)

Section Translator.

Variable E : env.

Lemma load_api_config_obs (w : world) :
  (load_api_config E w).1 = inr (API_KEY E, OPENAI_API_ENDPOINT E)
  /\ fs (load_api_config E w).2 = fs w
  /\ cache_obj (load_api_config E w).2 = cache_obj w
  /\ posts (load_api_config E w).2 = posts w.
Proof.
  unfold load_api_config. unfold_M.
  destruct (config_found E), (config_error E), (truthy_str (API_KEY E)),
    (truthy_str (OPENAI_API_ENDPOINT E)); simpl; auto.
Qed.

(** One attempt: one request, and what it leaves behind. *)
Lemma encodable_app (a b : pystr) :
  encodable (a ++ b) = encodable a && encodable b.
Proof. unfold encodable. apply forallb_app. Qed.

Lemma encodable_take (n : nat) (s : pystr) :
  encodable s = true -> encodable (take n s) = true.
Proof.
  revert n. induction s as [|c s IH]; intros [|n] H; try reflexivity.
  cbn [take encodable forallb] in *. apply andb_true_iff in H as [Hc Hs].
  rewrite Hc. exact (IH n Hs).
Qed.

(** A quoted line can be printed exactly when the quoted part can. *)
Lemma encodable_quoted (label s : pystr) :
  encodable label = true ->
  encodable (label ++ s ++ lit "...") = encodable s.
Proof.
  intros Hl. rewrite !encodable_app, Hl.
  replace (encodable (lit "...")) with true by reflexivity.
  rewrite andb_true_r. reflexivity.
Qed.

(** The debug lines change nothing but standard output; they raise when a
    quoted text cannot be printed, which for a text that was hashed can
    only be the translation. *)
Lemma debug_lines_obs (text translated : pystr) (debug_mode : bool) (w : world) :
  exists (r : res unit) (w' : world),
    debug_lines text translated debug_mode w = (r, w')
    /\ fs w' = fs w /\ cache_obj w' = cache_obj w /\ posts w' = posts w
    /\ slept w' = slept w
    /\ (r = inr tt \/ r = inl UnicodeEncodeError)
    /\ (encodable text = true ->
        r = if debug_mode && negb (encodable (take 50 translated))
            then inl UnicodeEncodeError else inr tt).
Proof.
  unfold debug_lines, print_text. destruct debug_mode.
  - rewrite !encodable_quoted by reflexivity.
    destruct (encodable (take 50 text)) eqn:H1;
      destruct (encodable (take 50 translated)) eqn:H2;
      cbv beta iota delta [mbind M_bind print raise];
      eexists _, _; (split; [reflexivity|]); cbn [fs cache_obj posts slept];
      repeat split; auto; intros Henc;
      rewrite (encodable_take 50 text Henc) in H1; discriminate.
  - exists (inr tt), w. repeat split; auto.
Qed.

Lemma attempt_body_obs (text file_md5 text_md5 : pystr) (debug_mode : bool)
    (attempt retry_delay : Z) (w : world) :
  encodable text = true ->
  let r := attempt_body E text file_md5 text_md5 debug_mode attempt retry_delay w in
  posts r.2 = S (posts w) /\ fs r.2 = fs w /\
  match classify debug_mode (http_post E (posts w)) with
  | Success t =>
      r.1 = inr (Some t, retry_delay)
      /\ cache_obj r.2 = cache_store (cache_obj w) file_md5 text_md5 t
  | Passthrough =>
      r.1 = inr (Some text, retry_delay) /\ cache_obj r.2 = cache_obj w
  | Retry =>
      r.1 = inr (if attempt <? max_retries - 1
                 then (None, retry_delay * 2) else (Some text, retry_delay))
      /\ cache_obj r.2 = cache_obj w
  end.
Proof.
  intros Henc.
  unfold attempt_body, classify, requests_post, retry_or_give_up. unfold_M.
  destruct (http_post E (posts w)) as [r|]; simpl.
  - destruct (status_code r =? 200); simpl.
    + destruct (response_json r) as [e|j]; simpl.
      * destruct (attempt <? max_retries - 1); simpl; auto.
      * destruct (read_choices j) as [e|[t|]]; simpl.
        -- destruct (attempt <? max_retries - 1); simpl; auto.
        -- match goal with
           | |- context [debug_lines text t debug_mode ?W] =>
               destruct (debug_lines_obs text t debug_mode W)
                 as (r' & w' & -> & Hf & Hc & Hp & _ & _ & Hr)
           end.
           rewrite (Hr Henc). simpl in Hf, Hc, Hp.
           destruct (debug_mode && negb (encodable (take 50 t))); simpl;
             [destruct (attempt <? max_retries - 1); simpl|];
             repeat split; congruence.
        -- auto.
    + destruct (attempt <? max_retries - 1); simpl; auto.
  - destruct (attempt <? max_retries - 1); simpl; auto.
Qed.

Lemma outcomes_step (debug_mode : bool) (w w' : world) (n : nat) :
  posts w' = S (posts w) ->
  outcomes E debug_mode w (S n)
  = classify debug_mode (http_post E (posts w)) :: outcomes E debug_mode w' n.
Proof.
  intros Hp. unfold outcomes. simpl. rewrite Nat.add_0_r. f_equal.
  rewrite <- seq_shift, <- list_fmap_compose. apply list_fmap_ext.
  intros _ k _. simpl. rewrite Hp. do 2 f_equal. lia.
Qed.

(** The retry loop: what it returns and leaves behind is decided by the
    first outcome that is not a retry. *)
Lemma attempts_obs (text file_md5 text_md5 : pystr) (debug_mode : bool)
    (remaining : nat) :
  encodable text = true ->
  forall (attempt retry_delay : Z) (w : world),
    attempt + Z.of_nat remaining = max_retries ->
    let r := attempts E text file_md5 text_md5 debug_mode remaining attempt
               retry_delay w in
    fs r.2 = fs w
    /\ posts r.2 = (posts w + consumed (outcomes E debug_mode w remaining))%nat
    /\ match decisive (outcomes E debug_mode w remaining) with
       | Success t =>
           r.1 = inr t
           /\ cache_obj r.2 = cache_store (cache_obj w) file_md5 text_md5 t
       | _ => r.1 = inr text /\ cache_obj r.2 = cache_obj w
       end.
Proof.
  intros Henc.
  induction remaining as [|n IH]; intros attempt retry_delay w Hsum.
  - simpl. unfold_M. simpl. auto with lia.
  - pose proof (attempt_body_obs text file_md5 text_md5 debug_mode attempt
                  retry_delay w Henc) as Hbody.
    cbv zeta in Hbody. destruct Hbody as (Hposts & Hfs & Hcase).
    cbv zeta. cbn [attempts]. unfold bind_first, mbind, M_bind.
    destruct (attempt_body E text file_md5 text_md5 debug_mode attempt
                retry_delay w) as [r w1] eqn:Hrun.
    simpl in Hposts, Hfs, Hcase.
    rewrite (outcomes_step debug_mode w w1 n Hposts).
    destruct (classify debug_mode (http_post E (posts w))) as [t| |].
    + destruct Hcase as [-> Hc]. simpl. unfold mret, M_ret. simpl.
      repeat split; [congruence | lia | congruence].
    + destruct Hcase as [-> Hc]. simpl. unfold mret, M_ret. simpl.
      repeat split; [congruence | lia | congruence].
    + destruct Hcase as [-> Hc]. cbn [decisive consumed].
      destruct (attempt <? max_retries - 1) eqn:Hlast.
      * specialize (IH (attempt + 1) (retry_delay * 2) w1 ltac:(lia)).
        cbv zeta in IH. destruct IH as (IHfs & IHposts & IHcase).
        split; [congruence|]. split; [lia|].
        rewrite <- Hc. destruct (decisive (outcomes E debug_mode w1 n));
          rewrite <- ?Hc; exact IHcase.
      * apply Z.ltb_ge in Hlast. unfold max_retries in *.
        assert (n = O) as -> by lia.
        simpl. unfold mret, M_ret. simpl.
        repeat split; [congruence | lia | congruence].
Qed.

Lemma outcomes_posts (debug_mode : bool) (w w' : world) (n : nat) :
  posts w' = posts w -> outcomes E debug_mode w' n = outcomes E debug_mode w n.
Proof. intros Hp. unfold outcomes. rewrite Hp. reflexivity. Qed.

Lemma cache_lookup_store (c : cache) (file_md5 text_md5 value : pystr) :
  cache_lookup (cache_store c file_md5 text_md5 value) file_md5 text_md5 = Some value.
Proof.
  unfold cache_lookup, cache_store.
  rewrite lookup_insert_eq. simpl. apply lookup_insert_eq.
Qed.

Lemma get_text_md5_encodable (text : pystr) :
  encodable text = true -> get_text_md5 E text = inr (md5_hexdigest E text).
Proof. intros H. unfold get_text_md5. rewrite H. reflexivity. Qed.

Lemma get_text_md5_unencodable (text : pystr) :
  encodable text = false -> get_text_md5 E text = inl UnicodeEncodeError.
Proof. intros H. unfold get_text_md5. rewrite H. reflexivity. Qed.

Lemma get_text_md5_inr (text h : pystr) :
  get_text_md5 E text = inr h -> encodable text = true /\ h = md5_hexdigest E text.
Proof.
  unfold get_text_md5. destruct (encodable text); [|discriminate].
  intros [= <-]. split; reflexivity.
Qed.

(** A text with a surrogate: hashing it raises before anything else is
    done. *)
Lemma translate_text_unencodable (text file_md5 : pystr)
    (ignore_cache debug_mode : bool) (w : world) :
  encodable text = false ->
  translate_text E text file_md5 ignore_cache debug_mode w
  = (inl UnicodeEncodeError, w).
Proof.
  intros Henc. unfold translate_text, bind_first, mbind, M_bind, lift.
  rewrite (get_text_md5_unencodable _ Henc). reflexivity.
Qed.

(** A cache hit: the stored value, one line printed, nothing else touched. *)
Lemma translate_text_hit (text file_md5 value : pystr) (debug_mode : bool) (w : world) :
  encodable text = true ->
  cache_lookup (cache_obj w) file_md5 (md5_hexdigest E text) = Some value ->
  translate_text E text file_md5 false debug_mode w =
  (inr value,
   World (fs w) (stdout w ++ [lit "Cache hit! Using cached translation."])
     (cache_obj w) (posts w) (slept w)).
Proof.
  intros Henc Hhit. unfold translate_text, bind_first, mbind, M_bind, lift.
  rewrite (get_text_md5_encodable _ Henc). unfold_M. simpl. rewrite Hhit.
  reflexivity.
Qed.

(** A cache miss: either the configuration is incomplete and nothing is
    requested, or the retry loop decides. *)
Lemma translate_text_miss (text file_md5 : pystr) (ignore_cache debug_mode : bool)
    (w : world) :
  encodable text = true ->
  cache_miss E w file_md5 text ignore_cache ->
  let r := translate_text E text file_md5 ignore_cache debug_mode w in
  fs r.2 = fs w /\
  ((config_complete E
    /\ posts r.2 = (posts w + consumed (outcomes E debug_mode w 3))%nat
    /\ match decisive (outcomes E debug_mode w 3) with
       | Success t =>
           r.1 = inr t
           /\ cache_obj r.2 =
              cache_store (cache_obj w) file_md5 (md5_hexdigest E text) t
       | _ => r.1 = inr text /\ cache_obj r.2 = cache_obj w
       end)
   \/ (~ config_complete E
       /\ posts r.2 = posts w /\ r.1 = inr text /\ cache_obj r.2 = cache_obj w)).
Proof.
  intros Henc Hmiss. cbv zeta. unfold translate_text.
  cbv beta iota delta [bind_first mbind M_bind get_cache lift].
  rewrite (get_text_md5_encodable _ Henc). cbv beta iota.
  assert ((if ignore_cache then None
           else cache_lookup (cache_obj w) file_md5 (md5_hexdigest E text)) = None)
    as -> by (destruct Hmiss as [-> | ->]; [reflexivity | destruct ignore_cache; reflexivity]).
  pose proof (load_api_config_obs w) as (Hcfg & Hfs & Hcache & Hposts).
  destruct (load_api_config E w) as [cfg w0]. simpl in Hcfg, Hfs, Hcache, Hposts.
  subst cfg. cbn [fst snd].
  destruct (truthy_str (API_KEY E)) eqn:Hkey; cbn [negb orb].
  - destruct (truthy_str (OPENAI_API_ENDPOINT E)) eqn:Hend; cbn [negb].
    + pose proof (attempts_obs text file_md5 (md5_hexdigest E text) debug_mode
                    (Z.to_nat max_retries) Henc 0 2 w0 eq_refl) as Hloop.
      cbv zeta in Hloop. destruct Hloop as (Lfs & Lposts & Lcase).
      change (Z.to_nat max_retries) with 3%nat in *.
      rewrite (outcomes_posts debug_mode w w0 3 Hposts) in Lposts, Lcase.
      split; [congruence|]. left. split; [split; assumption|].
      split; [rewrite <- Hposts; exact Lposts|]. rewrite <- Hcache. exact Lcase.
    + unfold_M. simpl. split; [assumption|]. right.
      unfold config_complete. rewrite Hend. intuition congruence.
  - unfold_M. simpl. split; [assumption|]. right.
    unfold config_complete. rewrite Hkey. intuition congruence.
Qed.

(** [translate_text] returns a value on every text that can be encoded. *)
Lemma translate_text_returns (text file_md5 : pystr) (ignore_cache debug_mode : bool)
    (w : world) :
  encodable text = true ->
  exists v, (translate_text E text file_md5 ignore_cache debug_mode w).1 = inr v.
Proof.
  intros Henc. destruct ignore_cache.
  - pose proof (translate_text_miss text file_md5 true debug_mode w Henc
                  (or_introl eq_refl)) as H.
    cbv zeta in H. destruct H as [_ [(_ & _ & H) | (_ & _ & H & _)]]; [|eauto].
    destruct (decisive (outcomes E debug_mode w 3)); destruct H; eauto.
  - destruct (cache_lookup (cache_obj w) file_md5 (md5_hexdigest E text)) as [v|] eqn:Hl.
    + rewrite (translate_text_hit _ _ _ _ _ Henc Hl). eauto.
    + pose proof (translate_text_miss text file_md5 false debug_mode w Henc
                    (or_intror Hl)) as H.
      cbv zeta in H. destruct H as [_ [(_ & _ & H) | (_ & _ & H & _)]]; [|eauto].
      destruct (decisive (outcomes E debug_mode w 3)); destruct H; eauto.
Qed.

(** How the endpoint's answers are classified. *)
Lemma classify_transport_error (debug_mode : bool) :
  classify debug_mode None = Retry.
Proof. reflexivity. Qed.

Lemma classify_status (debug_mode : bool) (r : response) :
  status_code r <> 200 -> classify debug_mode (Some r) = Retry.
Proof.
  intros Hs. unfold classify. apply Z.eqb_neq in Hs. rewrite Hs. reflexivity.
Qed.

Lemma classify_unparsable (debug_mode : bool) (r : response) :
  status_code r = 200 -> resp_json r = None -> classify debug_mode (Some r) = Retry.
Proof.
  intros Hs Hj. unfold classify, response_json. rewrite Hs, Hj. reflexivity.
Qed.

Lemma py_contains_member (key : pystr) (members : list (pystr * json)) (v : json) :
  assoc key members = Some v -> py_contains key (JObj members) = inr true.
Proof.
  intros H. simpl. rewrite H. rewrite bool_decide_eq_true_2 by eauto. reflexivity.
Qed.

Lemma py_contains_no_member (key : pystr) (members : list (pystr * json)) :
  assoc key members = None -> py_contains key (JObj members) = inr false.
Proof.
  intros H. simpl. rewrite H.
  rewrite bool_decide_eq_false_2; [reflexivity|]. intros [? ?]; discriminate.
Qed.

Lemma classify_no_response_member (debug_mode : bool) (r : response)
    (members : list (pystr * json)) :
  status_code r = 200 -> resp_json r = Some (JObj members) ->
  assoc (lit "response") members = None ->
  classify debug_mode (Some r) = Passthrough.
Proof.
  intros Hs Hj Hm. unfold classify, response_json. rewrite Hs, Hj. simpl Z.eqb.
  cbv beta iota. unfold read_choices, bind_first, mbind, res_bind.
  rewrite (py_contains_no_member _ _ Hm). reflexivity.
Qed.

Lemma classify_no_choices_member (debug_mode : bool) (r : response)
    (members inner : list (pystr * json)) :
  status_code r = 200 -> resp_json r = Some (JObj members) ->
  assoc (lit "response") members = Some (JObj inner) ->
  assoc (lit "choices") inner = None ->
  classify debug_mode (Some r) = Passthrough.
Proof.
  intros Hs Hj Hm Hc. unfold classify, response_json. rewrite Hs, Hj. simpl Z.eqb.
  cbv beta iota. unfold read_choices, bind_first, mbind, res_bind.
  rewrite (py_contains_member _ _ _ Hm). cbn [negb]. cbv beta iota.
  unfold py_getitem at 1. rewrite Hm.
  rewrite (py_contains_no_member _ _ Hc). reflexivity.
Qed.

Lemma classify_no_first_choice (debug_mode : bool) (r : response)
    (members inner : list (pystr * json)) :
  status_code r = 200 -> resp_json r = Some (JObj members) ->
  assoc (lit "response") members = Some (JObj inner) ->
  assoc (lit "choices") inner = Some (JArr []) ->
  classify debug_mode (Some r) = Retry.
Proof.
  intros Hs Hj Hm Hc. unfold classify, response_json. rewrite Hs, Hj. simpl Z.eqb.
  cbv beta iota. unfold read_choices, bind_first, mbind, res_bind.
  rewrite (py_contains_member _ _ _ Hm). cbn [negb]. cbv beta iota.
  unfold py_getitem at 1. rewrite Hm.
  rewrite (py_contains_member _ _ _ Hc). cbn [negb]. cbv beta iota.
  unfold py_getitem at 1. rewrite Hc. reflexivity.
Qed.

Lemma classify_retried (debug_mode : bool) (answer : option response) :
  answer_retried answer -> classify debug_mode answer = Retry.
Proof.
  intros [|r Hs|r Hs Hj|r members inner Hs Hj Hm Hc].
  - reflexivity.
  - apply classify_status. exact Hs.
  - apply classify_unparsable; assumption.
  - eapply classify_no_first_choice; eassumption.
Qed.

Lemma classify_without_choices (debug_mode : bool) (answer : option response) :
  answer_without_choices answer -> classify debug_mode answer = Passthrough.
Proof.
  intros [r members Hs Hj Hm|r members inner Hs Hj Hm Hc].
  - eapply classify_no_response_member; eassumption.
  - eapply classify_no_choices_member; eassumption.
Qed.

Lemma classify_translated (debug_mode : bool) (r : option response)
    (content : pystr) :
  answer_translated r content ->
  debug_mode = false \/ encodable (take 50 (strip content)) = true ->
  classify debug_mode r = Success (strip content).
Proof.
  intros (response & members & inner & first & message & more & -> & Hs & Hj & Hm
          & Hc & Hf & Ht) Hprint.
  assert (debug_mode && negb (encodable (take 50 (strip content))) = false) as Hp
    by (destruct Hprint as [-> | ->]; [reflexivity|apply andb_false_r]).
  unfold classify, response_json. rewrite Hs, Hj. simpl Z.eqb.
  cbv beta iota. unfold read_choices, bind_first, mbind, res_bind.
  rewrite (py_contains_member _ _ _ Hm). cbn [negb]. cbv beta iota.
  unfold py_getitem at 1. rewrite Hm.
  rewrite (py_contains_member _ _ _ Hc). cbn [negb]. cbv beta iota.
  unfold py_getitem at 1. rewrite Hc. cbn [py_getitem0].
  unfold py_getitem at 1. rewrite Hf.
  unfold py_getitem. rewrite Ht. unfold mret, res_ret. cbv beta iota.
  rewrite Hp. reflexivity.
Qed.

(** The outcomes of three requests of which the first [n] are retried and
    the next one, if there is one, ends with the [else] branch. *)
Lemma outcomes_give_up (debug_mode : bool) (w : world) (n : nat) :
  (n <= 3)%nat ->
  (forall k, (k < n)%nat -> answer_retried (http_post E (posts w + k))) ->
  n = 3%nat \/ answer_without_choices (http_post E (posts w + n)) ->
  (forall t, decisive (outcomes E debug_mode w 3) <> Success t)
  /\ consumed (outcomes E debug_mode w 3) = (if (n =? 3)%nat then 3 else n + 1)%nat.
Proof.
  intros Hn Hretry Hlast. unfold outcomes. cbn [seq fmap list_fmap].
  assert (forall k, (k < n)%nat ->
            classify debug_mode (http_post E (posts w + k)) = Retry)
    as Hr by (intros k Hk; apply classify_retried, Hretry, Hk).
  assert (n <> 3%nat ->
          classify debug_mode (http_post E (posts w + n)) = Passthrough) as Hp
    by (intros Hne; destruct Hlast as [?|Hlast];
        [contradiction | apply classify_without_choices, Hlast]).
  destruct n as [|[|[|[|n]]]]; [| | | |lia].
  - rewrite (Hp ltac:(lia)). split; [discriminate|reflexivity].
  - rewrite (Hr 0%nat ltac:(lia)), (Hp ltac:(lia)). split; [discriminate|reflexivity].
  - rewrite (Hr 0%nat ltac:(lia)), (Hr 1%nat ltac:(lia)), (Hp ltac:(lia)).
    split; [discriminate|reflexivity].
  - rewrite (Hr 0%nat ltac:(lia)), (Hr 1%nat ltac:(lia)), (Hr 2%nat ltac:(lia)).
    split; [discriminate|reflexivity].
Qed.

(** A miss on which no attempt ends with a translation. *)
Lemma translate_text_failed (text file_md5 : pystr) (ignore_cache debug_mode : bool)
    (w : world) :
  encodable text = true ->
  cache_miss E w file_md5 text ignore_cache ->
  (forall t, decisive (outcomes E debug_mode w 3) <> Success t) ->
  (translate_text E text file_md5 ignore_cache debug_mode w).1 = inr text
  /\ cache_obj (translate_text E text file_md5 ignore_cache debug_mode w).2
     = cache_obj w.
Proof.
  intros Henc Hmiss Hfail.
  pose proof (translate_text_miss text file_md5 ignore_cache debug_mode w Henc Hmiss)
    as H.
  cbv zeta in H. destruct H as [_ [(_ & _ & H) | (_ & _ & H)]]; [|exact H].
  destruct (decisive (outcomes E debug_mode w 3)) as [t| |]; [|exact H|exact H].
  exfalso. exact (Hfail t eq_refl).
Qed.

(** C3, as the code has it.  [translate_text] raises on a text that cannot
    be encoded as UTF-8 (the hash of line 17 is outside the [try]) and on no
    other text.  On a text that can be encoded, when it goes to the network
    and the first [n] answers are failures that are retried (a transport
    error, a status other than 200, a 200 answer whose body is not JSON or
    has no first choice) and then either the three attempts are used up or
    the next answer is a 200 body without the [response] or the [choices]
    member, it returns the original text, leaves the cache as it was and has
    issued [3] requests in the first case and [n + 1] in the second: the
    body without the members ends the loop at once, the other failures are
    retried. *)
Theorem translate_text_degrades_to_passthrough
    (text file_md5 : pystr) (ignore_cache debug_mode : bool) (w : world) :
  let r := translate_text E text file_md5 ignore_cache debug_mode w in
  (if encodable text then exists v, r.1 = inr v
   else r.1 = inl UnicodeEncodeError)
  /\ (encodable text = true ->
      cache_miss E w file_md5 text ignore_cache ->
      config_complete E ->
      forall n : nat,
        (n <= 3)%nat ->
        (forall k, (k < n)%nat -> answer_retried (http_post E (posts w + k))) ->
        n = 3%nat \/ answer_without_choices (http_post E (posts w + n)) ->
        r.1 = inr text
        /\ cache_obj r.2 = cache_obj w
        /\ posts r.2 = (posts w + if (n =? 3)%nat then 3 else n + 1)%nat).
Proof.
  cbv zeta. split.
  - destruct (encodable text) eqn:Henc.
    + apply translate_text_returns. exact Henc.
    + rewrite (translate_text_unencodable _ _ _ _ _ Henc). reflexivity.
  - intros Henc Hmiss Hcfg n Hn Hretry Hlast.
    destruct (outcomes_give_up debug_mode w n Hn Hretry Hlast)
      as [Hfail Hconsumed].
    destruct (translate_text_failed text file_md5 ignore_cache debug_mode w
                Henc Hmiss Hfail) as [Hr Hc].
    split; [exact Hr|]. split; [exact Hc|].
    pose proof (translate_text_miss text file_md5 ignore_cache debug_mode w Henc Hmiss)
      as H.
    cbv zeta in H. destruct H as [_ [(_ & Hposts & _) | (Hno & _)]]; [|contradiction].
    rewrite Hposts, Hconsumed. reflexivity.
Qed.

(** C4, as the code has it, for a text that can be encoded: a cache hit
    returns the stored value with no request and no change of the cache; a
    miss whose first answers are retried failures and whose next answer
    carries a translation stores the stripped translation under
    [(file_md5, md5(text))] before returning, after one request per attempt;
    a second translation of the same text with the cache enabled then issues
    no request at all, so the two together issue exactly one request when
    the first attempt succeeds.  In debug mode the translation is printed
    before it is stored, so its first 50 characters must be printable (no
    lone surrogate); otherwise line 70 raises inside [try] and the answer
    counts as a failure. *)
Theorem translate_text_cache_idempotent
    (text file_md5 : pystr) (debug_mode : bool) (w : world) :
  encodable text = true ->
  (forall value,
      cache_lookup (cache_obj w) file_md5 (md5_hexdigest E text) = Some value ->
      let r := translate_text E text file_md5 false debug_mode w in
      r.1 = inr value /\ posts r.2 = posts w /\ cache_obj r.2 = cache_obj w)
  /\ (forall (ignore_cache : bool) (n : nat) (content : pystr),
      cache_miss E w file_md5 text ignore_cache ->
      config_complete E ->
      (n < 3)%nat ->
      (forall k, (k < n)%nat -> answer_retried (http_post E (posts w + k))) ->
      answer_translated (http_post E (posts w + n)) content ->
      debug_mode = false \/ encodable (take 50 (strip content)) = true ->
      let r1 := translate_text E text file_md5 ignore_cache debug_mode w in
      let r2 := translate_text E text file_md5 false debug_mode r1.2 in
      r1.1 = inr (strip content)
      /\ cache_obj r1.2
         = cache_store (cache_obj w) file_md5 (md5_hexdigest E text) (strip content)
      /\ posts r1.2 = (posts w + n + 1)%nat
      /\ r2.1 = inr (strip content)
      /\ posts r2.2 = posts r1.2 /\ cache_obj r2.2 = cache_obj r1.2).
Proof.
  intros Henc. split.
  - intros value Hhit. cbv zeta. rewrite (translate_text_hit _ _ _ _ _ Henc Hhit).
    simpl. auto.
  - intros ignore_cache n content Hmiss Hcfg Hn Hretry Hlast Hprint. cbv zeta.
    assert (decisive (outcomes E debug_mode w 3) = Success (strip content)
            /\ consumed (outcomes E debug_mode w 3) = (n + 1)%nat) as [Hdec Hcons].
    { unfold outcomes. cbn [seq fmap list_fmap].
      assert (forall k, (k < n)%nat ->
                classify debug_mode (http_post E (posts w + k)) = Retry)
        as Hr by (intros k Hk; apply classify_retried, Hretry, Hk).
      pose proof (classify_translated debug_mode _ _ Hlast Hprint) as Hs.
      destruct n as [|[|[|n]]]; [| | |lia].
      - rewrite Hs. split; reflexivity.
      - rewrite (Hr 0%nat ltac:(lia)), Hs. split; reflexivity.
      - rewrite (Hr 0%nat ltac:(lia)), (Hr 1%nat ltac:(lia)), Hs. split; reflexivity. }
    pose proof (translate_text_miss text file_md5 ignore_cache debug_mode w Henc Hmiss)
      as H.
    cbv zeta in H. destruct H as [_ [(_ & Hposts & H) | (Hno & _)]]; [|contradiction].
    rewrite Hdec in H. destruct H as [Hr Hc].
    assert (cache_lookup
              (cache_obj (translate_text E text file_md5 ignore_cache debug_mode w).2)
              file_md5 (md5_hexdigest E text) = Some (strip content)) as Hhit
      by (rewrite Hc; apply cache_lookup_store).
    rewrite (translate_text_hit _ _ _ _ _ Henc Hhit). simpl.
    split; [exact Hr|]. split; [exact Hc|]. split; [lia|].
    split; [reflexivity|]. split; reflexivity.
Qed.

End Translator.

(** ** The regenerate command *)

Lemma load_translation_cache_obs (w : world) (path : pystr) :
  (forall j, fs w !! path = Some (FJson j) -> is_Some (cache_of_json j)) ->
  exists c w1, load_translation_cache path w = (inr (LoadedCache c), w1)
    /\ fs w1 = fs w /\ posts w1 = posts w.
Proof.
  intros Hok. unfold load_translation_cache. unfold_M.
  destruct (bool_decide (is_Some (fs w !! path))); [|eauto].
  destruct (fs w !! path) as [[j| |]|] eqn:Hf; simpl; eauto.
  destruct (Hok j eq_refl) as [c ->]. eauto.
Qed.

(** The prelude of [main] on a document with at least one page, when the
    cache file is well formed: it returns the document hash, a
    classification and the cache, and writes no file. *)
Lemma main_prelude_obs (E : env) (a : args) (w : world) :
  pages E <> [] ->
  cache_file_well_formed w ->
  exists is_image_pdf c w1,
    main_prelude E a w
    = (inr (get_file_md5 E (input_pdf a), is_image_pdf, LoadedCache c), w1)
    /\ fs w1 = fs w /\ posts w1 = posts w.
Proof.
  intros Hdoc Hok. unfold main_prelude.
  cbv beta iota delta [bind_first mbind M_bind].
  pose proof (load_api_config_obs E w) as (Hcfg & Hfs0 & _ & Hp0).
  destruct (load_api_config E w) as [cfg w0]. simpl in Hcfg, Hfs0, Hp0. subst cfg.
  unfold print at 1. cbv beta iota. unfold print at 1. cbv beta iota.
  match goal with
  | |- context [load_translation_cache ?p ?w'] =>
      destruct (load_translation_cache_obs w' p) as (c & w1 & -> & Hfs1 & Hp1);
        [cbn [fs]; rewrite Hfs0; exact Hok|]
  end.
  simpl in Hfs1, Hp1. cbv beta iota.
  unfold print at 1. cbv beta iota.
  rewrite (is_image_based_pdf_nonempty _ _ Hdoc).
  set (b := Qltb _ _). unfold report_cache.
  destruct (c !! get_file_md5 E (input_pdf a)) as [entries|];
    [destruct (negb (ignore_cache a))|];
    unfold print, lift, mret, M_ret; cbn [fst snd fs posts];
    exists b, c; eexists; (split; [reflexivity|]); cbn [fs posts]; split; congruence.
Qed.

(** C8, as the code has it: [regenerate] without the paragraphs file, on a
    machine whose cache file is absent, unreadable or holds a cache, prints
    the error naming the file and telling the user to run [translate] first,
    writes no file at all, and [main] returns normally, so that the process
    ends with status 0. *)
Theorem regenerate_without_paragraphs_file (E : env) (a : args) (w : world) :
  arg_command a = Regenerate ->
  pages E <> [] ->
  cache_file_well_formed w ->
  fs w !! paragraphs_file_of (get_file_md5 E (input_pdf a)) = None ->
  let r := main E a w in
  r.1 = inr tt
  /\ exit_status r.1 = 0
  /\ fs r.2 = fs w
  /\ last (stdout r.2) =
     Some (lit "Error: Paragraphs file "
           ++ paragraphs_file_of (get_file_md5 E (input_pdf a))
           ++ lit " not found. Run 'translate' command first.").
Proof.
  intros Hcmd Hdoc Hcache Hmissing. cbv zeta. unfold main.
  cbv beta iota delta [bind_first mbind M_bind].
  destruct (main_prelude_obs E a w Hdoc Hcache) as (b & c & w1 & -> & Hfs & _).
  rewrite Hcmd. cbn [fst snd]. unfold main_regenerate.
  cbv beta iota zeta delta [bind_first mbind M_bind path_exists put_cache].
  cbn [fs]. rewrite Hfs, Hmissing.
  rewrite bool_decide_eq_false_2 by (intros [? ?]; discriminate).
  cbn [negb]. unfold print. cbn [fst snd fs stdout exit_status].
  repeat split; try assumption. apply last_snoc.
Qed.

(** ** The paragraph store *)

Section ParagraphStore.

Lemma digit_char_is_digit (d : Z) : 0 <= d < 10 -> is_digit_char (digit_char d).
Proof. unfold is_digit_char, digit_char. lia. Qed.

Lemma digit_of_digit_char (d : Z) : 0 <= d < 10 -> digit_of (digit_char d) = Some d.
Proof.
  intros Hd. unfold digit_of, digit_char.
  destruct ((48 <=? Z.to_N (48 + d)) && (Z.to_N (48 + d) <=? 57))%N eqn:Hb.
  - f_equal. lia.
  - apply andb_false_iff in Hb as [Hb|Hb]; [apply N.leb_gt in Hb|apply N.leb_gt in Hb]; lia.
Qed.

Lemma digits_fuel_digits (fuel : nat) :
  forall n, 0 <= n -> Forall is_digit_char (digits_fuel fuel n).
Proof.
  induction fuel as [|f IH]; intros n Hn; simpl; [constructor|].
  destruct (n <? 10) eqn:Hlt.
  - apply Z.ltb_lt in Hlt. constructor; [|constructor].
    apply digit_char_is_digit. lia.
  - apply Forall_app. split.
    + apply IH. apply Z.div_pos; lia.
    + constructor; [|constructor]. apply digit_char_is_digit.
      apply Z.mod_pos_bound. lia.
Qed.

(** Reading one more digit at the end. *)
Lemma parse_digits_snoc (s : pystr) :
  forall acc after v d,
    parse_digits acc after s = Some v -> 0 <= d < 10 ->
    parse_digits acc after (s ++ [digit_char d]) = Some (10 * v + d).
Proof.
  induction s as [|c s IH]; intros acc after v d Hp Hd; simpl in *.
  - destruct after; [|discriminate]. injection Hp as <-.
    replace (digit_char d =? 95)%N with false
      by (symmetry; apply N.eqb_neq; unfold digit_char; lia).
    rewrite (digit_of_digit_char d Hd). reflexivity.
  - destruct (c =? 95)%N.
    + destruct after; [|discriminate]. eauto.
    + destruct (digit_of c); [|discriminate]. eauto.
Qed.

Lemma parse_digits_fuel (fuel : nat) :
  forall n, 0 <= n < 2 ^ Z.of_nat fuel -> fuel <> O ->
    parse_digits 0 false (digits_fuel fuel n) = Some n.
Proof.
  induction fuel as [|f IH]; intros n Hn Hfuel.
  - congruence.
  - cbn [digits_fuel]. destruct (n <? 10) eqn:Hlt.
    + apply Z.ltb_lt in Hlt. cbn [parse_digits].
      replace (digit_char n =? 95)%N with false
        by (symmetry; apply N.eqb_neq; unfold digit_char; lia).
      rewrite digit_of_digit_char by lia. reflexivity.
    + apply Z.ltb_ge in Hlt.
      rewrite (parse_digits_snoc _ 0 false (n / 10) (n mod 10)).
      * f_equal. pose proof (Z.div_mod n 10). lia.
      * rewrite Nat2Z.inj_succ, Z.pow_succ_r in Hn by lia.
        apply IH.
        -- split; [apply Z.div_pos; lia|]. apply Z.div_lt_upper_bound; lia.
        -- intros ->. simpl in Hn. lia.
      * apply Z.mod_pos_bound. lia.
Qed.

Lemma parse_digits_digits (n : Z) : 0 <= n -> parse_digits 0 false (digits n) = Some n.
Proof.
  intros Hn. unfold digits. apply parse_digits_fuel; [|discriminate].
  split; [assumption|].
  destruct (Z.eq_dec n 0) as [->|Hnz]; [reflexivity|].
  rewrite Nat2Z.inj_succ, Z2Nat.id by apply Z.log2_nonneg.
  apply Z.log2_spec. lia.
Qed.

Lemma digit_not_space (c : N) : is_digit_char c -> isspace c = false.
Proof.
  unfold is_digit_char, isspace. intros Hc.
  repeat match goal with
         | |- context [(?a <=? ?b)%N] =>
             first [ rewrite (proj2 (N.leb_le a b)) by lia
                   | rewrite (proj2 (N.leb_gt a b)) by lia ]
         | |- context [(?a =? ?b)%N] =>
             rewrite (proj2 (N.eqb_neq a b)) by lia
         end.
  reflexivity.
Qed.

Lemma lstrip_no_space (s : pystr) :
  Forall (fun c => isspace c = false) s -> lstrip s = s.
Proof. intros Hs. destruct Hs as [|c s Hc _]; simpl; [|rewrite Hc]; reflexivity. Qed.

Lemma strip_no_space (s : pystr) :
  Forall (fun c => isspace c = false) s -> strip s = s.
Proof.
  intros Hs. unfold strip. rewrite (lstrip_no_space s Hs).
  rewrite lstrip_no_space by (apply Forall_rev; exact Hs).
  apply rev_involutive.
Qed.

(** [int(str(z)) == z] *)
Lemma py_int_py_str (z : Z) : py_int (py_str z) = inr z.
Proof.
  unfold py_int, py_str. destruct (z <? 0) eqn:Hneg.
  - apply Z.ltb_lt in Hneg.
    rewrite strip_no_space.
    + simpl. rewrite parse_digits_digits by lia. simpl. f_equal. lia.
    + constructor; [reflexivity|].
      eapply Forall_impl; [apply digits_fuel_digits; lia | apply digit_not_space].
  - apply Z.ltb_ge in Hneg.
    pose proof (digits_fuel_digits (S (Z.to_nat (Z.log2 z))) z Hneg) as Hd.
    fold (digits z) in Hd.
    rewrite strip_no_space
      by (eapply Forall_impl; [exact Hd | apply digit_not_space]).
    pose proof (parse_digits_digits z Hneg) as Hp.
    destruct (digits z) as [|c r]; [discriminate|].
    inversion Hd as [|? ? Hc _]; subst. unfold is_digit_char in Hc.
    replace (c =? 43)%N with false by (symmetry; apply N.eqb_neq; lia).
    replace (c =? 45)%N with false by (symmetry; apply N.eqb_neq; lia).
    rewrite Hp. reflexivity.
Qed.

Lemma py_str_inj (a b : Z) : py_str a = py_str b -> a = b.
Proof.
  intros Heq. pose proof (py_int_py_str a) as Ha. rewrite Heq, py_int_py_str in Ha.
  congruence.
Qed.

(** Setting a key that is not there appends it. *)
Lemma dict_set_fresh {K V} `{EqDecision K} (d : list (K * V)) (k : K) (v : V) :
  k ∉ d.*1 -> dict_set d k v = d ++ [(k, v)].
Proof.
  induction d as [|[k' v'] d IH]; intros Hk; simpl; [reflexivity|].
  rewrite fmap_cons, not_elem_of_cons in Hk. destruct Hk as [Hne Hk]. simpl in Hne.
  destruct (decide (k = k')); [contradiction|]. rewrite IH by assumption. reflexivity.
Qed.

(** Distinct page numbers are written in the order of the dict. *)
Lemma serialize_from_distinct (items : paragraphs_by_page) :
  forall acc : paragraphs_by_page,
    NoDup ((acc ++ items).*1) ->
    serialize_from (member_of <$> acc) items = member_of <$> (acc ++ items).
Proof.
  induction items as [|[page_num paragraphs] items IH]; intros acc Hnd.
  - rewrite app_nil_r. reflexivity.
  - cbn [serialize_from]. rewrite dict_set_fresh.
    + change (JArr (fragment_to_json <$> paragraphs)) with
        (member_of (page_num, paragraphs)).2.
      change (py_str page_num) with (member_of (page_num, paragraphs)).1.
      rewrite <- surjective_pairing, <- fmap_snoc.
      rewrite IH by (rewrite <- app_assoc; exact Hnd).
      rewrite <- app_assoc. reflexivity.
    + rewrite fmap_app, NoDup_app in Hnd. destruct Hnd as (_ & Hdisj & _).
      rewrite <- list_fmap_compose. intros Hin.
      apply list_elem_of_fmap in Hin as ([k ps] & Heq & Hin). simpl in Heq.
      apply py_str_inj in Heq. subst k.
      apply (Hdisj page_num).
      * apply list_elem_of_fmap. exists (page_num, ps). auto.
      * rewrite fmap_cons. left.
Qed.

Lemma fragments_read_back (paragraphs : list (pystr * bbox)) :
  map_res fragment_of_json (fragment_to_json <$> paragraphs)
  = inr (raw_fragment <$> paragraphs).
Proof.
  induction paragraphs as [|[text b] ps IH]; [reflexivity|].
  rewrite !fmap_cons. cbn [map_res]. unfold bind_first, mbind, res_bind in *.
  rewrite IH. reflexivity.
Qed.

Lemma deserialize_from_distinct (items : paragraphs_by_page) :
  forall acc : paragraphs_by_page,
    NoDup ((acc ++ items).*1) ->
    deserialize_from (raw_of acc) (member_of <$> items) = inr (raw_of (acc ++ items)).
Proof.
  induction items as [|[page_num paragraphs] items IH]; intros acc Hnd.
  - rewrite app_nil_r. reflexivity.
  - rewrite fmap_cons. unfold member_of at 1. cbn [deserialize_from fst snd].
    unfold bind_first, mbind, res_bind.
    cbn [py_iter]. rewrite fragments_read_back, py_int_py_str.
    rewrite dict_set_fresh.
    + change (raw_of acc ++ [(page_num, raw_fragment <$> paragraphs)])
        with (raw_of acc ++ raw_of [(page_num, paragraphs)]).
      unfold raw_of at 1 2. rewrite <- fmap_app. fold (raw_of (acc ++ [(page_num, paragraphs)])).
      rewrite IH by (rewrite <- app_assoc; exact Hnd).
      rewrite <- app_assoc. reflexivity.
    + rewrite fmap_app, NoDup_app in Hnd. destruct Hnd as (_ & Hdisj & _).
      unfold raw_of. rewrite <- list_fmap_compose. intros Hin.
      apply list_elem_of_fmap in Hin as ([k ps] & Heq & Hin). simpl in Heq. subst k.
      apply (Hdisj page_num).
      * apply list_elem_of_fmap. exists (page_num, ps). auto.
      * rewrite fmap_cons. left.
Qed.

Lemma typed_fragments_raw (paragraphs : list (pystr * bbox)) :
  map_res typed_fragment (raw_fragment <$> paragraphs) = inr paragraphs.
Proof.
  induction paragraphs as [|[text [a b c d]] ps IH]; [reflexivity|].
  rewrite fmap_cons. cbn [map_res]. unfold bind_first, mbind, res_bind in *.
  rewrite IH. reflexivity.
Qed.

Lemma typed_paragraphs_raw (p : paragraphs_by_page) :
  typed_paragraphs (raw_of p) = inr p.
Proof.
  induction p as [|[page_num paragraphs] p IH]; [reflexivity|].
  unfold raw_of in *. rewrite fmap_cons. cbn [typed_paragraphs fst snd].
  unfold bind_first, mbind, res_bind in *.
  rewrite typed_fragments_raw, IH. reflexivity.
Qed.

(** C7: for a mapping with distinct page numbers whose texts can all be
    encoded as UTF-8, saving returns, and whoever then finds the paragraphs
    file as it was left loads the same mapping: the same page numbers in the
    same order, and for each page the same fragments in the same order, with
    the same text and the same four coordinates.  When a text cannot be
    encoded (a lone surrogate), saving raises [UnicodeEncodeError] and
    leaves a file that loading refuses with [JSONDecodeError].  The JSON
    document of a dump that succeeds is taken as the library stores it,
    numbers unchanged. *)
Theorem paragraphs_file_round_trip (p : paragraphs_by_page) (path : pystr) (w : world) :
  NoDup (p.*1) ->
  let saved := save_paragraphs path p w in
  if paragraphs_encodable p then
    saved.1 = inr tt
    /\ forall w' : world,
         fs w' !! path = fs saved.2 !! path ->
         (load_paragraphs path w').1 = inr (raw_of p)
         /\ ((raw <- load_paragraphs path;; lift (typed_paragraphs raw)) w').1 = inr p
  else
    saved.1 = inl UnicodeEncodeError
    /\ forall w' : world,
         fs w' !! path = fs saved.2 !! path ->
         (load_paragraphs path w').1 = inl JSONDecodeError.
Proof.
  intros Hnd. cbv zeta. unfold save_paragraphs.
  assert (deserialize_paragraphs (serialize_paragraphs p) = inr (raw_of p)) as Hload.
  { unfold deserialize_paragraphs, serialize_paragraphs.
    pose proof (serialize_from_distinct p [] Hnd) as Hs.
    pose proof (deserialize_from_distinct p [] Hnd) as Hd.
    change (member_of <$> []) with (@nil (pystr * json)) in Hs.
    change (raw_of []) with (@nil (Z * list (json * list json))) in Hd.
    change ([] ++ p) with p in Hs, Hd.
    rewrite Hs. exact Hd. }
  destruct (paragraphs_encodable p).
  - split; [reflexivity|]. intros w' Hfile.
    unfold write_file in Hfile. cbn [fst snd fs] in Hfile.
    rewrite lookup_insert_eq in Hfile.
    assert (load_paragraphs path w' = (inr (raw_of p), w')) as Hraw.
    { unfold load_paragraphs, read_file.
      cbv beta iota delta [bind_first mbind M_bind]. rewrite Hfile.
      unfold mret, M_ret, lift. rewrite Hload. reflexivity. }
    split; [rewrite Hraw; reflexivity|].
    cbv beta iota delta [bind_first mbind M_bind]. rewrite Hraw.
    unfold lift. cbn [fst snd]. apply typed_paragraphs_raw.
  - cbv beta iota delta [mbind M_bind write_file raise]. cbn [fst snd fs].
    split; [reflexivity|]. intros w' Hfile. rewrite lookup_insert_eq in Hfile.
    unfold load_paragraphs, read_file.
    cbv beta iota delta [bind_first mbind M_bind]. rewrite Hfile. reflexivity.
Qed.

End ParagraphStore.

(** ** Font-size fitting *)

Lemma join_snoc (sep : pystr) (line : list pystr) (word : pystr) :
  line <> [] -> join sep (line ++ [word]) = join sep line ++ sep ++ word.
Proof.
  induction line as [|p [|q rest] IH]; intros Hne; [congruence|reflexivity|].
  change (join sep ((p :: q :: rest) ++ [word]))
    with (p ++ sep ++ join sep ((q :: rest) ++ [word])).
  rewrite IH by discriminate.
  change (join sep (p :: q :: rest)) with (p ++ sep ++ join sep (q :: rest)).
  rewrite <- !app_assoc. reflexivity.
Qed.

Lemma len_join_snoc (line : list pystr) (word : pystr) :
  line <> [] ->
  len (join space (line ++ [word])) = len (join space line) + 1 + len word.
Proof.
  intros Hne. rewrite join_snoc by assumption. unfold len.
  rewrite !length_app. simpl. lia.
Qed.

Lemma of_int_le (a b : Z) : a <= b -> (of_int a <= of_int b)%Q.
Proof. intros H. unfold of_int. rewrite <- Zle_Qle. exact H. Qed.

(** A shorter line at a smaller size fits where a longer one at a larger
    size does. *)
Lemma line_fits_monotone (long short : pystr) (S s : Z) (max_width : Q) :
  0 < s <= S -> len short <= len long ->
  line_fits long S max_width = true -> line_fits short s max_width = true.
Proof.
  unfold line_fits. rewrite !Qltb_lt. intros Hs Hlen Hfit.
  eapply Qle_lt_trans; [|exact Hfit].
  apply Qmult_le_compat_r; [|discriminate].
  apply of_int_le.
  assert (0 <= len short) by (unfold len; lia). nia.
Qed.

Section Monotone.

Variable E : env.
Variables (font_name : pystr) (b : bbox) (S s : Z).
Hypothesis sizes : 0 < s <= S.
Hypothesis insertion : forall line, test_insert_text_ok E line font_name s = true.

(** The loops at the two sizes, run side by side: the smaller size is never
    further down ([ks] breaks against [kS]), and on the same line it is no
    further right. *)
Lemma fit_words_monotone (words : list pystr) :
  forall (lineS lines : list pystr) (kS ks : Z),
    (lineS = [] <-> lines = []) ->
    0 <= ks ->
    ks < kS \/ (ks = kS /\ len (join space lines) <= len (join space lineS)) ->
    kS = 0 \/ (of_int (kS * (S + 2)) <= max_height b)%Q ->
    fit_done (fit_words E font_name S b (50 + S) words lineS (50 + S + kS * (S + 2)))
    = true ->
    fit_done (fit_words E font_name s b (50 + s) words lines (50 + s + ks * (s + 2)))
    = true.
Proof.
  induction words as [|word rest IH]; intros lineS lines kS ks Hiff Hks Hrel Hheight Hfit;
    [reflexivity|].
  cbn [fit_words] in Hfit |- *.
  destruct lineS as [|a lineS'], lines as [|c lines'].
  - apply (IH [word] [word] kS ks); try assumption; [split; discriminate|].
    destruct Hrel as [Hlt|[Heq _]]; [left; assumption|right; split; [assumption|lia]].
  - exfalso. destruct Hiff as [Hiff _]. specialize (Hiff eq_refl). discriminate.
  - exfalso. destruct Hiff as [_ Hiff]. specialize (Hiff eq_refl). discriminate.
  - set (lineS := a :: lineS') in *. set (lines := c :: lines') in *.
    assert (lineS <> []) as HneS by discriminate.
    assert (lines <> []) as Hnes by discriminate.
    assert (forall k size, 50 + size + k * (size + 2) + (size + 2) - (50 + size)
                           = (k + 1) * (size + 2)) as Hy by (intros; ring).
    assert (forall k size, 50 + size + k * (size + 2) + (size + 2)
                           = 50 + size + (k + 1) * (size + 2)) as Hy' by (intros; ring).
    destruct (line_fits (join space (lineS ++ [word])) S (max_width b)) eqn:HfS.
    + (* the larger size stays on its line *)
      destruct (line_fits (join space (lines ++ [word])) s (max_width b)) eqn:Hfs.
      * apply (IH (lineS ++ [word]) (lines ++ [word]) kS ks); try assumption.
        -- split; intros Hnil; apply app_eq_nil in Hnil as [_ ?]; discriminate.
        -- destruct Hrel as [Hlt|[Heq Hlen]]; [left; assumption|right].
           split; [assumption|]. rewrite !len_join_snoc by assumption. lia.
      * rewrite insertion. cbn [negb].
        assert (ks < kS) as Hlt.
        { destruct Hrel as [Hlt|[Heq Hlen]]; [assumption|exfalso].
          rewrite (line_fits_monotone (join space (lineS ++ [word]))
                     (join space (lines ++ [word])) S s _ sizes) in Hfs;
            [discriminate| |assumption].
          rewrite !len_join_snoc by assumption. lia. }
        assert ((of_int (kS * (S + 2)) <= max_height b)%Q) as HhS
          by (destruct Hheight as [?|?]; [lia|assumption]).
        rewrite Hy.
        assert (Qltb (max_height b) (of_int ((ks + 1) * (s + 2))) = false) as ->.
        { apply Qltb_ge. eapply Qle_trans; [|exact HhS]. apply of_int_le. nia. }
        rewrite Hy'.
        apply (IH (lineS ++ [word]) [word] kS (ks + 1)); try assumption; try lia.
        -- split; [intros Hnil; apply app_eq_nil in Hnil as [_ ?]|]; discriminate.
        -- assert (ks + 1 < kS \/ ks + 1 = kS) as [?|?] by lia; [left; assumption|right].
           split; [assumption|]. rewrite len_join_snoc by assumption.
           change (join space [word]) with word.
           assert (0 <= len (join space lineS)) by (unfold len; lia). lia.
    + (* the larger size breaks the line *)
      destruct (test_insert_text_ok E (join space lineS) font_name S);
        cbn [negb fit_done] in Hfit; [|discriminate].
      rewrite Hy in Hfit.
      destruct (Qltb (max_height b) (of_int ((kS + 1) * (S + 2)))) eqn:HhS;
        [discriminate|].
      apply Qltb_ge in HhS. rewrite Hy' in Hfit.
      destruct (line_fits (join space (lines ++ [word])) s (max_width b)) eqn:Hfs.
      * apply (IH [word] (lines ++ [word]) (kS + 1) ks); try assumption.
        -- split; [|intros Hnil; apply app_eq_nil in Hnil as [_ ?]]; discriminate.
        -- left. destruct Hrel as [?|[? _]]; lia.
        -- right. assumption.
      * rewrite insertion. cbn [negb]. rewrite Hy.
        assert (ks + 1 <= kS + 1) as Hle by (destruct Hrel as [?|[? _]]; lia).
        assert (Qltb (max_height b) (of_int ((ks + 1) * (s + 2))) = false) as ->.
        { apply Qltb_ge. eapply Qle_trans; [|exact HhS]. apply of_int_le. nia. }
        rewrite Hy'.
        apply (IH [word] [word] (kS + 1) (ks + 1)); try assumption; try lia.
        -- split; discriminate.
        -- right. assumption.
Qed.

End Monotone.

(** C9: for a fixed bbox and a fixed translated text, a candidate size that
    fits makes every smaller size fit: the wrapped lines are no more, the
    line height is smaller and every line stays within the height.  (The
    test insertion of a line is taken not to raise at the smaller size.) *)
Theorem fitting_is_monotone (E : env) (font_name translated_text : pystr) (b : bbox)
    (S s : Z) :
  0 < s <= S ->
  (forall line, test_insert_text_ok E line font_name s = true) ->
  fits_at E font_name translated_text b S = true ->
  fits_at E font_name translated_text b s = true.
Proof.
  intros Hs Hok HS. unfold fits_at in *.
  pose proof (fit_words_monotone E font_name b S s Hs Hok (split translated_text)
                [] [] 0 0) as Hmono.
  rewrite !Z.mul_0_l, !Z.add_0_r in Hmono.
  destruct (fit_words E font_name S b (50 + S) (split translated_text) [] (50 + S))
    as [lineS yS| |]; [|discriminate HS|discriminate HS].
  specialize (Hmono ltac:(tauto) ltac:(lia) ltac:(right; split; [reflexivity|lia])
                ltac:(left; reflexivity) eq_refl).
  destruct (fit_words E font_name s b (50 + s) (split translated_text) [] (50 + s))
    as [lines ys| |]; [|discriminate Hmono|discriminate Hmono].
  destruct lines; [reflexivity|]. apply Hok.
Qed.

(** ** The text-based renderer *)

Lemma only_printed_refl (w : world) : only_printed w w.
Proof. repeat split. Qed.

Lemma only_printed_trans (w1 w2 w3 : world) :
  only_printed w1 w2 -> only_printed w2 w3 -> only_printed w1 w3.
Proof. unfold only_printed. intuition congruence. Qed.

Lemma only_printed_print (line : pystr) (w : world) : only_printed w (print line w).2.
Proof. repeat split. Qed.

Section Renderer.

Variable E : env.
Variables (font_name : pystr) (b : bbox).

(** One candidate size: the value of [fits], and nothing but printing. *)
Lemma try_font_size_obs (translated_text : pystr) (font_size : Z) (w : world) :
  exists w',
    try_font_size E font_name translated_text b font_size w
    = (inr (fits_at E font_name translated_text b font_size), w')
    /\ only_printed w w'.
Proof.
  unfold try_font_size. cbv zeta. unfold mbind, M_bind.
  destruct (fit_words E font_name font_size b (50 + font_size)
              (split translated_text) [] (50 + font_size));
    eexists; (split; [reflexivity|]); repeat split.
Qed.

(** The search returns the first candidate that fits, and only prints. *)
Lemma search_font_size_obs (translated_text : pystr) (sizes : list Z) :
  forall w : world,
    exists w',
      search_font_size E font_name translated_text b sizes w
      = (inr (find (fits_at E font_name translated_text b) sizes), w')
      /\ only_printed w w'.
Proof.
  induction sizes as [|font_size rest IH]; intros w.
  - exists w. split; [reflexivity|apply only_printed_refl].
  - cbn [search_font_size find]. unfold bind_first, mbind, M_bind.
    destruct (try_font_size_obs translated_text font_size w) as (w1 & -> & H1).
    destruct (fits_at E font_name translated_text b font_size).
    + exists w1. split; [reflexivity|exact H1].
    + destruct (IH w1) as (w2 & -> & H2). exists w2. split; [reflexivity|].
      eapply only_printed_trans; eassumption.
Qed.

Lemma first_fit_none (translated_text : pystr) (sizes : list Z) :
  find (fits_at E font_name translated_text b) sizes = None ->
  forall size, In size sizes -> fits_at E font_name translated_text b size = false.
Proof.
  induction sizes as [|first rest IH]; intros Hnone size Hin; [destruct Hin|].
  cbn [find] in Hnone.
  destruct (fits_at E font_name translated_text b first) eqn:Hfirst; [discriminate|].
  destruct Hin as [<-|Hin]; [assumption|]. apply IH; assumption.
Qed.

(** The first candidate that fits is the largest one that fits: the
    candidates are tried from 11 down to 6. *)
Lemma first_fit_largest (translated_text : pystr) (size : Z) :
  find (fits_at E font_name translated_text b) candidate_sizes = Some size ->
  In size candidate_sizes
  /\ fits_at E font_name translated_text b size = true
  /\ forall larger, In larger candidate_sizes -> size < larger ->
       fits_at E font_name translated_text b larger = false.
Proof.
  unfold candidate_sizes. cbn [find]. intros Hfound.
  repeat match type of Hfound with
         | context [fits_at E font_name translated_text b ?z] =>
             destruct (fits_at E font_name translated_text b z) eqn:?
         end;
    try discriminate; injection Hfound as <-;
    (split; [cbn [In]; tauto|]); (split; [assumption|]);
    intros larger Hin Hlt; cbn [In] in Hin;
    repeat (destruct Hin as [<-|Hin]; [first [assumption | lia]|]); destruct Hin.
Qed.

(** The commit path draws text only, at the size it was given. *)
Lemma commit_words_ops (size : Z) (x : Q) (words : list pystr) :
  forall (line : list pystr) (current_y : Q) (ops : list draw_op),
    commit_words E font_name size b x words line current_y = inr ops ->
    Forall (fun op => exists y text, op = InsertText x y text font_name size) ops.
Proof.
  induction words as [|word rest IH]; intros line current_y ops Hops;
    cbn [commit_words] in Hops.
  - destruct line as [|first more].
    + injection Hops as <-. constructor.
    + unfold bind_first, mbind, res_bind, dst_insert_text in Hops.
      destruct (dst_insert_text_ok E _ font_name size); [|discriminate].
      injection Hops as <-. constructor; [eauto|constructor].
  - destruct line as [|first more]; [eauto|].
    destruct (line_fits _ size _); [eauto|].
    unfold bind_first, mbind, res_bind, dst_insert_text in Hops.
    destruct (dst_insert_text_ok E _ font_name size); [|discriminate].
    destruct (commit_words E font_name size b x rest [word] _) as [e|more_ops] eqn:Hrest;
      [discriminate|].
    injection Hops as <-. constructor; [eauto|]. eapply IH. exact Hrest.
Qed.

Lemma translation_for_obs (file_md5 text : pystr) (i : nat) (w : world) :
  encodable text = true ->
  exists w0,
    translation_for E file_md5 text i w =
    (inr (default text (cache_lookup (cache_obj w) file_md5 (md5_hexdigest E text))),
     w0)
    /\ only_printed w w0.
Proof.
  intros Henc. unfold translation_for.
  cbv beta iota delta [bind_first mbind M_bind get_cache lift].
  rewrite (get_text_md5_encodable E _ Henc). cbv beta iota.
  destruct (cache_lookup (cache_obj w) file_md5 (md5_hexdigest E text));
    eexists; (split; [reflexivity|]); repeat split.
Qed.

(** A text that cannot be hashed stops the paragraph loop. *)
Lemma translation_for_unencodable (file_md5 text : pystr) (i : nat) (w : world) :
  encodable text = false ->
  translation_for E file_md5 text i w = (inl UnicodeEncodeError, w).
Proof.
  intros Henc. unfold translation_for, bind_first, mbind, M_bind, lift.
  rewrite (get_text_md5_unencodable E _ Henc). reflexivity.
Qed.

Lemma commit_draws_no_bitmap (translated_text : pystr) (i : nat) (best : option Z)
    (w : world) (ops : list draw_op) :
  (commit E font_name translated_text b i best w).1 = inr ops ->
  Forall (fun op => forall rect bitmap, op <> InsertImage rect bitmap) ops.
Proof.
  unfold commit.
  assert (forall line (w' : world),
             ((print line;; mret (M := M) (@nil draw_op)) w').1 = inr ops ->
             Forall (fun op => forall rect bitmap, op <> InsertImage rect bitmap) ops)
    as Hwarn by (intros line w' [= <-]; constructor).
  destruct best as [size|]; [|apply Hwarn].
  destruct (negb (size =? 0)); [|apply Hwarn].
  cbv beta iota delta [bind_first mbind M_bind lift print mret M_ret]. cbn [fst snd].
  destruct (commit_words E font_name size b (fl_add (x0 b) 2) (split translated_text) []
              (fl_add (y0 b) (of_int size))) as [e|cops] eqn:Hc; cbn [fst];
    [discriminate|].
  intros [= <-]. constructor; [discriminate|].
  eapply Forall_impl; [exact (commit_words_ops _ _ _ _ _ _ Hc)|].
  intros op (y & line & ->). discriminate.
Qed.

(** C1, as the code has it: for a fragment that is not a formula (and whose
    text can be hashed) the sizes 11, 10, 9, 8, 7, 6 are tried in this order
    and the first one that fits, the largest, is committed: the bbox is
    painted white and the lines are inserted at that size, from the base
    line [bbox[1] + size] at [bbox[0] + 2].  When no candidate fits, nothing
    is drawn for the fragment (no rectangle, no text at size 6 or any other)
    and the warning is the last line printed. *)
Theorem render_paragraph_font_size (file_md5 : pystr) (i : nat) (text : pystr)
    (w : world) :
  is_formula text = inr false ->
  encodable text = true ->
  let translated_text :=
    default text (cache_lookup (cache_obj w) file_md5 (md5_hexdigest E text)) in
  let r := render_paragraph E file_md5 font_name i text b w in
  candidate_sizes = [11; 10; 9; 8; 7; 6]
  /\ fs r.2 = fs w
  /\ match find (fits_at E font_name translated_text b) candidate_sizes with
     | Some size =>
         In size candidate_sizes
         /\ fits_at E font_name translated_text b size = true
         /\ (forall larger, In larger candidate_sizes -> size < larger ->
               fits_at E font_name translated_text b larger = false)
         /\ r.1 = (ops <- commit_words E font_name size b (fl_add (x0 b) 2)
                            (split translated_text) [] (fl_add (y0 b) (of_int size));;
                   mret (DrawRect b :: ops))
     | None =>
         (forall size, In size candidate_sizes ->
            fits_at E font_name translated_text b size = false)
         /\ r.1 = inr []
         /\ last (stdout r.2) =
            Some (lit "Warning: Could not fit text for paragraph "
                  ++ py_str (Z.of_nat i + 1))
     end.
Proof.
  intros Hformula Henc. cbv zeta. split; [reflexivity|].
  unfold render_paragraph. rewrite Hformula.
  cbv beta iota delta [bind_first mbind M_bind lift].
  destruct (translation_for_obs file_md5 text i w Henc) as (w0 & -> & Hw0).
  set (translated_text :=
         default text (cache_lookup (cache_obj w) file_md5 (md5_hexdigest E text))).
  destruct (search_font_size_obs translated_text candidate_sizes w0)
    as (w1 & -> & Hw1).
  assert (fs w1 = fs w) as Hfs
    by (destruct Hw0 as (H0 & _), Hw1 as (H1 & _); congruence).
  unfold commit.
  destruct (find (fits_at E font_name translated_text b) candidate_sizes)
    as [size|] eqn:Hsearch.
  - destruct (first_fit_largest translated_text size Hsearch)
      as (Hin & Hfits & Hlargest).
    assert (negb (size =? 0) = true) as ->.
    { unfold candidate_sizes in Hin. cbn [In] in Hin.
      destruct Hin as [<-|[<-|[<-|[<-|[<-|[<-|[]]]]]]]; reflexivity. }
    cbv beta iota delta [bind_first mbind M_bind lift print mret M_ret res_bind res_ret].
    cbn [fst snd fs].
    destruct (commit_words E font_name size b (fl_add (x0 b) 2) (split translated_text)
                [] (fl_add (y0 b) (of_int size))) as [e|ops]; cbn [fst snd fs]; auto.
  - pose proof (first_fit_none translated_text candidate_sizes Hsearch) as Hnone.
    cbv beta iota delta [bind_first mbind M_bind print mret M_ret].
    cbn [fst snd fs stdout]. repeat split; try assumption. apply last_snoc.
Qed.

(** No text bitmap is ever placed by the paragraph loop: what it draws is
    the white rectangle and vector text. *)
Lemma render_paragraph_draws_no_bitmap (file_md5 : pystr) (i : nat) (text : pystr)
    (w : world) (ops : list draw_op) :
  (render_paragraph E file_md5 font_name i text b w).1 = inr ops ->
  Forall (fun op => forall rect bitmap, op <> InsertImage rect bitmap) ops.
Proof.
  unfold render_paragraph.
  cbv beta iota delta [bind_first mbind M_bind lift].
  destruct (is_formula text) as [e|[|]]; cbn [fst]; [discriminate| |].
  - unfold print, mret, M_ret. cbn [fst]. intros [= <-]. constructor.
  - destruct (encodable text) eqn:Henc.
    + destruct (translation_for_obs file_md5 text i w Henc) as (w0 & -> & _).
      destruct (search_font_size_obs
                  (default text (cache_lookup (cache_obj w) file_md5
                                   (md5_hexdigest E text)))
                  candidate_sizes w0) as (w1 & -> & _).
      apply commit_draws_no_bitmap.
    + rewrite (translation_for_unencodable _ _ _ _ Henc). discriminate.
Qed.

End Renderer.

(** ** The renderers on sample documents *)

Section Runs.

Import Samples.

(** C2: a fragment whose vector insertion raises is not drawn as a
    bitmap.  When the test insertion raises at every size, no size fits and
    the page carries the background and the font only; when the insertion
    on the output page raises, the exception leaves
    [create_clean_translated_pdf] and no document is saved. *)
Theorem failed_insertion_is_not_rasterized :
  (create_clean_translated_pdf test_fails_env (lit "out.pdf") one_paragraph
     (lit "d0c") false 0 None cached_world).1 = inr tt
  /\ fs (create_clean_translated_pdf test_fails_env (lit "out.pdf") one_paragraph
           (lit "d0c") false 0 None cached_world).2 !! lit "out.pdf"
     = Some (FPdf [DrawnPage [InsertImage (BBox 0 0 612 792) (PagePixmap 0);
                              InsertFont (lit "F0")]])
  /\ (create_clean_translated_pdf commit_fails_env (lit "out.pdf") one_paragraph
        (lit "d0c") false 0 None cached_world).1 = inl RuntimeError
  /\ fs (create_clean_translated_pdf commit_fails_env (lit "out.pdf") one_paragraph
           (lit "d0c") false 0 None cached_world).2 !! lit "out.pdf" = None.
Proof. vm_compute. repeat split; reflexivity. Qed.

(** Where every insertion succeeds the same fragment is drawn as text. *)
Example insertion_succeeds :
  fs (create_clean_translated_pdf fits_env (lit "out.pdf") one_paragraph
        (lit "d0c") false 0 None cached_world).2 !! lit "out.pdf"
  = Some (FPdf [DrawnPage [InsertImage (BBox 0 0 612 792) (PagePixmap 0);
                           InsertFont (lit "F0");
                           DrawRect wide_box;
                           InsertText 74 111 privet (lit "F0") 11]]).
Proof. vm_compute. reflexivity. Qed.

(** The specification would have the smallest size used here: no candidate
    fits the small box, and nothing at all is drawn. *)
Lemma nothing_drawn_when_no_size_fits :
  is_formula hello = inr false
  /\ (search_font_size fits_env (lit "tiro") privet tiny_box candidate_sizes
        cached_world).1 = inr None
  /\ (render_paragraph fits_env (lit "d0c") (lit "tiro") 0 hello tiny_box
        cached_world).1 = inr [].
Proof. vm_compute. repeat split; reflexivity. Qed.

End Runs.

(** ** The image-based strategy *)

(** The call on line 210 passes one argument where three are required. *)
Lemma ocr_paragraph_raises (E : env) (height : Q) (i n : nat) (page_num : Z)
    (text : pystr) (b : bbox) (w : world) :
  (ocr_paragraph E height i n page_num text b w).1 = inl TypeError.
Proof. reflexivity. Qed.

Section OcrRuns.

Import Samples.

(** C5: [regenerate] on an image-based document does not reach the drawing
    code.  [main] passes the cache, the document hash and the font where
    [debug_mode], [start_page] and [end_page] are expected, and the
    paragraph loop calls [translate_text] with the text alone: with a
    non-empty cache the page test compares an [int] with a [str], with an
    empty one the call lacks two arguments.  Either way a [TypeError] leaves
    [main] and no output document is written. *)
Theorem regenerate_image_based_raises :
  is_image_based_pdf (pages scanned_env) (3 # 10) = inr true
  /\ (main scanned_env regenerate_args translated_world).1 = inl TypeError
  /\ fs (main scanned_env regenerate_args translated_world).2 !! lit "out.pdf" = None
  /\ (main scanned_env regenerate_args no_cache_world).1 = inl TypeError
  /\ fs (main scanned_env regenerate_args no_cache_world).2 !! lit "out.pdf" = None.
Proof. vm_compute. repeat split; reflexivity. Qed.

End OcrRuns.

(** ** Sample runs of the translator and of [main] *)

Section TranslatorRuns.

Import Samples.

(** A 200 answer with an empty body is retried; the retry succeeds, the
    translation is returned and stored. *)
Lemma empty_body_is_retried :
  http_post empty_then_ok_env 0 = Some empty_200
  /\ (translate_text empty_then_ok_env hello (lit "d0c") false false empty_world).1
     = inr privet
  /\ cache_lookup
       (cache_obj (translate_text empty_then_ok_env hello (lit "d0c") false false
                     empty_world).2)
       (lit "d0c") hello = Some privet
  /\ cache_lookup (cache_obj empty_world) (lit "d0c") hello = None.
Proof. vm_compute. repeat split; reflexivity. Qed.

(** The same text translated twice with the cache enabled, the first
    request failing: two requests are issued, not one. *)
Lemma two_requests_for_one_text :
  posts (translate_text flaky_env hello (lit "d0c") false false
           (translate_text flaky_env hello (lit "d0c") false false empty_world).2).2
  = 2%nat.
Proof. vm_compute. reflexivity. Qed.

(** A translation that cannot be printed: without debug mode it is returned
    and stored after one request; in debug mode the line that quotes it
    raises inside [try], every attempt is retried and the original text
    comes back after three requests, with nothing stored. *)
Lemma unprintable_translation_in_debug_mode :
  let quiet :=
    translate_text surrogate_answer_env hello (lit "d0c") false false empty_world in
  let debug :=
    translate_text surrogate_answer_env hello (lit "d0c") false true empty_world in
  quiet.1 = inr [55296%N] /\ posts quiet.2 = 1%nat
  /\ cache_lookup (cache_obj quiet.2) (lit "d0c") hello = Some [55296%N]
  /\ debug.1 = inr hello /\ posts debug.2 = 3%nat
  /\ cache_lookup (cache_obj debug.2) (lit "d0c") hello = None
  /\ last (stdout debug.2)
     = Some (lit "Error translating text (attempt 3/3): UnicodeEncodeError").
Proof. vm_compute. repeat split; reflexivity. Qed.

(** A cache file that holds [null] is loaded as it is, and the membership
    test of line 50 raises: [main] ends with [TypeError] before the
    paragraphs file is looked for. *)
Lemma null_cache_file_raises :
  fs null_cache_world !! paragraphs_file_of (get_file_md5 fits_env (input_pdf regenerate_args))
  = None
  /\ (load_translation_cache cache_file null_cache_world).1 = inr (LoadedOther JNull)
  /\ (main fits_env regenerate_args null_cache_world).1 = inl TypeError
  /\ stdout (main fits_env regenerate_args null_cache_world).2
     = [lit "API Endpoint: https://llm.example/v1"; lit "API Key found: Yes";
        lit "File MD5: d0c"].
Proof. vm_compute. repeat split; reflexivity. Qed.

(** [regenerate] with no paragraphs file ends with status 0. *)
Lemma missing_paragraphs_file_exits_zero :
  fs empty_world !! paragraphs_file_of (get_file_md5 fits_env (input_pdf regenerate_args))
  = None
  /\ exit_status (main fits_env regenerate_args empty_world).1 = 0.
Proof. vm_compute. split; reflexivity. Qed.

End TranslatorRuns.

(** ** The properties on sample inputs *)

Section Instances.

Import Samples.

(** Size 11 fits the narrow box on two lines, and so does size 6. *)
Lemma fitting_is_monotone_sample :
  0 < 6 <= 11
  /\ (forall line, test_insert_text_ok fits_env line (lit "tiro") 6 = true)
  /\ fits_at fits_env (lit "tiro") hello narrow_box 11 = true
  /\ fits_at fits_env (lit "tiro") hello narrow_box 6 = true.
Proof.
  assert (0 < 6 <= 11) as Hs by lia.
  assert (forall line, test_insert_text_ok fits_env line (lit "tiro") 6 = true) as Hok
    by reflexivity.
  assert (fits_at fits_env (lit "tiro") hello narrow_box 11 = true) as Hfit
    by (vm_compute; reflexivity).
  split; [exact Hs|]. split; [exact Hok|]. split; [exact Hfit|].
  exact (fitting_is_monotone fits_env (lit "tiro") hello narrow_box 11 6 Hs Hok Hfit).
Defined.

(** The cached translation of the sample paragraph is committed at size 11. *)
Lemma render_paragraph_font_size_sample :
  is_formula hello = inr false
  /\ encodable hello = true
  /\ fs (render_paragraph fits_env (lit "d0c") (lit "tiro") 0 hello narrow_box
           cached_world).2 = fs cached_world
  /\ find (fits_at fits_env (lit "tiro") privet narrow_box) candidate_sizes = Some 11.
Proof.
  assert (is_formula hello = inr false) as Hformula by (vm_compute; reflexivity).
  assert (encodable hello = true) as Henc by (vm_compute; reflexivity).
  split; [assumption|]. split; [assumption|]. split; [|vm_compute; reflexivity].
  pose proof (render_paragraph_font_size fits_env (lit "tiro") narrow_box (lit "d0c")
                0 hello cached_world Hformula Henc) as H.
  cbv zeta in H. destruct H as (_ & H & _). exact H.
Defined.

(** With the endpoint down the original text comes back after three
    requests. *)
Lemma translate_text_degrades_sample :
  encodable hello = true
  /\ cache_miss down_env empty_world (lit "d0c") hello false
  /\ config_complete down_env
  /\ (forall k, (k < 3)%nat ->
        answer_retried (http_post down_env (posts empty_world + k)))
  /\ (translate_text down_env hello (lit "d0c") false false empty_world).1 = inr hello
  /\ cache_obj (translate_text down_env hello (lit "d0c") false false empty_world).2
     = cache_obj empty_world
  /\ posts (translate_text down_env hello (lit "d0c") false false empty_world).2
     = 3%nat.
Proof.
  assert (encodable hello = true) as Henc by (vm_compute; reflexivity).
  assert (cache_miss down_env empty_world (lit "d0c") hello false) as Hmiss
    by (right; vm_compute; reflexivity).
  assert (config_complete down_env) as Hcfg by (split; reflexivity).
  assert (forall k, (k < 3)%nat ->
            answer_retried (http_post down_env (posts empty_world + k))) as Hdown
    by (intros k _; apply transport_error).
  split; [exact Henc|]. split; [exact Hmiss|]. split; [exact Hcfg|].
  split; [exact Hdown|].
  exact (proj2 (translate_text_degrades_to_passthrough down_env hello (lit "d0c")
                  false false empty_world) Henc Hmiss Hcfg 3%nat (le_n 3) Hdown
           (or_introl eq_refl)).
Defined.

(** A hit on the sample cache, and a miss followed by a hit. *)
Lemma translate_text_cache_sample :
  encodable hello = true
  /\ cache_lookup (cache_obj cached_world) (lit "d0c") (md5_hexdigest fits_env hello)
     = Some privet
  /\ posts (translate_text fits_env hello (lit "d0c") false false cached_world).2
     = posts cached_world
  /\ cache_miss fits_env empty_world (lit "d0c") hello false
  /\ config_complete fits_env
  /\ answer_translated (http_post fits_env (posts empty_world + 0)) privet
  /\ posts (translate_text fits_env hello (lit "d0c") false false
              (translate_text fits_env hello (lit "d0c") false false empty_world).2).2
     = 1%nat.
Proof.
  assert (encodable hello = true) as Henc by (vm_compute; reflexivity).
  assert (cache_lookup (cache_obj cached_world) (lit "d0c")
            (md5_hexdigest fits_env hello) = Some privet) as Hhit
    by (vm_compute; reflexivity).
  assert (cache_miss fits_env empty_world (lit "d0c") hello false) as Hmiss
    by (right; vm_compute; reflexivity).
  assert (config_complete fits_env) as Hcfg by (split; reflexivity).
  assert (answer_translated (http_post fits_env (posts empty_world + 0)) privet)
    as Hfirst.
  { exists (translated privet), [(lit "response", JObj [(lit "choices",
              JArr [JObj [(lit "message", JObj [(lit "content", JStr privet)])]])])],
      [(lit "choices", JArr [JObj [(lit "message",
                                    JObj [(lit "content", JStr privet)])]])],
      [(lit "message", JObj [(lit "content", JStr privet)])],
      [(lit "content", JStr privet)], [].
    repeat split; reflexivity. }
  assert (forall k, (k < 0)%nat ->
            answer_retried (http_post fits_env (posts empty_world + k))) as Hnone
    by (intros k Hk; inversion Hk).
  pose proof (translate_text_cache_idempotent fits_env hello (lit "d0c") false
                cached_world Henc) as [Hhits _].
  pose proof (translate_text_cache_idempotent fits_env hello (lit "d0c") false
                empty_world Henc) as [_ Hmisses].
  specialize (Hhits privet Hhit). cbv zeta in Hhits. destruct Hhits as (_ & Hposts & _).
  specialize (Hmisses false 0%nat privet Hmiss Hcfg ltac:(lia) Hnone Hfirst
                (or_introl eq_refl)).
  cbv zeta in Hmisses.
  destruct Hmisses as (_ & _ & Hfirst_posts & _ & Hsecond_posts & _).
  split; [exact Henc|]. split; [exact Hhit|]. split; [exact Hposts|].
  split; [exact Hmiss|]. split; [exact Hcfg|]. split; [exact Hfirst|].
  rewrite Hsecond_posts, Hfirst_posts. reflexivity.
Defined.

(** Two pages, one of them without fragments, written and read back. *)
Lemma paragraphs_file_round_trip_sample :
  let saved := save_paragraphs (lit "d0c_paragraphs.json") two_fragments empty_world in
  NoDup two_fragments.*1
  /\ paragraphs_encodable two_fragments = true
  /\ saved.1 = inr tt
  /\ (load_paragraphs (lit "d0c_paragraphs.json") saved.2).1
     = inr (raw_of two_fragments)
  /\ ((raw <- load_paragraphs (lit "d0c_paragraphs.json");;
       lift (typed_paragraphs raw)) saved.2).1 = inr two_fragments.
Proof.
  cbv zeta.
  assert (NoDup two_fragments.*1) as Hnd
    by (apply NoDup_cons; split; [rewrite list_elem_of_singleton; discriminate
                                 | apply NoDup_singleton]).
  assert (paragraphs_encodable two_fragments = true) as Henc
    by (vm_compute; reflexivity).
  split; [exact Hnd|]. split; [exact Henc|].
  pose proof (paragraphs_file_round_trip two_fragments (lit "d0c_paragraphs.json")
                empty_world Hnd) as Hround.
  cbv zeta in Hround. rewrite Henc in Hround. destruct Hround as [Hsaved Hback].
  split; [exact Hsaved|]. exact (Hback _ eq_refl).
Defined.

(** C7, the mapping it does not hold for: a fragment whose text is a lone
    surrogate.  The dump raises, the paragraphs file is left cut short, and
    loading it raises [JSONDecodeError]: nothing is read back. *)
Lemma surrogate_text_is_not_saved :
  let saved :=
    save_paragraphs (lit "d0c_paragraphs.json") surrogate_paragraph empty_world in
  NoDup surrogate_paragraph.*1
  /\ saved.1 = inl UnicodeEncodeError
  /\ fs saved.2 !! lit "d0c_paragraphs.json" = Some FBytes
  /\ (load_paragraphs (lit "d0c_paragraphs.json") saved.2).1 = inl JSONDecodeError
  /\ (main_translate (sample_env (fun _ => None) [letter_page] surrogate_paragraph
                        true true)
        translate_args (lit "d0c") false empty_world).1 = inl UnicodeEncodeError.
Proof.
  cbv zeta. split; [apply NoDup_singleton|]. repeat split; vm_compute; reflexivity.
Qed.

(** [regenerate] on a machine where [translate] was never run. *)
Lemma regenerate_without_paragraphs_file_sample :
  arg_command regenerate_args = Regenerate
  /\ pages fits_env <> []
  /\ cache_file_well_formed empty_world
  /\ fs empty_world
       !! paragraphs_file_of (get_file_md5 fits_env (input_pdf regenerate_args)) = None
  /\ (main fits_env regenerate_args empty_world).1 = inr tt
  /\ fs (main fits_env regenerate_args empty_world).2 = fs empty_world.
Proof.
  assert (arg_command regenerate_args = Regenerate) as Hcmd by reflexivity.
  assert (pages fits_env <> []) as Hdoc by discriminate.
  assert (cache_file_well_formed empty_world) as Hcache
    by (intros j Hj; vm_compute in Hj; discriminate Hj).
  assert (fs empty_world
            !! paragraphs_file_of (get_file_md5 fits_env (input_pdf regenerate_args))
          = None) as Hmissing by (vm_compute; reflexivity).
  pose proof (regenerate_without_paragraphs_file fits_env regenerate_args empty_world
                Hcmd Hdoc Hcache Hmissing) as H.
  cbv zeta in H. destruct H as (Hr & _ & Hfs & _).
  split; [exact Hcmd|]. split; [exact Hdoc|]. split; [exact Hcache|].
  split; [exact Hmissing|]. split; [exact Hr|exact Hfs].
Defined.

End Instances.

(** ** Whole runs of [main] *)

Section MainRuns.

Import Samples.

(** [translate] with the endpoint down issues three requests and saves the
    paragraph untranslated; a second [translate] against a working endpoint
    issues none and keeps the entry. *)
Example failed_run_is_remembered :
  posts (main down_env translate_args empty_world).2 = 3%nat
  /\ fs (main down_env translate_args empty_world).2 !! cache_file
     = Some (FJson (json_of_cache {[ lit "d0c" := {[ hello := hello ]} ]}))
  /\ posts (main fits_env translate_args (main down_env translate_args empty_world).2).2
     = 3%nat
  /\ fs (main fits_env translate_args (main down_env translate_args empty_world).2).2
       !! cache_file
     = Some (FJson (json_of_cache {[ lit "d0c" := {[ hello := hello ]} ]})).
Proof. vm_compute. repeat split; reflexivity. Qed.

(** [translate] then [regenerate] on the text-based sample document. *)
Example translate_then_regenerate :
  fs (main fits_env regenerate_args (main fits_env translate_args empty_world).2).2
    !! lit "out.pdf"
  = Some (FPdf [DrawnPage [InsertImage (BBox 0 0 612 792) (PagePixmap 0);
                           InsertFont (lit "F0");
                           DrawRect wide_box;
                           InsertText 74 111 privet (lit "F0") 11]]).
Proof. vm_compute. reflexivity. Qed.

(** On a document without pages [main] stops in the classifier. *)
Example main_on_empty_document :
  (main (sample_env (fun _ => None) [] [] true true) regenerate_args empty_world).1
  = inl ZeroDivisionError.
Proof. vm_compute. reflexivity. Qed.

End MainRuns.

(** * Further properties *)

(** ** The translator: requests, delays and files *)

Section TranslatorEffects.

Variable E : env.

Lemma load_api_config_slept (w : world) :
  slept (load_api_config E w).2 = slept w.
Proof.
  unfold load_api_config. unfold_M.
  destruct (config_found E), (config_error E), (truthy_str (API_KEY E)),
    (truthy_str (OPENAI_API_ENDPOINT E)); reflexivity.
Qed.

(** One attempt sleeps once, for [retry_delay], when it asks for a retry
    that is still allowed, and not otherwise. *)
Lemma attempt_body_slept (text file_md5 text_md5 : pystr) (debug_mode : bool)
    (attempt retry_delay : Z) (w : world) :
  let r := attempt_body E text file_md5 text_md5 debug_mode attempt retry_delay w in
  slept r.2 =
  match r.1 with
  | inr (None, _) => slept w ++ [retry_delay]
  | _ => slept w
  end.
Proof.
  unfold attempt_body, requests_post, retry_or_give_up. unfold_M.
  destruct (http_post E (posts w)) as [r|]; simpl.
  - destruct (status_code r =? 200); simpl.
    + destruct (response_json r) as [e|j]; simpl.
      * destruct (attempt <? max_retries - 1); simpl; auto.
      * destruct (read_choices j) as [e|[t|]]; simpl.
        -- destruct (attempt <? max_retries - 1); simpl; auto.
        -- match goal with
           | |- context [debug_lines text t debug_mode ?W] =>
               destruct (debug_lines_obs text t debug_mode W)
                 as (r' & w' & -> & _ & _ & _ & Hs & [-> | ->] & _)
           end; simpl in Hs; simpl;
             [|destruct (attempt <? max_retries - 1); simpl]; rewrite ?Hs; auto.
        -- auto.
    + destruct (attempt <? max_retries - 1); simpl; auto.
  - destruct (attempt <? max_retries - 1); simpl; auto.
Qed.

Lemma attempts_slept (text file_md5 text_md5 : pystr) (debug_mode : bool)
    (remaining : nat) :
  encodable text = true ->
  forall (attempt retry_delay : Z) (w : world),
    attempt + Z.of_nat remaining = max_retries ->
    exists n, (n < Nat.max remaining 1)%nat /\
      slept (attempts E text file_md5 text_md5 debug_mode remaining attempt
               retry_delay w).2 = slept w ++ backoff n retry_delay.
Proof.
  intros Henc.
  induction remaining as [|k IH]; intros attempt retry_delay w Hsum.
  - exists O. split; [simpl; lia|]. simpl. unfold mret, M_ret. simpl.
    rewrite app_nil_r. reflexivity.
  - pose proof (attempt_body_slept text file_md5 text_md5 debug_mode attempt
                  retry_delay w) as Hs.
    pose proof (attempt_body_obs E text file_md5 text_md5 debug_mode attempt
                  retry_delay w Henc) as Hobs.
    cbv zeta in Hs, Hobs. destruct Hobs as (_ & _ & Hcase).
    cbn [attempts]. unfold bind_first, mbind, M_bind.
    destruct (attempt_body E text file_md5 text_md5 debug_mode attempt retry_delay w)
      as [[e|[[v|] d]] w1]; cbn [fst snd] in *.
    + exists O. split; [lia|]. rewrite Hs, app_nil_r. reflexivity.
    + exists O. split; [lia|]. unfold mret, M_ret. cbn [snd].
      rewrite Hs, app_nil_r. reflexivity.
    + assert (d = retry_delay * 2 /\ (attempt <? max_retries - 1) = true) as [-> Hlt].
      { destruct (classify debug_mode (http_post E (posts w))); destruct Hcase as [Hr _];
          try discriminate.
        destruct (attempt <? max_retries - 1); [|discriminate].
        injection Hr as <-. auto. }
      apply Z.ltb_lt in Hlt. unfold max_retries in *.
      destruct (IH (attempt + 1) (retry_delay * 2) w1 ltac:(lia)) as (n & Hn & ->).
      exists (S n). split; [lia|]. rewrite Hs. cbn [backoff].
      rewrite <- app_assoc. reflexivity.
Qed.

Lemma consumed_length (os : list outcome) : (consumed os <= length os)%nat.
Proof.
  induction os as [|[t| |] os IH]; simpl; lia.
Qed.

Lemma translate_text_fs (text file_md5 : pystr) (ignore_cache debug_mode : bool)
    (w : world) :
  fs (translate_text E text file_md5 ignore_cache debug_mode w).2 = fs w.
Proof.
  destruct (encodable text) eqn:Henc;
    [|rewrite (translate_text_unencodable E _ _ _ _ _ Henc); reflexivity].
  destruct (if ignore_cache then None
            else cache_lookup (cache_obj w) file_md5 (md5_hexdigest E text))
    as [v|] eqn:Hlook.
  - destruct ignore_cache; [discriminate|].
    rewrite (translate_text_hit E _ _ _ _ _ Henc Hlook). reflexivity.
  - assert (cache_miss E w file_md5 text ignore_cache) as Hmiss
      by (destruct ignore_cache; [left; reflexivity | right; exact Hlook]).
    pose proof (translate_text_miss E text file_md5 ignore_cache debug_mode w Henc Hmiss)
      as H.
    cbv zeta in H. exact (proj1 H).
Qed.

(** X1: one call of [translate_text] never touches a file, issues at most
    three requests, and sleeps only between attempts: for 2 seconds, then
    for 4. *)
Theorem translate_text_effects (text file_md5 : pystr)
    (ignore_cache debug_mode : bool) (w : world) :
  let r := translate_text E text file_md5 ignore_cache debug_mode w in
  fs r.2 = fs w
  /\ (posts w <= posts r.2 <= posts w + 3)%nat
  /\ exists n, (n <= 2)%nat /\ slept r.2 = slept w ++ take n [2; 4].
Proof.
  cbv zeta.
  destruct (encodable text) eqn:Henc.
  2: { rewrite (translate_text_unencodable E _ _ _ _ _ Henc). cbn [fst snd].
       split; [reflexivity|]. split; [lia|]. exists O. split; [lia|].
       rewrite app_nil_r. reflexivity. }
  destruct (if ignore_cache then None
            else cache_lookup (cache_obj w) file_md5 (md5_hexdigest E text))
    as [v|] eqn:Hlook.
  - destruct ignore_cache; [discriminate|].
    rewrite (translate_text_hit E _ _ _ _ _ Henc Hlook). cbn [fst snd fs posts slept].
    split; [reflexivity|]. split; [lia|]. exists O. split; [lia|].
    rewrite app_nil_r. reflexivity.
  - assert (cache_miss E w file_md5 text ignore_cache) as Hmiss
      by (destruct ignore_cache; [left; reflexivity | right; exact Hlook]).
    pose proof (translate_text_miss E text file_md5 ignore_cache debug_mode w Henc Hmiss)
      as H.
    cbv zeta in H. destruct H as [Hfs H]. split; [exact Hfs|].
    split.
    + destruct H as [(_ & Hp & _) | (_ & Hp & _)]; [|lia].
      pose proof (consumed_length (outcomes E debug_mode w 3)) as Hc.
      unfold outcomes in Hc at 2. rewrite length_fmap, length_seq in Hc. lia.
    + unfold translate_text.
      cbv beta iota delta [bind_first mbind M_bind get_cache lift].
      rewrite (get_text_md5_encodable E _ Henc). cbv beta iota. rewrite Hlook.
      pose proof (load_api_config_slept w) as Hs0.
      pose proof (load_api_config_obs E w) as (Hcfg & _).
      destruct (load_api_config E w) as [cfg w0]. cbn [fst snd] in *. subst cfg.
      cbn [fst snd].
      destruct (negb (truthy_str (API_KEY E)) || negb (truthy_str (OPENAI_API_ENDPOINT E))).
      * exists O. split; [lia|]. unfold print, mret, M_ret. cbn [fst snd slept].
        rewrite Hs0, app_nil_r. reflexivity.
      * destruct (attempts_slept text file_md5 (md5_hexdigest E text) debug_mode
                    (Z.to_nat max_retries) Henc 0 2 w0 eq_refl) as (n & Hn & ->).
        change (Z.to_nat max_retries) with 3%nat in Hn.
        exists n. split; [lia|]. rewrite Hs0.
        destruct n as [|[|[|n]]]; try reflexivity. lia.
Qed.

(** X2: on a text that can be encoded, with an incomplete configuration a
    cache miss is answered with the original text at once: no request, no
    change of the cache. *)
Theorem translate_text_without_configuration (text file_md5 : pystr)
    (ignore_cache debug_mode : bool) (w : world) :
  encodable text = true ->
  cache_miss E w file_md5 text ignore_cache ->
  ~ config_complete E ->
  let r := translate_text E text file_md5 ignore_cache debug_mode w in
  r.1 = inr text /\ posts r.2 = posts w /\ cache_obj r.2 = cache_obj w.
Proof.
  intros Henc Hmiss Hcfg. cbv zeta.
  pose proof (translate_text_miss E text file_md5 ignore_cache debug_mode w Henc Hmiss)
    as H.
  cbv zeta in H. destruct H as [_ [(Hc & _) | (_ & Hp & Hr & Hcache)]];
    [contradiction | auto].
Qed.

End TranslatorEffects.

(** ** The cache *)

Lemma cache_lookup_store_other (c : cache) (file_md5 text_md5 value : pystr)
    (file_md5' text_md5' : pystr) :
  (file_md5, text_md5) <> (file_md5', text_md5') ->
  cache_lookup (cache_store c file_md5 text_md5 value) file_md5' text_md5'
  = cache_lookup c file_md5' text_md5'.
Proof.
  intros Hne. unfold cache_lookup, cache_store.
  destruct (decide (file_md5 = file_md5')) as [<-|Hf].
  - assert (text_md5 <> text_md5') as Ht by congruence.
    rewrite lookup_insert_eq. simpl.
    destruct (c !! file_md5) as [d|] eqn:Hd.
    + rewrite Hd. simpl. apply lookup_insert_ne. exact Ht.
    + rewrite lookup_insert_eq. simpl. rewrite lookup_insert_ne by exact Ht.
      apply lookup_empty.
  - rewrite lookup_insert_ne by exact Hf.
    destruct (c !! file_md5); [reflexivity|].
    rewrite lookup_insert_ne by exact Hf. reflexivity.
Qed.

(** X3: storing a translation makes it the entry of its own key and leaves
    the entry of every other (document, text) key as it was. *)
Theorem cache_store_lookup (c : cache) (file_md5 text_md5 value : pystr)
    (file_md5' text_md5' : pystr) :
  cache_lookup (cache_store c file_md5 text_md5 value) file_md5' text_md5'
  = if decide ((file_md5, text_md5) = (file_md5', text_md5'))
    then Some value
    else cache_lookup c file_md5' text_md5'.
Proof.
  destruct (decide ((file_md5, text_md5) = (file_md5', text_md5'))) as [Heq|Hne].
  - injection Heq as <- <-. apply cache_lookup_store.
  - apply cache_lookup_store_other. exact Hne.
Qed.

(** ** The translate command: what a run does to the cache *)

Section TranslateRun.

Variable E : env.

(** The cache after [translate_text]: as before, or with the translation
    stored under the key of the text. *)
Lemma translate_text_cache_shape (text file_md5 : pystr)
    (ignore_cache debug_mode : bool) (w : world) :
  encodable text = true ->
  let r := translate_text E text file_md5 ignore_cache debug_mode w in
  exists v, r.1 = inr v /\
    (cache_obj r.2 = cache_obj w
     \/ (cache_miss E w file_md5 text ignore_cache
         /\ cache_obj r.2
            = cache_store (cache_obj w) file_md5 (md5_hexdigest E text) v)).
Proof.
  intros Henc. cbv zeta.
  destruct (if ignore_cache then None
            else cache_lookup (cache_obj w) file_md5 (md5_hexdigest E text))
    as [v|] eqn:Hlook.
  - destruct ignore_cache; [discriminate|].
    rewrite (translate_text_hit E _ _ _ _ _ Henc Hlook). cbn [fst snd cache_obj]. eauto.
  - assert (cache_miss E w file_md5 text ignore_cache) as Hmiss
      by (destruct ignore_cache; [left; reflexivity | right; exact Hlook]).
    pose proof (translate_text_miss E text file_md5 ignore_cache debug_mode w Henc Hmiss)
      as H.
    cbv zeta in H. destruct H as [_ [(_ & _ & H) | (_ & _ & Hr & Hc)]]; [|eauto].
    destruct (decisive (outcomes E debug_mode w 3)) as [t| |]; destruct H as [Hr Hc]; eauto.
Qed.

(** The paragraph step on a text that can be encoded returns, and the cache
    it leaves is the one of [translate_text] with the returned value stored
    under the key. *)
Lemma translate_paragraph_cache (a : args) (file_md5 : pystr) (i n : nat)
    (page_num : Z) (text : pystr) (w : world) :
  encodable text = true ->
  let r := translate_paragraph E a file_md5 i n page_num text w in
  r.1 = inr tt /\
  exists v c,
    cache_obj r.2 = cache_store c file_md5 (md5_hexdigest E text) v
    /\ (c = cache_obj w
        \/ (cache_miss E w file_md5 text (ignore_cache a)
            /\ c = cache_store (cache_obj w) file_md5 (md5_hexdigest E text) v))
    /\ (forall cached,
          ignore_cache a = false ->
          cache_lookup (cache_obj w) file_md5 (md5_hexdigest E text) = Some cached ->
          v = cached).
Proof.
  intros Henc. cbv zeta. unfold translate_paragraph.
  cbv beta iota delta [bind_first mbind M_bind].
  destruct (print _ w) as [p start] eqn:Hprint.
  assert (p = inr tt /\ cache_obj start = cache_obj w) as (-> & Hcache)
    by (unfold print in Hprint; injection Hprint as <- <-; simpl; auto).
  pose proof (translate_text_cache_shape text file_md5 (ignore_cache a) false start Henc)
    as Hshape.
  cbv zeta in Hshape. destruct Hshape as (v & Hv & Hshape).
  assert (forall cached,
             ignore_cache a = false ->
             cache_lookup (cache_obj w) file_md5 (md5_hexdigest E text) = Some cached ->
             v = cached) as Hhit.
  { intros cached Hig Hl. rewrite <- Hcache in Hl. rewrite Hig in Hv.
    rewrite (translate_text_hit E _ _ _ _ _ Henc Hl) in Hv. simpl in Hv. congruence. }
  destruct (translate_text E text file_md5 (ignore_cache a) false start) as [tr w1].
  cbn [fst snd] in *. subst tr. unfold lift.
  rewrite (get_text_md5_encodable E _ Henc).
  unfold get_cache, put_cache. cbn [fst snd cache_obj].
  split; [reflexivity|]. exists v, (cache_obj w1). split; [reflexivity|].
  split; [|exact Hhit].
  unfold cache_miss in *. rewrite Hcache in Hshape. exact Hshape.
Qed.

(** On a text that cannot be encoded the step raises and leaves the cache,
    the files and the request count as they were. *)
Lemma translate_paragraph_unencodable (a : args) (file_md5 : pystr) (i n : nat)
    (page_num : Z) (text : pystr) (w : world) :
  encodable text = false ->
  let r := translate_paragraph E a file_md5 i n page_num text w in
  r.1 = inl UnicodeEncodeError
  /\ cache_obj r.2 = cache_obj w /\ fs r.2 = fs w /\ posts r.2 = posts w.
Proof.
  intros Henc. cbv zeta. unfold translate_paragraph.
  cbv beta iota delta [bind_first mbind M_bind print].
  rewrite (translate_text_unencodable E _ _ _ _ _ Henc).
  cbn [fst snd cache_obj fs posts]. repeat split.
Qed.

Lemma cache_store_other_document (c : cache) (file_md5 text_md5 value f : pystr) :
  f <> file_md5 -> cache_store c file_md5 text_md5 value !! f = c !! f.
Proof.
  intros Hne. unfold cache_store. rewrite lookup_insert_ne by congruence.
  destruct (c !! file_md5); [reflexivity|]. apply lookup_insert_ne. congruence.
Qed.

Lemma translate_paragraph_keeps (a : args) (file_md5 : pystr) (i n : nat)
    (page_num : Z) (text : pystr) (w : world) (f k v : pystr) :
  ignore_cache a = false ->
  cache_lookup (cache_obj w) f k = Some v ->
  cache_lookup (cache_obj (translate_paragraph E a file_md5 i n page_num text w).2) f k
  = Some v.
Proof.
  intros Hig Hentry.
  destruct (encodable text) eqn:Henc.
  2: { destruct (translate_paragraph_unencodable a file_md5 i n page_num text w Henc)
         as (_ & -> & _). exact Hentry. }
  pose proof (translate_paragraph_cache a file_md5 i n page_num text w Henc) as H.
  cbv zeta in H. destruct H as (_ & tr & c & -> & Hc & Hhit).
  destruct (decide ((file_md5, md5_hexdigest E text) = (f, k))) as [Heq|Hne].
  - injection Heq as <- <-. rewrite cache_lookup_store. f_equal.
    apply Hhit; assumption.
  - rewrite cache_lookup_store_other by exact Hne.
    destruct Hc as [->|[[Hmiss|Hmiss] ->]]; [exact Hentry|congruence|].
    rewrite cache_lookup_store_other by exact Hne. exact Hentry.
Qed.

Lemma translate_paragraph_other_document (a : args) (file_md5 : pystr) (i n : nat)
    (page_num : Z) (text : pystr) (w : world) (f : pystr) :
  f <> file_md5 ->
  cache_obj (translate_paragraph E a file_md5 i n page_num text w).2 !! f
  = cache_obj w !! f.
Proof.
  intros Hne.
  destruct (encodable text) eqn:Henc.
  2: { destruct (translate_paragraph_unencodable a file_md5 i n page_num text w Henc)
         as (_ & -> & _). reflexivity. }
  pose proof (translate_paragraph_cache a file_md5 i n page_num text w Henc) as H.
  cbv zeta in H. destruct H as (_ & tr & c & -> & Hc & _).
  rewrite cache_store_other_document by exact Hne.
  destruct Hc as [->|[_ ->]]; [reflexivity|].
  apply cache_store_other_document. exact Hne.
Qed.

(** An entry of the document is never removed by a step, and a step that
    returns leaves an entry for its text. *)
Lemma translate_paragraph_entry_kept (a : args) (file_md5 : pystr) (i n : nat)
    (page_num : Z) (text : pystr) (w : world) (k : pystr) :
  is_Some (cache_lookup (cache_obj w) file_md5 k) ->
  is_Some (cache_lookup
             (cache_obj (translate_paragraph E a file_md5 i n page_num text w).2)
             file_md5 k).
Proof.
  intros Hsome.
  destruct (encodable text) eqn:Henc.
  2: { destruct (translate_paragraph_unencodable a file_md5 i n page_num text w Henc)
         as (_ & -> & _). exact Hsome. }
  pose proof (translate_paragraph_cache a file_md5 i n page_num text w Henc) as H.
  cbv zeta in H. destruct H as (_ & tr & c & -> & Hc & _).
  destruct (decide ((file_md5, md5_hexdigest E text) = (file_md5, k))) as [Heq|Hne].
  - assert (k = md5_hexdigest E text) as -> by congruence.
    rewrite cache_lookup_store. eauto.
  - rewrite cache_lookup_store_other by exact Hne.
    destruct Hc as [->|[_ ->]]; [exact Hsome|].
    rewrite cache_lookup_store_other by exact Hne. exact Hsome.
Qed.

Lemma translate_paragraph_returned (a : args) (file_md5 : pystr) (i n : nat)
    (page_num : Z) (text : pystr) (w : world) :
  (translate_paragraph E a file_md5 i n page_num text w).1 = inr tt ->
  encodable text = true.
Proof.
  intros Hr. destruct (encodable text) eqn:Henc; [reflexivity|].
  destruct (translate_paragraph_unencodable a file_md5 i n page_num text w Henc)
    as (Hraised & _).
  rewrite Hraised in Hr. discriminate.
Qed.

Lemma translate_paragraph_entry_new (a : args) (file_md5 : pystr) (i n : nat)
    (page_num : Z) (text : pystr) (w : world) :
  (translate_paragraph E a file_md5 i n page_num text w).1 = inr tt ->
  is_Some (cache_lookup
             (cache_obj (translate_paragraph E a file_md5 i n page_num text w).2)
             file_md5 (md5_hexdigest E text)).
Proof.
  intros Hr. pose proof (translate_paragraph_returned _ _ _ _ _ _ _ Hr) as Henc.
  pose proof (translate_paragraph_cache a file_md5 i n page_num text w Henc) as H.
  cbv zeta in H. destruct H as (_ & tr & c & -> & _).
  rewrite cache_lookup_store. eauto.
Qed.

(** A property of the cache kept by every paragraph step is kept by the
    loops, whether they run to their end or stop on an exception. *)
Lemma translate_paragraphs_invariant (P : cache -> Prop) (a : args)
    (file_md5 : pystr) (n : nat) (page_num : Z) (paragraphs : list (pystr * bbox)) :
  (forall i text w, P (cache_obj w) ->
     P (cache_obj (translate_paragraph E a file_md5 i n page_num text w).2)) ->
  forall (i : nat) (w : world),
    P (cache_obj w) ->
    P (cache_obj (translate_paragraphs E a file_md5 i n page_num paragraphs w).2).
Proof.
  intros Hstep.
  induction paragraphs as [|[text b] rest IH]; intros i w HP; [exact HP|].
  cbn [translate_paragraphs]. unfold mbind, M_bind.
  pose proof (Hstep i text w HP) as H1.
  destruct (translate_paragraph E a file_md5 i n page_num text w) as [[e|r] w1];
    cbn [fst snd] in *; [exact H1|].
  apply IH. exact H1.
Qed.

Lemma translate_pages_invariant (P : cache -> Prop) (a : args) (file_md5 : pystr)
    (items : paragraphs_by_page) :
  (forall i n page_num text w, P (cache_obj w) ->
     P (cache_obj (translate_paragraph E a file_md5 i n page_num text w).2)) ->
  forall w : world,
    P (cache_obj w) -> P (cache_obj (translate_pages E a file_md5 items w).2).
Proof.
  intros Hstep.
  induction items as [|[page_num paragraphs] rest IH]; intros w HP; [exact HP|].
  cbn [translate_pages]. unfold bind_first, mbind, M_bind, lift.
  destruct (skip_page a page_num) as [e|[|]]; cbn [fst snd]; [exact HP| |].
  - unfold mret, M_ret. apply IH. exact HP.
  - pose proof (translate_paragraphs_invariant P a file_md5 (length paragraphs)
                  page_num paragraphs (fun i => Hstep i _ _) 0%nat w HP) as H1.
    destruct (translate_paragraphs E a file_md5 0 (length paragraphs) page_num
                paragraphs w) as [[e|r] w1]; cbn [fst snd] in *; [exact H1|].
    apply IH. exact H1.
Qed.

(** X4: in a run with the cache enabled no entry that is in the cache is
    changed: whatever the endpoint answers, a translation stored by an
    earlier run is still there, unchanged, when the loop ends (or stops on
    an exception). *)
Theorem translate_run_keeps_entries (a : args) (file_md5 : pystr)
    (items : paragraphs_by_page) (w : world) (f k v : pystr) :
  ignore_cache a = false ->
  cache_lookup (cache_obj w) f k = Some v ->
  cache_lookup (cache_obj (translate_pages E a file_md5 items w).2) f k = Some v.
Proof.
  intros Hig Hentry.
  apply (translate_pages_invariant (fun c => cache_lookup c f k = Some v));
    [|exact Hentry].
  intros i n page_num text w' H. apply translate_paragraph_keeps; assumption.
Qed.

(** X5: a run on one document never touches the cache entries of another
    document, with or without [--ignore-cache]. *)
Theorem translate_run_other_documents (a : args) (file_md5 : pystr)
    (items : paragraphs_by_page) (w : world) (f : pystr) :
  f <> file_md5 ->
  cache_obj (translate_pages E a file_md5 items w).2 !! f = cache_obj w !! f.
Proof.
  intros Hne.
  apply (translate_pages_invariant (fun c => c !! f = cache_obj w !! f));
    [|reflexivity].
  intros i n page_num text w' H.
  rewrite translate_paragraph_other_document by exact Hne. exact H.
Qed.

Lemma translate_paragraphs_entries (a : args) (file_md5 : pystr) (n : nat)
    (page_num : Z) (paragraphs : list (pystr * bbox)) :
  forall (i : nat) (w : world) (k : pystr),
    (translate_paragraphs E a file_md5 i n page_num paragraphs w).1 = inr tt ->
    (exists text b, In (text, b) paragraphs /\ k = md5_hexdigest E text)
    \/ is_Some (cache_lookup (cache_obj w) file_md5 k) ->
    is_Some (cache_lookup
               (cache_obj (translate_paragraphs E a file_md5 i n page_num paragraphs w).2)
               file_md5 k).
Proof.
  induction paragraphs as [|[text b] rest IH]; intros i w k Hrun Hk.
  - destruct Hk as [(t & b & [] & _)|Hk]. exact Hk.
  - cbn [translate_paragraphs] in Hrun |- *. unfold mbind, M_bind in Hrun |- *.
    pose proof (translate_paragraph_entry_kept a file_md5 i n page_num text w k)
      as Hkept.
    pose proof (translate_paragraph_entry_new a file_md5 i n page_num text w) as Hnew.
    destruct (translate_paragraph E a file_md5 i n page_num text w) as [[e|[]] w1];
      cbn [fst snd] in *; [discriminate|].
    apply IH; [exact Hrun|].
    destruct Hk as [(t & b' & [Heq|Hin] & ->)|Hk].
    + injection Heq as <- <-. right. apply Hnew. reflexivity.
    + left. eauto.
    + right. apply Hkept. exact Hk.
Qed.

(** X6: when the translate loop runs to its end, every paragraph of every
    page it did not skip has a text that could be hashed and a cache entry
    under the document and that hash, whatever the endpoint answered. *)
Theorem translate_run_fills_cache (a : args) (file_md5 : pystr)
    (items : paragraphs_by_page) :
  forall (w : world) (page_num : Z) (paragraphs : list (pystr * bbox))
         (text : pystr) (b : bbox),
    (translate_pages E a file_md5 items w).1 = inr tt ->
    In (page_num, paragraphs) items ->
    skip_page a page_num = inr false ->
    In (text, b) paragraphs ->
    exists text_md5,
      get_text_md5 E text = inr text_md5
      /\ is_Some (cache_lookup (cache_obj (translate_pages E a file_md5 items w).2)
                    file_md5 text_md5).
Proof.
  assert (forall (w : world) (page_num : Z) (paragraphs : list (pystr * bbox))
                 (text : pystr) (b : bbox),
             (translate_pages E a file_md5 items w).1 = inr tt ->
             In (page_num, paragraphs) items ->
             skip_page a page_num = inr false ->
             In (text, b) paragraphs ->
             encodable text = true
             /\ is_Some (cache_lookup
                           (cache_obj (translate_pages E a file_md5 items w).2)
                           file_md5 (md5_hexdigest E text))) as Hmain.
  { induction items as [|[p ps] rest IH];
      intros w page_num paragraphs text b Hrun Hin Hskip Htext; [destruct Hin|].
    cbn [translate_pages] in Hrun |- *.
    unfold bind_first, mbind, M_bind, lift in Hrun |- *.
    destruct (skip_page a p) as [e|skip] eqn:Hp; cbn [fst snd] in Hrun |- *;
      [discriminate|].
    assert (exists w1,
               ((if skip then mret tt
                 else translate_paragraphs E a file_md5 0 (length ps) p ps) w)
               = (inr tt, w1)
               /\ (skip = false ->
                   forall t b', In (t, b') ps ->
                     encodable t = true
                     /\ is_Some (cache_lookup (cache_obj w1) file_md5
                                   (md5_hexdigest E t))))
      as (w1 & Hw1 & Hfilled).
    { destruct skip.
      - exists w. split; [reflexivity|discriminate].
      - pose proof (translate_paragraphs_entries a file_md5 (length ps) p ps 0%nat w)
          as He.
        assert (forall (i : nat) (w0 : world) t b',
                   (translate_paragraphs E a file_md5 i (length ps) p ps w0).1 = inr tt ->
                   In (t, b') ps -> encodable t = true) as Henc.
        { clear. generalize (length ps). intros n.
          induction ps as [|[t0 b0] more IHps]; intros i w0 t b' Hr Hin;
            [destruct Hin|].
          cbn [translate_paragraphs] in Hr. unfold mbind, M_bind in Hr.
          pose proof (translate_paragraph_returned a file_md5 i n p t0 w0) as Hret.
          destruct (translate_paragraph E a file_md5 i n p t0 w0) as [[e|[]] w1];
            cbn [fst snd] in *; [discriminate|].
          destruct Hin as [Heq|Hin].
          - injection Heq as <- <-. apply Hret. reflexivity.
          - eapply IHps; eassumption. }
        specialize (Henc 0%nat w).
        destruct (translate_paragraphs E a file_md5 0 (length ps) p ps w)
          as [[e|[]] w1]; cbn [fst snd] in *; [discriminate|].
        exists w1. split; [reflexivity|].
        intros _ t b' Hps. split; [eapply Henc; [reflexivity|exact Hps]|].
        apply He; [reflexivity|]. left. eauto. }
    rewrite Hw1 in Hrun |- *.
    destruct Hin as [Heq|Hin].
    - injection Heq as -> ->. rewrite Hskip in Hp. injection Hp as <-.
      destruct (Hfilled eq_refl text b Htext) as [Henc Hsome].
      split; [exact Henc|].
      apply (translate_pages_invariant
               (fun c => is_Some (cache_lookup c file_md5 (md5_hexdigest E text)))).
      + intros i n pn t w' H. apply translate_paragraph_entry_kept. exact H.
      + exact Hsome.
    - eapply IH; eassumption. }
  intros w page_num paragraphs text b Hrun Hin Hskip Htext.
  destruct (Hmain w page_num paragraphs text b Hrun Hin Hskip Htext) as [Henc Hsome].
  exists (md5_hexdigest E text). split; [apply get_text_md5_encodable; exact Henc|].
  exact Hsome.
Qed.

End TranslateRun.

(** ** The classifier beyond the cases above *)

Section ClassifierMore.

(** X7: only the first five pages are looked at: pages after the fifth do
    not change the classification. *)
Theorem is_image_based_pdf_first_five (doc extra : list page_info) (threshold : Q) :
  5 <= len doc ->
  is_image_based_pdf (doc ++ extra) threshold = is_image_based_pdf doc threshold.
Proof.
  unfold len. intros Hlen. unfold is_image_based_pdf, len.
  rewrite length_app.
  replace (Z.min (Z.of_nat (length doc + length extra)) 5) with 5 by lia.
  replace (Z.min (Z.of_nat (length doc)) 5) with 5 by lia.
  rewrite take_app_le by (change (Z.to_nat 5) with 5%nat; lia).
  reflexivity.
Qed.

Lemma fold_ratio_no_text (sampled : list page_info) :
  Forall no_text_block sampled ->
  forall acc, (fold_left page_ratio_step sampled acc == acc)%Q.
Proof.
  induction 1 as [|page rest Hpage _ IH]; intros acc; [reflexivity|].
  cbn [fold_left]. rewrite IH. unfold page_ratio_step. rewrite Hpage.
  change (len []) with 0.
  destruct (0 <? 0 + Z.of_nat (image_count page)); [|reflexivity].
  unfold of_int. unfold Qdiv. rewrite Qmult_0_l, Qplus_0_r. reflexivity.
Qed.

Lemma fold_ratio_text_only (sampled : list page_info) :
  Forall text_only sampled ->
  forall acc,
    (fold_left page_ratio_step sampled acc == acc + of_int (len sampled))%Q.
Proof.
  induction 1 as [|page rest [Htext Himg] _ IH]; intros acc.
  - change (of_int (len [])) with 0%Q. rewrite Qplus_0_r. reflexivity.
  - cbn [fold_left]. rewrite IH. unfold page_ratio_step. rewrite Himg.
    set (t := len (filter (fun t => t = 0) (block_types page))).
    assert (0 < t) as Ht.
    { subst t. unfold len.
      destruct (filter (fun t => t = 0) (block_types page)); [congruence|].
      simpl length. lia. }
    change (Z.of_nat 0) with 0. rewrite Z.add_0_r.
    replace (0 <? t) with true by (symmetry; apply Z.ltb_lt; exact Ht).
    assert (of_int t / of_int t == 1)%Q as ->.
    { apply Qmult_inv_r. unfold of_int, Qeq, inject_Z. simpl. lia. }
    unfold len. simpl length. rewrite Nat2Z.inj_succ. unfold of_int.
    rewrite <- Z.add_1_l, inject_Z_plus. ring.
Qed.

(** X8: a document with pages all of whose sampled pages carry no text block
    is image-based for every positive threshold; one all of whose sampled
    pages carry text blocks and no image is text-based for every threshold
    up to 1. *)
Theorem is_image_based_pdf_extremes (doc : list page_info) (threshold : Q) :
  doc <> [] ->
  (Forall no_text_block (take 5 doc) -> (0 < threshold)%Q ->
   is_image_based_pdf doc threshold = inr true)
  /\ (Forall text_only (take 5 doc) -> (threshold <= 1)%Q ->
      is_image_based_pdf doc threshold = inr false).
Proof.
  intros Hdoc. rewrite (is_image_based_pdf_nonempty doc threshold Hdoc).
  assert (0 < Z.min (len doc) 5) as Hpos
    by (destruct doc; [congruence|]; unfold len; simpl length; lia).
  assert (Z.to_nat (Z.min (len doc) 5) = Nat.min (length doc) 5) as Hmin
    by (unfold len; lia).
  assert (take (Z.to_nat (Z.min (len doc) 5)) doc = take 5 doc) as Htake.
  { rewrite Hmin. destruct (Nat.le_ge_cases (length doc) 5) as [Hle|Hge].
    - rewrite Nat.min_l by exact Hle. rewrite !firstn_all2 by lia. reflexivity.
    - rewrite Nat.min_r by exact Hge. reflexivity. }
  assert (~ of_int (Z.min (len doc) 5) == 0)%Q as Hnz
    by (unfold of_int, Qeq, inject_Z; simpl; lia).
  rewrite Htake. split.
  - intros Hpages Hthr. f_equal. apply Qltb_lt.
    rewrite (fold_ratio_no_text _ Hpages 0%Q).
    unfold Qdiv. rewrite Qmult_0_l. exact Hthr.
  - intros Hpages Hthr. f_equal. apply Qltb_ge.
    rewrite (fold_ratio_text_only _ Hpages 0%Q), Qplus_0_l.
    assert (len (take 5 doc) = Z.min (len doc) 5) as ->
      by (unfold len; rewrite length_take; lia).
    rewrite (Qmult_inv_r _ Hnz). exact Hthr.
Qed.

End ClassifierMore.

(** ** The formula heuristic *)

Section Formula.

Lemma Qltb_ratio (m n : Z) :
  0 < n -> Qltb (5 # 100) (of_int m / of_int n) = (n <? 20 * m).
Proof.
  intros Hn.
  destruct (n <? 20 * m) eqn:Hlt.
  - apply Z.ltb_lt in Hlt. apply Qltb_lt.
    apply Qlt_shift_div_l; [unfold of_int, Qlt, inject_Z; simpl; lia|].
    unfold of_int, Qlt, Qmult, inject_Z. simpl. lia.
  - apply Z.ltb_ge in Hlt. apply Qltb_ge.
    apply Qle_shift_div_r; [unfold of_int, Qlt, inject_Z; simpl; lia|].
    unfold of_int, Qle, Qmult, inject_Z. simpl. lia.
Qed.

Lemma is_formula_nonempty (text : pystr) :
  text <> [] -> exists formula, is_formula text = inr formula.
Proof.
  intros Htext. destruct text as [|c rest]; [congruence|].
  unfold is_formula.
  destruct ((1 <? len (filter (fun c => is_indicator c = true) (c :: rest)))
            && (len (split (c :: rest)) <? 5)); [eauto|].
  unfold bind_first, mbind, res_bind.
  rewrite py_div_positive by (unfold len; simpl length; lia). eauto.
Qed.

(** X9: [is_formula] raises [ZeroDivisionError] on the empty string and on
    nothing else; on any other text it answers in whole numbers (the
    quotient of the source read as an exact rational): more than one math
    symbol in fewer than five words, or more than one math symbol per twenty
    characters. *)
Theorem is_formula_decides (text : pystr) :
  is_formula text =
  match text with
  | [] => inl ZeroDivisionError
  | _ => inr ((1 <? math_symbols text) && (len (split text) <? 5)
              || (len text <? 20 * math_symbols text))
  end.
Proof.
  destruct text as [|c rest]; [reflexivity|].
  unfold is_formula. fold (math_symbols (c :: rest)).
  set (m := math_symbols (c :: rest)).
  destruct ((1 <? m) && (len (split (c :: rest)) <? 5)); [reflexivity|].
  unfold bind_first, mbind, res_bind.
  assert (0 < len (c :: rest)) as Hlen by (unfold len; simpl length; lia).
  rewrite py_div_positive by exact Hlen. unfold mret, res_ret.
  rewrite Qltb_ratio by exact Hlen. reflexivity.
Qed.

End Formula.

(** ** The cache file *)

Lemma entries_of_json_of_entries (d : gmap pystr pystr) :
  entries_of_json (json_of_entries d) = Some d.
Proof.
  unfold entries_of_json, json_of_entries.
  rewrite mapM_fmap_Some by (intros [k v]; reflexivity).
  cbn [fmap option_fmap option_map]. rewrite list_to_map_to_list. reflexivity.
Qed.

(** A cache written as a JSON document is read back as the same cache. *)
Lemma cache_of_json_of_cache (c : cache) : cache_of_json (json_of_cache c) = Some c.
Proof.
  unfold cache_of_json, json_of_cache.
  rewrite mapM_fmap_Some
    by (intros [k d]; cbn [fst snd]; rewrite entries_of_json_of_entries; reflexivity).
  cbn [fmap option_fmap option_map]. rewrite list_to_map_to_list. reflexivity.
Qed.

Lemma load_saved_cache (path : pystr) (c : cache) (w : world) :
  fs w !! path = Some (FJson (json_of_cache c)) ->
  load_translation_cache path w = (inr (LoadedCache c), w).
Proof.
  intros Hfile. unfold load_translation_cache. unfold_M.
  rewrite bool_decide_eq_true_2 by (rewrite Hfile; eauto).
  cbv beta iota. rewrite Hfile, cache_of_json_of_cache. reflexivity.
Qed.

Lemma load_unreadable_cache (path : pystr) (w : world) :
  fs w !! path = Some FBytes ->
  load_translation_cache path w
  = (inr (LoadedCache ∅),
     (print (lit "Warning: Failed to load cache file: " ++ exn_text JSONDecodeError)
        w).2).
Proof.
  intros Hfile. unfold load_translation_cache. unfold_M.
  rewrite bool_decide_eq_true_2 by (rewrite Hfile; eauto).
  cbv beta iota. rewrite Hfile. reflexivity.
Qed.

(** Saving never raises and touches nothing but the file and, when the
    dump fails, the standard output. *)
Lemma save_translation_cache_obs (path : pystr) (c : cache) (w : world) :
  let r := save_translation_cache path c w in
  r.1 = inr tt
  /\ cache_obj r.2 = cache_obj w /\ posts r.2 = posts w
  /\ fs r.2 = <[path := if cache_encodable c then FJson (json_of_cache c)
                        else FBytes]> (fs w).
Proof.
  cbv zeta. unfold save_translation_cache.
  destruct (cache_encodable c); unfold_M; cbn [fst snd cache_obj posts fs];
    repeat split.
Qed.

(** The cache saved by [save_translation_cache] is the cache
    [load_translation_cache] reads back, with nothing printed, when all its
    strings can be encoded; otherwise the file is cut short, a warning is
    printed, and loading gives the empty cache with a second warning.  Where
    there is no cache file the loaded cache is empty and nothing is printed;
    and loading never raises. *)
Lemma translation_cache_file (path : pystr) (c : cache) (w : world) :
  (if cache_encodable c
   then load_translation_cache path (save_translation_cache path c w).2
        = (inr (LoadedCache c), (save_translation_cache path c w).2)
        /\ stdout (save_translation_cache path c w).2 = stdout w
   else (load_translation_cache path (save_translation_cache path c w).2).1
        = inr (LoadedCache ∅)
        /\ stdout (save_translation_cache path c w).2
           = stdout w ++ [lit "Warning: Failed to save cache file: "
                          ++ exn_text UnicodeEncodeError])
  /\ (fs w !! path = None -> load_translation_cache path w = (inr (LoadedCache ∅), w))
  /\ exists loaded, (load_translation_cache path w).1 = inr loaded.
Proof.
  split; [|split].
  - pose proof (save_translation_cache_obs path c w) as H.
    cbv zeta in H. destruct H as (_ & _ & _ & Hfs).
    destruct (cache_encodable c) eqn:Henc.
    + split.
      * apply load_saved_cache. rewrite Hfs. apply lookup_insert_eq.
      * unfold save_translation_cache. rewrite Henc. reflexivity.
    + split.
      * rewrite load_unreadable_cache by (rewrite Hfs; apply lookup_insert_eq).
        reflexivity.
      * unfold save_translation_cache. rewrite Henc. reflexivity.
  - intros Hnone. unfold load_translation_cache. unfold_M.
    rewrite bool_decide_eq_false_2 by (rewrite Hnone; intros [? ?]; discriminate).
    reflexivity.
  - unfold load_translation_cache. unfold_M.
    destruct (bool_decide (is_Some (fs w !! path))); [|eauto].
    cbv beta iota. destruct (fs w !! path) as [[]|]; cbn [fst]; eauto.
Qed.

(** ** The commit path of the text-based renderer *)

Section Commit.

Variable E : env.
Variables (font_name : pystr) (b : bbox) (size : Z) (x : Q).

Lemma commit_words_wraps (words : list pystr) :
  forall (line : list pystr) (current_y : Q) (ops : list draw_op),
    commit_words E font_name size b x words line current_y = inr ops ->
    wraps (inserted_lines ops) (line ++ words).
Proof.
  induction words as [|word rest IH]; intros line current_y ops Hops;
    cbn [commit_words] in Hops.
  - destruct line as [|first more].
    + injection Hops as <-. exists []. repeat split; constructor.
    + unfold bind_first, mbind, res_bind, dst_insert_text in Hops.
      destruct (dst_insert_text_ok E _ font_name size); [|discriminate].
      injection Hops as <-. exists [first :: more]. rewrite app_nil_r.
      split; [reflexivity|]. split; [apply app_nil_r|].
      constructor; [discriminate|constructor].
  - destruct line as [|first more]; [exact (IH _ _ _ Hops)|].
    destruct (line_fits _ size _).
    + rewrite (app_assoc (first :: more) [word] rest : (first :: more) ++ word :: rest = _).
      exact (IH _ _ _ Hops).
    + unfold bind_first, mbind, res_bind, dst_insert_text in Hops.
      destruct (dst_insert_text_ok E _ font_name size); [|discriminate].
      destruct (commit_words E font_name size b x rest [word] _) as [e|more_ops] eqn:Hrest;
        [discriminate|].
      injection Hops as <-.
      destruct (IH _ _ _ Hrest) as (groups & Hlines & Hconcat & Hne).
      exists ((first :: more) :: groups). cbn [inserted_lines omap list_omap] in *.
      split; [rewrite fmap_cons; f_equal; exact Hlines|].
      split; [cbn [concat]; rewrite Hconcat; reflexivity|].
      constructor; [discriminate|exact Hne].
Qed.

(** X10: when the commit path goes through, the lines inserted on the page
    are exactly the words of the translated text, in order, cut into
    non-empty groups joined by single spaces: no word is lost, repeated or
    moved. *)
Theorem commit_words_keeps_text (translated_text : pystr) (current_y : Q)
    (ops : list draw_op) :
  commit_words E font_name size b x (split translated_text) [] current_y = inr ops ->
  wraps (inserted_lines ops) (split translated_text).
Proof. intros Hops. exact (commit_words_wraps _ _ _ _ Hops). Qed.

(** X11: the [k]-th line (from 0) is inserted at [x], in the font and at
    the size given, with the base line the source computes for it: the first
    base line after [k] additions [current_y += line_height], each rounded
    to binary64 (which can differ in the last place from the first base line
    plus [k * line_height]). *)
Theorem commit_words_positions (words : list pystr) :
  forall (line : list pystr) (current_y : Q) (ops : list draw_op) (k : nat)
         (op : draw_op),
    commit_words E font_name size b x words line current_y = inr ops ->
    ops !! k = Some op ->
    exists text,
      op = InsertText x
             (Nat.iter k (fun y => fl_add y (of_int (size + 2))) current_y)
             text font_name size.
Proof.
  induction words as [|word rest IH]; intros line current_y ops k op Hops Hk;
    cbn [commit_words] in Hops.
  - destruct line as [|first more].
    + injection Hops as <-. rewrite lookup_nil in Hk. discriminate.
    + unfold bind_first, mbind, res_bind, dst_insert_text in Hops.
      destruct (dst_insert_text_ok E _ font_name size); [|discriminate].
      injection Hops as <-.
      destruct k as [|k]; [|rewrite lookup_cons, lookup_nil in Hk; discriminate].
      injection Hk as <-. eexists. reflexivity.
  - destruct line as [|first more]; [eauto|].
    destruct (line_fits _ size _); [eauto|].
    unfold bind_first, mbind, res_bind, dst_insert_text in Hops.
    destruct (dst_insert_text_ok E _ font_name size); [|discriminate].
    destruct (commit_words E font_name size b x rest [word] _) as [e|more_ops] eqn:Hrest;
      [discriminate|].
    injection Hops as <-. destruct k as [|k].
    + injection Hk as <-. eexists. reflexivity.
    + rewrite lookup_cons in Hk.
      destruct (IH _ _ _ _ _ Hrest Hk) as (text & ->).
      eexists. rewrite Nat.iter_succ_r. reflexivity.
Qed.

Lemma commit_words_widths (all : list pystr) (words : list pystr) :
  forall (line : list pystr) (current_y : Q) (ops : list draw_op),
    (forall word, In word words -> In word all) ->
    line = [] \/ In (join space line) all
    \/ line_fits (join space line) size (max_width b) = true ->
    commit_words E font_name size b x words line current_y = inr ops ->
    forall text, In text (inserted_lines ops) ->
      In text all \/ line_fits text size (max_width b) = true.
Proof.
  induction words as [|word rest IH]; intros line current_y ops Hall Hline Hops text Hin;
    cbn [commit_words] in Hops.
  - destruct line as [|first more].
    + injection Hops as <-. destruct Hin.
    + unfold bind_first, mbind, res_bind, dst_insert_text in Hops.
      destruct (dst_insert_text_ok E _ font_name size); [|discriminate].
      injection Hops as <-. destruct Hin as [<-|[]].
      destruct Hline as [?|?]; [discriminate|assumption].
  - assert (forall w, In w rest -> In w all) as Hrest_all
      by (intros w Hw; apply Hall; right; exact Hw).
    assert (In word all) as Hword by (apply Hall; left; reflexivity).
    destruct line as [|first more].
    + refine (IH [word] _ _ Hrest_all _ Hops text Hin). right. left. exact Hword.
    + destruct (line_fits (join space ((first :: more) ++ [word])) size
                  (max_width b)) eqn:Hfit.
      * refine (IH _ _ _ Hrest_all _ Hops text Hin). right. right. exact Hfit.
      * unfold bind_first, mbind, res_bind, dst_insert_text in Hops.
        destruct (dst_insert_text_ok E _ font_name size); [|discriminate].
        destruct (commit_words E font_name size b x rest [word] _)
          as [e|more_ops] eqn:Hmore; [discriminate|].
        injection Hops as <-. destruct Hin as [<-|Hin].
        -- destruct Hline as [?|?]; [discriminate|assumption].
        -- refine (IH [word] _ _ Hrest_all _ Hmore text Hin). right. left. exact Hword.
Qed.

(** X12: every inserted line either passes the width test of the source,
    [len(line) * size * 0.5 < max_width] with [max_width] the binary64 value
    of [bbox[2] - bbox[0] - 4], or is a single word of the text, which is
    placed on a line of its own however long it is. *)
Theorem commit_words_line_widths (translated_text : pystr) (current_y : Q)
    (ops : list draw_op) (text : pystr) :
  commit_words E font_name size b x (split translated_text) [] current_y = inr ops ->
  In text (inserted_lines ops) ->
  In text (split translated_text)
  \/ line_fits text size (max_width b) = true.
Proof.
  intros Hops Hin.
  exact (commit_words_widths (split translated_text) _ [] _ _ (fun _ H => H)
           (or_introl eq_refl) Hops text Hin).
Qed.

Lemma commit_within_height (words : list pystr) :
  forall (line : list pystr) (k : Z) (current_y : Q) (ops : list draw_op) (j : nat),
    fit_done (fit_words E font_name size b (50 + size) words line
                (50 + size + k * (size + 2))) = true ->
    commit_words E font_name size b x words line current_y = inr ops ->
    (1 <= j < length ops)%nat ->
    (of_int ((k + Z.of_nat j) * (size + 2)) <= max_height b)%Q.
Proof.
  induction words as [|word rest IH]; intros line k current_y ops j Hfit Hops Hj;
    cbn [commit_words] in Hops; cbn [fit_words] in Hfit.
  - destruct line as [|first more].
    + injection Hops as <-. simpl in Hj. lia.
    + unfold bind_first, mbind, res_bind, dst_insert_text in Hops.
      destruct (dst_insert_text_ok E _ font_name size); [|discriminate].
      injection Hops as <-. simpl in Hj. lia.
  - destruct line as [|first more]; [eauto|].
    destruct (line_fits _ size _); [eauto|].
    destruct (test_insert_text_ok E _ font_name size); cbn [negb fit_done] in Hfit;
      [|discriminate].
    replace (50 + size + k * (size + 2) + (size + 2) - (50 + size))
      with ((k + 1) * (size + 2)) in Hfit by ring.
    destruct (Qltb (max_height b) (of_int ((k + 1) * (size + 2)))) eqn:Hcheck;
      [discriminate|].
    apply Qltb_ge in Hcheck.
    replace (50 + size + k * (size + 2) + (size + 2))
      with (50 + size + (k + 1) * (size + 2)) in Hfit by ring.
    unfold bind_first, mbind, res_bind, dst_insert_text in Hops.
    destruct (dst_insert_text_ok E _ font_name size); [|discriminate].
    destruct (commit_words E font_name size b x rest [word] _) as [e|more_ops] eqn:Hrest;
      [discriminate|].
    injection Hops as <-. simpl length in Hj.
    destruct j as [|[|j]]; [lia| |].
    + replace (k + Z.of_nat 1) with (k + 1) by lia. exact Hcheck.
    + replace (k + Z.of_nat (S (S j))) with (k + 1 + Z.of_nat (S j)) by lia.
      apply (IH [word] (k + 1) _ more_ops (S j) Hfit Hrest). lia.
Qed.

(** X13: at a size that passed the fitting test, every committed line after
    the first is within the height limit of the fitting test, the binary64
    value of [bbox[3] - bbox[1] - 5]: the line [j] lines below the first one
    has [j * (size + 2)] no greater than the limit.  (The first base line
    lies [size] below the top of the bbox, unchecked.) *)
Theorem committed_lines_within_height (translated_text : pystr) (current_y : Q)
    (ops : list draw_op) (j : nat) :
  fits_at E font_name translated_text b size = true ->
  commit_words E font_name size b x (split translated_text) [] current_y = inr ops ->
  (1 <= j < length ops)%nat ->
  (of_int (Z.of_nat j * (size + 2)) <= max_height b)%Q.
Proof.
  intros Hfits Hops Hj.
  pose proof (commit_within_height (split translated_text) [] 0 current_y ops j) as H.
  rewrite Z.mul_0_l, Z.add_0_r, Z.add_0_l in H. apply H; [|exact Hops|exact Hj].
  unfold fits_at in Hfits.
  destruct (fit_words E font_name size b (50 + size) (split translated_text) []
              (50 + size)); [reflexivity|discriminate|discriminate].
Qed.

End Commit.

(** ** Pages of the text-based renderer *)

Section Pages.

Variable E : env.

Lemma translation_for_only_prints (file_md5 text : pystr) (i : nat) (w : world) :
  only_printed w (translation_for E file_md5 text i w).2.
Proof.
  destruct (encodable text) eqn:Henc.
  - destruct (translation_for_obs E file_md5 text i w Henc) as (w0 & -> & H). exact H.
  - rewrite (translation_for_unencodable E _ _ _ _ Henc). apply only_printed_refl.
Qed.

Lemma commit_only_prints (font_name translated_text : pystr) (b : bbox) (i : nat)
    (best : option Z) (w : world) :
  only_printed w (commit E font_name translated_text b i best w).2.
Proof.
  unfold commit. destruct best as [size|]; [|repeat split].
  destruct (negb (size =? 0)); [|repeat split].
  cbv beta iota delta [bind_first mbind M_bind lift print mret M_ret]. cbn [fst snd].
  destruct (commit_words E font_name size b _ _ _ _); repeat split.
Qed.

Lemma render_paragraph_only_prints (file_md5 font_name : pystr) (i : nat)
    (text : pystr) (b : bbox) (w : world) :
  only_printed w (render_paragraph E file_md5 font_name i text b w).2.
Proof.
  unfold render_paragraph. cbv beta iota delta [bind_first mbind M_bind lift].
  destruct (is_formula text) as [e|[|]]; cbn [fst snd]; [repeat split|repeat split|].
  destruct (encodable text) eqn:Henc.
  - destruct (translation_for_obs E file_md5 text i w Henc) as (w0 & -> & H0).
    match goal with
    | |- context [search_font_size E font_name ?t b candidate_sizes w0] =>
        destruct (search_font_size_obs E font_name b t candidate_sizes w0)
          as (w1 & -> & H1)
    end.
    eapply only_printed_trans; [exact H0|].
    eapply only_printed_trans; [exact H1|apply commit_only_prints].
  - rewrite (translation_for_unencodable E _ _ _ _ Henc). apply only_printed_refl.
Qed.

(** What one paragraph draws: nothing, or the white rectangle over its own
    bbox followed by text; the rectangle only when it is not a formula. *)
Lemma render_paragraph_rect (file_md5 font_name : pystr) (i : nat) (text : pystr)
    (b : bbox) (w : world) (ops : list draw_op) (rect : bbox) :
  (render_paragraph E file_md5 font_name i text b w).1 = inr ops ->
  In (DrawRect rect) ops ->
  rect = b /\ is_formula text = inr false.
Proof.
  unfold render_paragraph. cbv beta iota delta [bind_first mbind M_bind lift].
  destruct (is_formula text) as [e|[|]]; cbn [fst snd]; [discriminate| |].
  - unfold print, mret, M_ret. cbn [fst]. intros [= <-] [].
  - destruct (encodable text) eqn:Henc;
      [|rewrite (translation_for_unencodable E _ _ _ _ Henc); discriminate].
    destruct (translation_for_obs E file_md5 text i w Henc) as (w0 & -> & _).
    match goal with
    | |- context [search_font_size E font_name ?t b candidate_sizes w0] =>
        destruct (search_font_size_obs E font_name b t candidate_sizes w0)
          as (w1 & -> & _);
        destruct (find (fits_at E font_name t b) candidate_sizes) as [size|];
        [destruct (negb (size =? 0)) eqn:Hsize|]
    end;
    unfold commit; rewrite ?Hsize;
    cbv beta iota delta [bind_first mbind M_bind lift print mret M_ret]; cbn [fst snd];
    try (intros [= <-] []).
    destruct (commit_words E font_name size b _ _ _ _) as [e|cops] eqn:Hc;
      cbn [fst]; [discriminate|].
    intros [= <-] [Hin|Hin]; [injection Hin as <-; auto|].
    pose proof (commit_words_ops _ _ _ _ _ _ _ _ _ Hc) as Hall.
    rewrite Forall_forall in Hall. apply list_elem_of_In in Hin.
    destruct (Hall _ Hin) as (y & line & Heq). discriminate.
Qed.

Lemma render_paragraphs_obs (file_md5 font_name : pystr)
    (paragraphs : list (pystr * bbox)) :
  forall (i : nat) (w : world),
    only_printed w (render_paragraphs E file_md5 font_name i paragraphs w).2
    /\ forall ops rect,
        (render_paragraphs E file_md5 font_name i paragraphs w).1 = inr ops ->
        In (DrawRect rect) ops ->
        exists text, In (text, rect) paragraphs /\ is_formula text = inr false.
Proof.
  induction paragraphs as [|[text b] rest IH]; intros i w.
  - split; [apply only_printed_refl|]. intros ops rect [= <-] [].
  - cbn [render_paragraphs]. cbv beta iota delta [bind_first mbind M_bind].
    pose proof (render_paragraph_only_prints file_md5 font_name i text b w) as Hp.
    pose proof (render_paragraph_rect file_md5 font_name i text b w) as Hr.
    destruct (render_paragraph E file_md5 font_name i text b w) as [[e|ops1] w1];
      cbn [fst snd] in *.
    + split; [exact Hp|]. discriminate.
    + destruct (IH (S i) w1) as [Hp2 Hr2].
      destruct (render_paragraphs E file_md5 font_name (S i) rest w1) as [[e|ops2] w2];
        cbn [fst snd] in *.
      * split; [eapply only_printed_trans; eassumption|]. discriminate.
      * split; [eapply only_printed_trans; eassumption|].
        unfold mret, M_ret. cbn [fst]. intros ops rect [= <-] Hin.
        apply in_app_or in Hin as [Hin|Hin].
        -- destruct (Hr ops1 rect eq_refl Hin) as [-> Hf]. exists text. split; [left|]; auto.
        -- destruct (Hr2 ops2 rect eq_refl Hin) as (t & Ht & Hf). exists t.
           split; [right|]; auto.
Qed.

Lemma render_page_obs (paragraphs_by_page : paragraphs_by_page) (file_md5 : pystr)
    (page_idx : nat) (src_page : page_info) (w : world) :
  let r := render_page E paragraphs_by_page file_md5 page_idx src_page w in
  only_printed w r.2
  /\ forall page, r.1 = inr page ->
       exists ops,
         page = DrawnPage
                  (InsertImage (BBox 0 0 (page_width src_page) (page_height src_page))
                     (PagePixmap page_idx) :: ops)
         /\ forall rect, In (DrawRect rect) ops ->
              exists text,
                In (text, rect)
                   (default [] (dict_get paragraphs_by_page (Z.of_nat page_idx)))
                /\ is_formula text = inr false.
Proof.
  cbv zeta.
  set (paragraphs := default [] (dict_get paragraphs_by_page (Z.of_nat page_idx))).
  assert (forall fops fname w0,
             only_printed w w0 ->
             (forall rect, ~ In (DrawRect rect) fops) ->
             let r := (ops <- render_paragraphs E file_md5 fname 0 paragraphs;;
                       mret (DrawnPage
                               (InsertImage
                                  (BBox 0 0 (page_width src_page) (page_height src_page))
                                  (PagePixmap page_idx) :: fops ++ ops))) w0 in
             only_printed w r.2
             /\ forall page, r.1 = inr page ->
                  exists ops,
                    page = DrawnPage
                             (InsertImage
                                (BBox 0 0 (page_width src_page) (page_height src_page))
                                (PagePixmap page_idx) :: ops)
                    /\ forall rect, In (DrawRect rect) ops ->
                         exists text, In (text, rect) paragraphs
                                      /\ is_formula text = inr false) as Hrest.
  { intros fops fname w0 Hw0 Hfops. cbv zeta.
    cbv beta iota delta [bind_first mbind M_bind].
    destruct (render_paragraphs_obs file_md5 fname paragraphs 0%nat w0) as [Hp Hr].
    destruct (render_paragraphs E file_md5 fname 0 paragraphs w0) as [[e|ops] w1];
      cbn [fst snd] in *.
    - split; [eapply only_printed_trans; eassumption|]. discriminate.
    - split; [eapply only_printed_trans; eassumption|].
      unfold mret, M_ret. cbn [fst]. intros page [= <-].
      eexists. split; [reflexivity|]. intros rect Hin.
      apply in_app_or in Hin as [Hin|Hin]; [destruct (Hfops rect Hin)|].
      exact (Hr ops rect eq_refl Hin). }
  unfold render_page. fold paragraphs.
  destruct (font_loaded E); [destruct (insert_font_ok E page_idx)|].
  - refine (Hrest [InsertFont (lit "F0")] (lit "F0") (print _ w).2
              (only_printed_print _ w) _).
    intros rect [Hin|[]]. discriminate.
  - refine (Hrest [] (lit "tiro") (print _ w).2 (only_printed_print _ w) _).
    intros rect [].
  - refine (Hrest [] (lit "tiro") w (only_printed_refl w) _). intros rect [].
Qed.

(** X14: on a page it draws, the renderer puts the rasterized source page
    first, and every white rectangle it paints is the bbox of some paragraph
    of that page that is not a formula: no rectangle is painted for a
    formula paragraph (one that shares its bbox with a text paragraph is
    covered by the rectangle of that paragraph). *)
Theorem render_page_covers_no_formula (paragraphs_by_page : paragraphs_by_page)
    (file_md5 : pystr) (page_idx : nat) (src_page : page_info) (w : world)
    (page : out_page) :
  (render_page E paragraphs_by_page file_md5 page_idx src_page w).1 = inr page ->
  exists ops,
    page = DrawnPage
             (InsertImage (BBox 0 0 (page_width src_page) (page_height src_page))
                (PagePixmap page_idx) :: ops)
    /\ forall rect, In (DrawRect rect) ops ->
         exists text,
           In (text, rect)
              (default [] (dict_get paragraphs_by_page (Z.of_nat page_idx)))
           /\ is_formula text = inr false.
Proof.
  intros Hpage.
  pose proof (render_page_obs paragraphs_by_page file_md5 page_idx src_page w) as H.
  cbv zeta in H. destruct H as [_ H]. exact (H page Hpage).
Qed.

Lemma render_pages_obs (paragraphs_by_page : paragraphs_by_page) (file_md5 : pystr)
    (debug_mode : bool) (start_page : Z) (end_page : option Z)
    (src_pages : list page_info) :
  forall (page_idx : nat) (w : world),
    let r := render_pages E paragraphs_by_page file_md5 debug_mode start_page
               end_page page_idx src_pages w in
    only_printed w r.2
    /\ forall out, r.1 = inr out ->
         length out = length src_pages
         /\ forall (k : nat) (page : out_page),
              out !! k = Some page ->
              if outside_debug_range debug_mode start_page end_page
                   (Z.of_nat (page_idx + k))
              then page = CopiedPage (page_idx + k)
              else exists ops, page = DrawnPage
                                        (InsertImage
                                           (BBox 0 0
                                              (default 0%Q (page_width <$> src_pages !! k))
                                              (default 0%Q (page_height <$> src_pages !! k)))
                                           (PagePixmap (page_idx + k)) :: ops).
Proof.
  induction src_pages as [|src_page rest IH]; intros page_idx w; cbv zeta.
  - split; [apply only_printed_refl|]. intros out [= <-]. split; [reflexivity|].
    intros k page Hk. rewrite lookup_nil in Hk. discriminate.
  - cbn [render_pages]. cbv beta iota delta [bind_first mbind M_bind].
    assert (exists r1 w1,
               (if outside_debug_range debug_mode start_page end_page (Z.of_nat page_idx)
                then mret (CopiedPage page_idx)
                else render_page E paragraphs_by_page file_md5 page_idx src_page) w
               = (r1, w1)
               /\ only_printed w w1
               /\ forall page, r1 = inr page ->
                    if outside_debug_range debug_mode start_page end_page
                         (Z.of_nat page_idx)
                    then page = CopiedPage page_idx
                    else exists ops, page = DrawnPage
                                              (InsertImage
                                                 (BBox 0 0 (page_width src_page)
                                                    (page_height src_page))
                                                 (PagePixmap page_idx) :: ops))
      as (r1 & w1 & -> & Hw1 & Hpage).
    { destruct (outside_debug_range debug_mode start_page end_page (Z.of_nat page_idx)).
      - eexists _, _. split; [reflexivity|]. split; [apply only_printed_refl|].
        intros page [= <-]. reflexivity.
      - pose proof (render_page_obs paragraphs_by_page file_md5 page_idx src_page w) as H.
        cbv zeta in H. destruct H as [Hp Hr].
        destruct (render_page E paragraphs_by_page file_md5 page_idx src_page w)
          as [r1 w1]. cbn [fst snd] in *.
        eexists _, _. split; [reflexivity|]. split; [exact Hp|].
        intros page Hr1. destruct (Hr page Hr1) as (ops & -> & _). eauto. }
    destruct r1 as [e|page1]; cbn [fst snd]; [split; [exact Hw1|discriminate]|].
    specialize (IH (S page_idx) w1). cbv zeta in IH. destruct IH as [Hp2 Hr2].
    destruct (render_pages E paragraphs_by_page file_md5 debug_mode start_page
                end_page (S page_idx) rest w1) as [[e|more] w2]; cbn [fst snd] in *.
    + split; [eapply only_printed_trans; eassumption|]. discriminate.
    + split; [eapply only_printed_trans; eassumption|].
      unfold mret, M_ret. cbn [fst]. intros out [= <-].
      destruct (Hr2 more eq_refl) as [Hlen Hk]. split; [simpl; lia|].
      intros k page Hlook. destruct k as [|k].
      * injection Hlook as <-. rewrite Nat.add_0_r. cbn [lookup list_lookup fmap option_fmap option_map default].
        exact (Hpage page1 eq_refl).
      * rewrite lookup_cons in Hlook. specialize (Hk k page Hlook).
        replace (page_idx + S k)%nat with (S page_idx + k)%nat by lia.
        rewrite lookup_cons. exact Hk.
Qed.

(** X15: the output of [create_clean_translated_pdf] is all or nothing.
    When it returns, the only file written is the output document, which has
    one page per source page: a copy of the source page outside the debug
    range, and otherwise a drawn page that starts with the rasterized source
    page.  When it raises, no file is written.  Either way no request is
    issued and the cache is not changed. *)
Theorem create_clean_translated_pdf_output (output_pdf : pystr)
    (paragraphs_by_page : paragraphs_by_page) (file_md5 : pystr)
    (debug_mode : bool) (start_page : Z) (end_page : option Z) (w : world) :
  let r := create_clean_translated_pdf E output_pdf paragraphs_by_page file_md5
             debug_mode start_page end_page w in
  posts r.2 = posts w /\ cache_obj r.2 = cache_obj w
  /\ match r.1 with
     | inl _ => fs r.2 = fs w
     | inr _ =>
         exists out,
           fs r.2 = <[output_pdf := FPdf out]> (fs w)
           /\ length out = length (pages E)
           /\ forall (k : nat) (page : out_page),
                out !! k = Some page ->
                if outside_debug_range debug_mode start_page end_page (Z.of_nat k)
                then page = CopiedPage k
                else exists ops rect,
                       page = DrawnPage (InsertImage rect (PagePixmap k) :: ops)
     end.
Proof.
  cbv zeta.
  assert (forall w0,
             only_printed w w0 ->
             let r := (dst_doc <- render_pages E paragraphs_by_page file_md5 debug_mode
                                    start_page end_page 0 (pages E);;
                       write_file output_pdf (FPdf dst_doc);;
                       print (lit "Translation completed. Output saved to "
                              ++ output_pdf)) w0 in
             posts r.2 = posts w /\ cache_obj r.2 = cache_obj w
             /\ match r.1 with
                | inl _ => fs r.2 = fs w
                | inr _ =>
                    exists out,
                      fs r.2 = <[output_pdf := FPdf out]> (fs w)
                      /\ length out = length (pages E)
                      /\ forall (k : nat) (page : out_page),
                           out !! k = Some page ->
                           if outside_debug_range debug_mode start_page end_page
                                (Z.of_nat k)
                           then page = CopiedPage k
                           else exists ops rect,
                                  page = DrawnPage
                                           (InsertImage rect (PagePixmap k) :: ops)
                end) as Hbody.
  { intros w0 Hw0. cbv zeta. cbv beta iota delta [bind_first mbind M_bind].
    pose proof (render_pages_obs paragraphs_by_page file_md5 debug_mode start_page
                  end_page (pages E) 0%nat w0) as H.
    cbv zeta in H. destruct H as [Hp Hr].
    destruct (render_pages E paragraphs_by_page file_md5 debug_mode start_page end_page
                0 (pages E) w0) as [[e|out] w1]; cbn [fst snd] in *.
    - destruct Hw0 as (? & ? & ? & ?), Hp as (? & ? & ? & ?).
      repeat split; congruence.
    - destruct Hw0 as (Hf0 & Hc0 & Hp0 & _), Hp as (Hf1 & Hc1 & Hp1 & _).
      unfold write_file, print. cbn [fst snd fs posts cache_obj].
      split; [congruence|]. split; [congruence|].
      destruct (Hr out eq_refl) as [Hlen Hk].
      exists out. split; [rewrite Hf1, Hf0; reflexivity|]. split; [exact Hlen|].
      intros k page Hlook. specialize (Hk k page Hlook). cbn [Nat.add] in Hk.
      destruct (outside_debug_range debug_mode start_page end_page (Z.of_nat k));
        [exact Hk|].
      destruct Hk as (ops & ->). eauto. }
  unfold create_clean_translated_pdf.
  destruct (font_loaded E).
  - exact (Hbody (print _ (print _ w).2).2
             (only_printed_trans _ _ _ (only_printed_print _ w)
                (only_printed_print _ _))).
  - exact (Hbody (print _ (print _ w).2).2
             (only_printed_trans _ _ _ (only_printed_print _ w)
                (only_printed_print _ _))).
Qed.

End Pages.

(** ** The image-based strategy beyond the case above *)

Section Ocr.

Variable E : env.

(** The first path that exists wins, and looking changes nothing. *)
Lemma first_existing_find (paths : list pystr) (w : world) :
  first_existing paths w
  = (inr (find (fun p => bool_decide (is_Some (fs w !! p))) paths), w).
Proof.
  induction paths as [|p rest IH]; [reflexivity|].
  cbn [first_existing find]. unfold bind_first, mbind, M_bind, path_exists.
  destruct (bool_decide (is_Some (fs w !! p))); [reflexivity|exact IH].
Qed.

Lemma ocr_paragraphs_raise (height : Q) (n : nat) (page_num : Z) (text : pystr)
    (b : bbox) (rest : list (pystr * bbox)) (i : nat) (w : world) :
  (ocr_paragraphs E height i n page_num ((text, b) :: rest) w).1 = inl TypeError.
Proof. reflexivity. Qed.

(** A page goes through only as a copy, and then nothing happened. *)
Lemma ocr_page_obs (paragraphs_by_page : paragraphs_by_page)
    (debug_mode start_page end_page : pyval) (page_num : nat) (page : page_info)
    (w : world) :
  let r := ocr_page E paragraphs_by_page debug_mode start_page end_page page_num
             page w in
  match r.1 with
  | inr p => p = CopiedPage page_num /\ r.2 = w
  | inl e => e = TypeError
  end.
Proof.
  cbv zeta.
  assert (forall w',
             let r :=
               (match default [] (dict_get paragraphs_by_page (Z.of_nat page_num)) with
                | [] => mret (CopiedPage page_num)
                | _ =>
                    write_file (lit "temp_page_" ++ py_str (Z.of_nat page_num)
                                ++ lit ".jpg") FBytes;;
                    ops <- ocr_paragraphs E (page_height page) 0
                             (length (default [] (dict_get paragraphs_by_page
                                                    (Z.of_nat page_num))))
                             (Z.of_nat page_num)
                             (default [] (dict_get paragraphs_by_page
                                            (Z.of_nat page_num)));;
                    delete_file (lit "temp_page_" ++ py_str (Z.of_nat page_num)
                                 ++ lit ".jpg");;
                    mret (DrawnPage (CanvasImage 0 0 (page_width page)
                                       (page_height page) (PagePixmap page_num) :: ops))
                end) w' in
             match r.1 with
             | inr p => p = CopiedPage page_num /\ r.2 = w'
             | inl e => e = TypeError
             end) as Hbody.
  { intros w'. cbv zeta.
    destruct (default [] (dict_get paragraphs_by_page (Z.of_nat page_num)))
      as [|[text b] rest]; [split; reflexivity|reflexivity]. }
  unfold ocr_page. cbv beta iota delta [bind_first mbind M_bind lift].
  destruct (truthy debug_mode); [|exact (Hbody w)].
  unfold res_bind.
  destruct (int_lt (Z.of_nat page_num) start_page) as [e|[|]] eqn:Hlt; cbn [fst snd].
  - destruct start_page; try discriminate; injection Hlt as <-; reflexivity.
  - unfold mret, res_ret, M_ret. cbn [fst snd]. auto.
  - destruct (int_gt (Z.of_nat page_num) end_page) as [e|[|]] eqn:Hgt; cbn [fst snd].
    + destruct end_page; try discriminate; injection Hgt as <-; reflexivity.
    + unfold mret, M_ret. cbn [fst snd]. auto.
    + exact (Hbody w).
Qed.

Lemma ocr_pages_obs (paragraphs_by_page : paragraphs_by_page)
    (debug_mode start_page end_page : pyval) (doc : list page_info) :
  forall (page_num : nat) (w : world),
    let r := ocr_pages E paragraphs_by_page debug_mode start_page end_page page_num
               doc w in
    match r.1 with
    | inr out => out = CopiedPage <$> seq page_num (length doc) /\ r.2 = w
    | inl e => e = TypeError
    end.
Proof.
  induction doc as [|page rest IH]; intros page_num w; cbv zeta.
  - split; reflexivity.
  - cbn [ocr_pages]. cbv beta iota delta [bind_first mbind M_bind].
    pose proof (ocr_page_obs paragraphs_by_page debug_mode start_page end_page
                  page_num page w) as Hpage.
    cbv zeta in Hpage.
    destruct (ocr_page E paragraphs_by_page debug_mode start_page end_page page_num
                page w) as [[e|p] w1]; cbn [fst snd] in *; [exact Hpage|].
    destruct Hpage as [-> ->].
    specialize (IH (S page_num) w). cbv zeta in IH.
    destruct (ocr_pages E paragraphs_by_page debug_mode start_page end_page
                (S page_num) rest w) as [[e|more] w2]; cbn [fst snd] in *;
      [exact IH|].
    destruct IH as [-> ->]. unfold mret, M_ret. cbn [fst snd]. split; reflexivity.
Qed.

(** X16: whatever it is called with, [create_translated_pdf_ocr_approach]
    never draws a page.  It raises nothing but [TypeError]; and when it
    returns, either no font was found, and then nothing is written and the
    warning is the last line printed, or the document it writes consists of
    verbatim copies of all source pages (which takes a document none of
    whose pages has a fragment). *)
Theorem ocr_approach_never_draws (output_pdf : pystr)
    (paragraphs_by_page : paragraphs_by_page)
    (debug_mode start_page end_page : pyval) (w : world) :
  let r := create_translated_pdf_ocr_approach E output_pdf paragraphs_by_page
             debug_mode start_page end_page w in
  match r.1 with
  | inl e => e = TypeError
  | inr _ =>
      (find (fun p => bool_decide (is_Some (fs w !! p))) possible_fonts = None
       /\ fs r.2 = fs w
       /\ last (stdout r.2)
          = Some (lit "Warning: Could not find a font that supports Cyrillic characters"))
      \/ (find (fun p => bool_decide (is_Some (fs w !! p))) possible_fonts <> None
          /\ fs r.2
             = <[output_pdf := FPdf (CopiedPage <$> seq 0 (length (pages E)))]> (fs w))
  end.
Proof.
  cbv zeta.
  assert (create_translated_pdf_ocr_approach E output_pdf paragraphs_by_page
            debug_mode start_page end_page w
          = match find (fun p => bool_decide (is_Some (fs w !! p))) possible_fonts with
            | None =>
                print (lit "Warning: Could not find a font that supports Cyrillic characters") w
            | Some font_path =>
                (out <- ocr_pages E paragraphs_by_page debug_mode start_page end_page 0
                          (pages E);;
                 write_file output_pdf (FPdf out);;
                 print (lit "Translation completed. Output saved to " ++ output_pdf))
                  (print (lit "Using font: " ++ font_path ++ lit " for Russian text") w).2
            end) as ->.
  { unfold create_translated_pdf_ocr_approach.
    unfold bind_first at 1, mbind at 1, M_bind at 1.
    rewrite first_existing_find.
    destruct (find (fun p => bool_decide (is_Some (fs w !! p))) possible_fonts);
      reflexivity. }
  destruct (find (fun p => bool_decide (is_Some (fs w !! p))) possible_fonts)
    as [font_path|].
  - set (w0 := (print (lit "Using font: " ++ font_path ++ lit " for Russian text") w).2).
    cbv beta iota delta [bind_first mbind M_bind].
    pose proof (ocr_pages_obs paragraphs_by_page debug_mode start_page end_page
                  (pages E) 0%nat w0) as H.
    cbv zeta in H.
    destruct (ocr_pages E paragraphs_by_page debug_mode start_page end_page 0
                (pages E) w0) as [[e|out] w1]; cbn [fst snd] in *; [exact H|].
    destruct H as [-> ->]. right. split; [discriminate|reflexivity].
  - left. unfold print. cbn [fst snd fs stdout].
    split; [reflexivity|]. split; [reflexivity|]. apply last_snoc.
Qed.

(** X17: the drawing loop of the image-based strategy, entered at line 0 (or
    at a line [j] whose predecessor was inside the box), places every
    string, the ellipsis included, at [x0 + 2] and strictly above the bottom
    edge of the bbox (in canvas coordinates, where y grows upwards). *)
Theorem ocr_draw_lines_above_bottom (height : Q) (b : bbox) (lines : list pystr) :
  forall (j : Z) (op : draw_op),
    0 <= j ->
    j = 0 \/ (height - y1 b < height - y0 b - of_int (j * 14))%Q ->
    In op (ocr_draw_lines height b j lines) ->
    exists y text,
      op = DrawString (x0 b + 2) y text /\ (height - y1 b < y)%Q.
Proof.
  induction lines as [|line rest IH]; intros j op Hj Hprev Hin; [destruct Hin|].
  cbn [ocr_draw_lines] in Hin.
  destruct (Qltb (height - y1 b) (height - y0 b - of_int ((j + 1) * 14))) eqn:Hfit.
  - apply Qltb_lt in Hfit. destruct Hin as [<-|Hin]; [eauto|].
    apply (IH (j + 1) op); [lia| |exact Hin]. right. exact Hfit.
  - destruct (0 <? j) eqn:Hpos; [|destruct Hin].
    apply Z.ltb_lt in Hpos. destruct Hin as [<-|[]].
    destruct Hprev as [->|Hprev]; [lia|]. eauto.
Qed.

End Ocr.

(** ** The word loops of the image-based strategy and of the raster fallback *)

Section Wrapping.

Variable E : env.

Lemma wraps_snoc_line (lines : list pystr) (words line : list pystr) :
  line <> [] -> wraps lines words -> wraps (lines ++ [join space line]) (words ++ line).
Proof.
  intros Hne (groups & -> & <- & Hall). exists (groups ++ [line]).
  rewrite fmap_app, concat_app. cbn [concat fmap list_fmap]. rewrite app_nil_r.
  repeat split. apply Forall_app. split; [exact Hall|]. constructor; [exact Hne|constructor].
Qed.

Lemma ocr_wrap_wraps (text_width : Q) (words : list pystr) :
  forall (lines current_line done : list pystr),
    wraps lines done ->
    wraps (ocr_wrap E text_width words lines current_line)
          (done ++ current_line ++ words).
Proof.
  induction words as [|word rest IH]; intros lines current_line done Hlines;
    cbn [ocr_wrap].
  - rewrite app_nil_r. destruct current_line as [|first more].
    + rewrite app_nil_r. exact Hlines.
    + apply wraps_snoc_line; [discriminate|exact Hlines].
  - destruct (Qle_bool _ text_width).
    + rewrite (app_assoc current_line [word] rest : current_line ++ word :: rest = _).
      apply IH. exact Hlines.
    + destruct current_line as [|first more].
      * specialize (IH (lines ++ [word]) [] (done ++ [word])).
        rewrite <- app_assoc in IH. apply IH.
        change word with (join space [word]) at 1.
        apply wraps_snoc_line; [discriminate|exact Hlines].
      * specialize (IH (lines ++ [join space (first :: more)]) [word]
                      (done ++ first :: more)).
        rewrite <- app_assoc in IH. apply IH.
        apply wraps_snoc_line; [discriminate|exact Hlines].
Qed.

Lemma fallback_wrap_wraps (width : Z) (words : list pystr) :
  forall (lines current_line done : list pystr),
    wraps lines done ->
    wraps (fallback_wrap E width words lines current_line)
          (done ++ current_line ++ words).
Proof.
  induction words as [|word rest IH]; intros lines current_line done Hlines;
    cbn [fallback_wrap].
  - rewrite app_nil_r. destruct current_line as [|first more].
    + rewrite app_nil_r. exact Hlines.
    + apply wraps_snoc_line; [discriminate|exact Hlines].
  - destruct (_ <=? width - 10).
    + rewrite (app_assoc current_line [word] rest : current_line ++ word :: rest = _).
      apply IH. exact Hlines.
    + destruct current_line as [|first more].
      * specialize (IH (lines ++ [word]) [] (done ++ [word])).
        rewrite <- app_assoc in IH. apply IH.
        change word with (join space [word]) at 1.
        apply wraps_snoc_line; [discriminate|exact Hlines].
      * specialize (IH (lines ++ [join space (first :: more)]) [word]
                      (done ++ first :: more)).
        rewrite <- app_assoc in IH. apply IH.
        apply wraps_snoc_line; [discriminate|exact Hlines].
Qed.

(** X18: the word loops of the image-based strategy and of the raster
    fallback keep the text: their lines are the words in order, cut into
    non-empty groups joined by single spaces, whatever the measured widths. *)
Theorem wrapping_keeps_text (text_width : Q) (width : Z) (words : list pystr) :
  wraps (ocr_wrap E text_width words [] []) words
  /\ wraps (fallback_wrap E width words [] []) words.
Proof.
  assert (wraps [] []) as Hnil by (exists []; repeat split; constructor).
  split.
  - exact (ocr_wrap_wraps text_width words [] [] [] Hnil).
  - exact (fallback_wrap_wraps width words [] [] [] Hnil).
Qed.

End Wrapping.

(** ** Extraction *)

Section ExtractionProperties.

Variable detect : pystr -> res pystr.

Lemma strip_nil : strip [] = [].
Proof. reflexivity. Qed.

(** X19: a block becomes a paragraph exactly when it is a text block with
    more than ten characters after stripping, is not a formula, and the
    language detector answers [en] or raises; the paragraph then carries the
    text of the block unchanged and its four coordinates. *)
Theorem block_paragraph_kept (block : text_block) (p : pystr * bbox) :
  block_paragraph detect block = Some p
  <-> p = (block_text block,
           BBox (block_x0 block) (block_y0 block) (block_x1 block) (block_y1 block))
      /\ block_type block = 0
      /\ 10 < len (strip (block_text block))
      /\ is_formula (block_text block) = inr false
      /\ (detect (block_text block) = inr (lit "en")
          \/ exists e, detect (block_text block) = inl e).
Proof.
  unfold block_paragraph.
  destruct (Z.eqb_spec (block_type block) 0) as [Htype|Htype];
    [|split; [discriminate|intros (_ & ? & _); contradiction]].
  set (text := block_text block).
  destruct (strip text) as [|c rest] eqn:Hstrip.
  { split; [discriminate|]. intros (_ & _ & Hlen & _). unfold len in Hlen.
    simpl in Hlen. lia. }
  assert (text <> []) as Htext by (intros Hnil; rewrite Hnil in Hstrip; discriminate).
  destruct (is_formula_nonempty text Htext) as [formula Hformula].
  destruct (Z.ltb_spec 10 (len (c :: rest))) as [Hlong|Hshort].
  - unfold bind_first, mbind, res_bind, mret, res_ret. rewrite Hformula.
    destruct formula.
    + split; [discriminate|]. intros (_ & _ & _ & Hf & _). discriminate.
    + destruct (detect text) as [e|lang] eqn:Hdetect.
      * split; [intros [= <-]|intros (-> & _); reflexivity].
        repeat split; eauto.
      * destruct (bool_decide_reflect (lang = lit "en")) as [->|Hlang].
        -- split; [intros [= <-]|intros (-> & _); reflexivity].
           repeat split; eauto.
        -- split; [discriminate|].
           intros (_ & _ & _ & _ & [Hen|[e He]]); congruence.
  - split; [discriminate|]. intros (_ & _ & Hlen & _). lia.
Qed.

Lemma dict_set_keys_below {V} (acc : list (Z * V)) (page_num : Z) (v : V) :
  Forall (fun k => k < page_num) acc.*1 ->
  dict_set acc page_num v = acc ++ [(page_num, v)]
  /\ Forall (fun k => k < page_num + 1) (acc ++ [(page_num, v)]).*1.
Proof.
  intros Hbelow. split.
  - apply dict_set_fresh. intros Hin. rewrite Forall_forall in Hbelow.
    specialize (Hbelow _ Hin). lia.
  - rewrite fmap_app. apply Forall_app. split.
    + eapply Forall_impl; [exact Hbelow|]. intros k Hk. simpl in Hk. lia.
    + constructor; [simpl; lia|constructor].
Qed.

Lemma extract_pages_all (start_page end_page : pyval) (doc : list (list text_block)) :
  forall (page_num : Z) (acc : paragraphs_by_page),
    Forall (fun k => k < page_num) acc.*1 ->
    extract_pages detect false start_page end_page page_num doc acc
    = inr (acc ++ imap (fun i blocks =>
                          (page_num + Z.of_nat i, omap (block_paragraph detect) blocks))
                       doc).
Proof.
  induction doc as [|blocks rest IH]; intros page_num acc Hbelow.
  - cbn [extract_pages imap]. rewrite app_nil_r. reflexivity.
  - cbn [extract_pages]. unfold outside_range.
    unfold bind_first, mbind, res_bind, mret, res_ret.
    destruct (dict_set_keys_below acc page_num
                (omap (block_paragraph detect) blocks) Hbelow) as [-> Hnext].
    rewrite IH by exact Hnext. rewrite <- app_assoc. cbn [imap app].
    rewrite Z.add_0_r. do 3 f_equal. apply imap_ext. intros i x _. simpl.
    f_equal. lia.
Qed.

(** X20: without debug mode [extract_paragraphs] returns one entry per page
    of the document, in page order and numbered from 0, pages without
    paragraphs included; the entry of a page holds the paragraphs of its
    blocks in block order.  The page numbers are distinct, as the paragraph
    store needs them. *)
Theorem extract_paragraphs_pages (doc : list (list text_block))
    (start_page end_page : pyval) :
  extract_paragraphs detect doc false start_page end_page
  = inr (imap (fun i blocks => (Z.of_nat i, omap (block_paragraph detect) blocks)) doc)
  /\ NoDup (imap (fun i blocks =>
                    (Z.of_nat i, omap (block_paragraph detect) blocks)) doc).*1.
Proof.
  split.
  - unfold extract_paragraphs.
    rewrite (extract_pages_all start_page end_page doc 0 []) by constructor.
    reflexivity.
  - rewrite fmap_imap.
    rewrite (imap_ext _ (fun (j : nat) (_ : list text_block) => Z.of_nat j) doc)
      by reflexivity.
    pose proof (imap_seq_0 doc Z.of_nat) as Hkeys.
    rewrite Hkeys. apply NoDup_fmap; [intros x y; apply Nat2Z.inj|apply NoDup_seq].
Qed.

Lemma expand_bbox_first (t : ocr_token) : bounding_box [t] (expand_bbox None t).
Proof.
  unfold bounding_box, token_inside, expand_bbox. cbn [fst snd].
  split; [intros t' [<-|[]]; lia|].
  repeat split; exists t; (split; [left; reflexivity|reflexivity]).
Qed.

Lemma expand_bbox_next (group : list ocr_token) (box : Z * Z * Z * Z) (t : ocr_token) :
  bounding_box group box -> bounding_box (group ++ [t]) (expand_bbox (Some box) t).
Proof.
  destruct box as [[[a b] c] d].
  intros (Hin & (tl & Htl & Hl) & (tt' & Htt & Ht) & (tr & Htr & Hr) & (tb & Htb & Hb)).
  cbn [fst snd] in Hl, Ht, Hr, Hb.
  unfold bounding_box, expand_bbox. cbn [fst snd]. split; [|split; [|split; [|split]]].
  - intros t' Ht'. apply in_app_or in Ht' as [Ht'|[<-|[]]].
    + specialize (Hin t' Ht'). unfold token_inside in *. cbn [fst snd] in *. lia.
    + unfold token_inside. cbn [fst snd]. lia.
  - destruct (Z.le_gt_cases a (tok_left t)).
    + exists tl. split; [apply in_or_app; left; exact Htl|lia].
    + exists t. split; [apply in_or_app; right; left; reflexivity|lia].
  - destruct (Z.le_gt_cases b (tok_top t)).
    + exists tt'. split; [apply in_or_app; left; exact Htt|lia].
    + exists t. split; [apply in_or_app; right; left; reflexivity|lia].
  - destruct (Z.le_gt_cases (tok_left t + tok_width t) c).
    + exists tr. split; [apply in_or_app; left; exact Htr|lia].
    + exists t. split; [apply in_or_app; right; left; reflexivity|lia].
  - destruct (Z.le_gt_cases (tok_top t + tok_height t) d).
    + exists tb. split; [apply in_or_app; left; exact Htb|lia].
    + exists t. split; [apply in_or_app; right; left; reflexivity|lia].
Qed.

Lemma close_paragraph_kept (all before group after : list ocr_token)
    (paragraphs : list (pystr * bbox)) (current_paragraph : list pystr)
    (current_bbox : option (Z * Z * Z * Z)) (result : list (pystr * bbox)) :
  all = before ++ group ++ after ->
  group <> [] ->
  group_state before group current_paragraph current_bbox ->
  blank_or_absent (head after) ->
  Forall (kept_paragraph all) paragraphs ->
  close_paragraph detect paragraphs current_paragraph current_bbox = inr result ->
  Forall (kept_paragraph all) result.
Proof.
  intros Hall Hne (Hcp & Hgroup & Hbefore & Hbox) Hafter Hkept. unfold close_paragraph.
  destruct (Z.ltb_spec 10 (len (strip (join space current_paragraph)))) as [Hlong|Hshort];
    [|intros [= <-]; exact Hkept].
  unfold bind_first, mbind, res_bind, mret, res_ret.
  destruct (is_formula (join space current_paragraph)) as [e|[|]] eqn:Hformula;
    [discriminate|intros [= <-]; exact Hkept|].
  destruct (match detect (join space current_paragraph) with
            | inl _ => true
            | inr lang => bool_decide (lang = lit "en")
            end); [|intros [= <-]; exact Hkept].
  destruct current_bbox as [[[[a b] c] d]|]; [|contradiction].
  cbn [tuple_bbox]. intros [= <-]. apply Forall_app. split; [exact Hkept|].
  constructor; [|constructor].
  split; [|split; [exact Hlong|exact Hformula]].
  exists before, group, after, (a, b, c, d). subst current_paragraph.
  repeat (split; [assumption || reflexivity|]). exact Hbox.
Qed.

Lemma ocr_group_kept (all : list ocr_token) (tokens : list ocr_token) :
  forall (before group : list ocr_token) (paragraphs : list (pystr * bbox))
         (current_paragraph : list pystr) (current_bbox : option (Z * Z * Z * Z))
         (result : list (pystr * bbox)),
    all = before ++ group ++ tokens ->
    group_state before group current_paragraph current_bbox ->
    Forall (kept_paragraph all) paragraphs ->
    ocr_group detect tokens paragraphs current_paragraph current_bbox = inr result ->
    Forall (kept_paragraph all) result.
Proof.
  induction tokens as [|t rest IH];
    intros before group paragraphs current_paragraph current_bbox result Hall Hstate
      Hkept;
    cbn [ocr_group].
  - destruct current_paragraph as [|first more] eqn:Hcp; [intros [= <-]; exact Hkept|].
    rewrite <- Hcp in *.
    apply (close_paragraph_kept all before group [] paragraphs current_paragraph
             current_bbox); try assumption; [|exact I].
    destruct Hstate as (Heq & _). intros ->. rewrite Heq in Hcp. discriminate.
  - destruct (strip (tok_text t)) as [|c s] eqn:Hstrip.
    + destruct current_paragraph as [|first more] eqn:Hcp.
      * destruct Hstate as (Heq & Hgroup & Hbefore & Hbox).
        assert (group = []) as ->
          by (destruct group; [reflexivity|discriminate]).
        apply (IH (before ++ [t]) [] paragraphs [] current_bbox); try assumption.
        -- rewrite Hall. cbn [app]. rewrite <- app_assoc. reflexivity.
        -- split; [reflexivity|]. split; [intros t' []|].
           split; [rewrite last_snoc; exact Hstrip|exact Hbox].
      * rewrite <- Hcp in *. unfold bind_first, mbind, res_bind.
        destruct (close_paragraph detect paragraphs current_paragraph current_bbox)
          as [e|paragraphs'] eqn:Hclose; [discriminate|].
        apply (IH (before ++ group ++ [t]) [] paragraphs' [] None); try assumption.
        -- rewrite Hall. cbn [app]. rewrite <- !app_assoc. reflexivity.
        -- split; [reflexivity|]. split; [intros t' []|].
           split; [rewrite !app_assoc, last_snoc; exact Hstrip|reflexivity].
        -- apply (close_paragraph_kept all before group (t :: rest) paragraphs
                    current_paragraph current_bbox); try assumption.
           destruct Hstate as (Heq & _). intros ->. rewrite Heq in Hcp. discriminate.
    + apply (IH before (group ++ [t]) paragraphs _ _); try assumption.
      * rewrite Hall, <- app_assoc. reflexivity.
      * destruct Hstate as (Heq & Hgroup & Hbefore & Hbox). split; [|split; [|split]].
        -- rewrite fmap_app, Heq. reflexivity.
        -- intros t' Hin. apply in_app_or in Hin as [Hin|[<-|[]]]; [auto|].
           rewrite Hstrip. discriminate.
        -- exact Hbefore.
        -- destruct current_bbox as [box|].
           ++ apply expand_bbox_next. exact Hbox.
           ++ subst group. apply expand_bbox_first.
Qed.

(** X21: every paragraph the OCR grouping returns for a page comes from a
    run of consecutive non-blank tokens of that page that cannot be extended
    (the token before the run, and the token after it, is blank or is not
    there): its text is the texts of the run in order joined by single
    spaces, its box is the smallest box around the boxes of the tokens of
    the run, it has more than ten characters after stripping and it is not a
    formula. *)
Theorem ocr_group_paragraphs (tokens : list ocr_token)
    (result : list (pystr * bbox)) (p : pystr * bbox) :
  ocr_group detect tokens [] [] None = inr result ->
  In p result ->
  paragraph_of_tokens tokens p
  /\ 10 < len (strip p.1)
  /\ is_formula p.1 = inr false.
Proof.
  intros Hrun Hin.
  assert (Forall (kept_paragraph tokens) result) as Hall.
  { apply (ocr_group_kept tokens tokens [] [] [] [] None result); try assumption.
    - reflexivity.
    - split; [reflexivity|]. split; [intros t []|]. split; [exact I|reflexivity].
    - constructor. }
  rewrite Forall_forall in Hall. apply Hall. apply list_elem_of_In. exact Hin.
Qed.

Lemma ocr_extract_pages_keys (debug_mode : bool) (start_page end_page : pyval)
    (images : list (list ocr_token)) :
  forall (page_num : Z) (acc result : paragraphs_by_page),
    Forall (fun k => k < page_num) acc.*1 ->
    ocr_extract_pages detect debug_mode start_page end_page page_num images acc
    = inr result ->
    result.*1 = acc.*1 ++ ((fun i => page_num + Z.of_nat i) <$> seq 0 (length images)).
Proof.
  induction images as [|ocr_data rest IH]; intros page_num acc result Hbelow.
  - cbn [ocr_extract_pages]. intros [= <-]. rewrite app_nil_r. reflexivity.
  - cbn [ocr_extract_pages]. unfold bind_first, mbind, res_bind.
    destruct (outside_range debug_mode start_page end_page page_num) as [e|skip];
      [discriminate|].
    destruct (if skip then mret [] else ocr_group detect ocr_data [] [] None)
      as [e|paragraphs]; [discriminate|].
    destruct (dict_set_keys_below acc page_num paragraphs Hbelow) as [-> Hnext].
    intros Hrun. rewrite (IH _ _ _ Hnext Hrun).
    rewrite fmap_app, <- app_assoc. cbn [fmap list_fmap app length seq].
    rewrite Z.add_0_r. do 2 f_equal.
    rewrite <- seq_shift, <- list_fmap_compose. apply list_fmap_ext.
    intros _ i _. simpl. lia.
Qed.

(** X22: whenever [extract_text_with_ocr] returns, in debug mode or not, its
    result has one entry per page image, numbered from 0 in page order, so
    the page numbers are distinct. *)
Theorem extract_text_with_ocr_pages (images : list (list ocr_token))
    (debug_mode : bool) (start_page end_page : pyval) (result : paragraphs_by_page) :
  extract_text_with_ocr detect images debug_mode start_page end_page = inr result ->
  result.*1 = Z.of_nat <$> seq 0 (length images) /\ NoDup result.*1.
Proof.
  intros Hrun. unfold extract_text_with_ocr in Hrun.
  pose proof (ocr_extract_pages_keys debug_mode start_page end_page images 0 []
                result (List.Forall_nil _) Hrun) as Hkeys.
  cbn [fmap list_fmap app] in Hkeys.
  assert (result.*1 = Z.of_nat <$> seq 0 (length images)) as Heq
    by (rewrite Hkeys; apply list_fmap_ext; intros _ i _; simpl; lia).
  split; [exact Heq|]. rewrite Heq.
  apply NoDup_fmap; [intros x y; apply Nat2Z.inj|apply NoDup_seq].
Qed.

End ExtractionProperties.

(** ** From [translate] to [regenerate] *)

Section Commands.

Variable E : env.

Lemma paragraphs_file_is_not_cache_file (file_md5 : pystr) :
  paragraphs_file_of file_md5 <> cache_file.
Proof.
  unfold paragraphs_file_of. intros Heq. apply (f_equal (@rev N)) in Heq.
  rewrite rev_app_distr in Heq. vm_compute in Heq. discriminate.
Qed.

Lemma translate_paragraph_fs (a : args) (file_md5 : pystr) (i n : nat)
    (page_num : Z) (text : pystr) (w : world) :
  fs (translate_paragraph E a file_md5 i n page_num text w).2 = fs w.
Proof.
  unfold translate_paragraph. cbv beta iota delta [bind_first mbind M_bind].
  match goal with
  | |- context [print ?line w] =>
      set (start := (print line w).2);
      change (print line w) with (inr tt : res unit, start)
  end.
  assert (fs start = fs w) as Hstart by reflexivity.
  clearbody start. cbv beta iota.
  pose proof (translate_text_fs E text file_md5 (ignore_cache a) false start)
    as Hfs.
  destruct (translate_text E text file_md5 (ignore_cache a) false start)
    as [[e|v] w1]; cbn [fst snd] in *; [congruence|].
  unfold lift. destruct (get_text_md5 E text) as [e|h]; cbn [fst snd]; [congruence|].
  unfold get_cache, put_cache. cbn [fst snd fs]. congruence.
Qed.

Lemma translate_paragraphs_fs (a : args) (file_md5 : pystr) (n : nat)
    (page_num : Z) (paragraphs : list (pystr * bbox)) :
  forall (i : nat) (w : world),
    fs (translate_paragraphs E a file_md5 i n page_num paragraphs w).2 = fs w.
Proof.
  induction paragraphs as [|[text b] rest IH]; intros i w; [reflexivity|].
  cbn [translate_paragraphs]. unfold mbind, M_bind.
  pose proof (translate_paragraph_fs a file_md5 i n page_num text w) as Hfs.
  destruct (translate_paragraph E a file_md5 i n page_num text w) as [[e|r] w1];
    cbn [fst snd] in *; [exact Hfs|].
  rewrite IH. exact Hfs.
Qed.

Lemma translate_pages_fs (a : args) (file_md5 : pystr) (items : paragraphs_by_page) :
  forall w : world, fs (translate_pages E a file_md5 items w).2 = fs w.
Proof.
  induction items as [|[page_num paragraphs] rest IH]; intros w; [reflexivity|].
  cbn [translate_pages]. unfold bind_first, mbind, M_bind, lift.
  destruct (skip_page a page_num) as [e|[|]]; cbn [fst snd]; [reflexivity| |].
  - unfold mret, M_ret. apply IH.
  - pose proof (translate_paragraphs_fs a file_md5 (length paragraphs) page_num
                  paragraphs 0%nat w) as Hfs.
    destruct (translate_paragraphs E a file_md5 0 (length paragraphs) page_num
                paragraphs w) as [[e|r] w1]; cbn [fst snd] in *; [exact Hfs|].
    rewrite IH. exact Hfs.
Qed.

(** Extraction and the paragraphs file: the cache and the requests are as
    before; the file holds the paragraphs, or is cut short when a text
    cannot be encoded, and then the step raises. *)
Lemma extract_and_save_obs (file_md5 : pystr) (is_image_pdf : bool) (w : world) :
  let p := if is_image_pdf then extracted_ocr E else extracted_direct E in
  let r := extract_and_save E file_md5 is_image_pdf w in
  same_state w r.2
  /\ if paragraphs_encodable p
     then r.1 = inr p
          /\ fs r.2 = <[paragraphs_file_of file_md5 := FJson (serialize_paragraphs p)]> (fs w)
     else r.1 = inl UnicodeEncodeError
          /\ fs r.2 = <[paragraphs_file_of file_md5 := FBytes]> (fs w).
Proof.
  cbv zeta. unfold extract_and_save, save_paragraphs.
  destruct is_image_pdf;
    cbv beta iota delta [bind_first mbind M_bind print mret M_ret]; cbn [fst snd];
    match goal with
    | |- context [paragraphs_encodable ?p] => destruct (paragraphs_encodable p)
    end;
    cbv beta iota delta [bind_first mbind M_bind write_file raise print mret M_ret];
    cbn [fst snd fs posts cache_obj]; repeat split.
Qed.

(** The translate branch: extraction, then the loop, then the cache is
    saved; an exception of the first two ends the branch. *)
Lemma main_translate_loop (a : args) (file_md5 : pystr) (is_image_pdf : bool)
    (w : world) :
  main_translate E a file_md5 is_image_pdf w
  = match extract_and_save E file_md5 is_image_pdf w with
    | (inr p, start) =>
        match translate_pages E a file_md5 p start with
        | (inr _, w1) =>
            (save_translation_cache cache_file (cache_obj w1);;
             print (lit "Translation completed. Cache saved to " ++ cache_file)) w1
        | (inl e, w1) => (inl e, w1)
        end
    | (inl e, w1) => (inl e, w1)
    end.
Proof.
  unfold main_translate. cbv beta iota delta [bind_first mbind M_bind get_cache].
  destruct (extract_and_save E file_md5 is_image_pdf w) as [[e|p] start];
    [reflexivity|].
  destruct (translate_pages E a file_md5 p start) as [[e|[]] w1]; reflexivity.
Qed.

(** The translate branch when every extracted text can be written: the
    paragraphs file is written, then the loop runs, then the cache is
    saved. *)
Lemma main_translate_encodable (a : args) (file_md5 : pystr) (is_image_pdf : bool)
    (w : world) :
  let p := if is_image_pdf then extracted_ocr E else extracted_direct E in
  paragraphs_encodable p = true ->
  exists start : world,
    same_state w start
    /\ fs start = <[paragraphs_file_of file_md5 := FJson (serialize_paragraphs p)]> (fs w)
    /\ main_translate E a file_md5 is_image_pdf w
       = match translate_pages E a file_md5 p start with
         | (inr _, w1) =>
             (save_translation_cache cache_file (cache_obj w1);;
              print (lit "Translation completed. Cache saved to " ++ cache_file)) w1
         | (inl e, w1) => (inl e, w1)
         end.
Proof.
  cbv zeta. intros Henc. rewrite main_translate_loop.
  pose proof (extract_and_save_obs file_md5 is_image_pdf w) as Hobs.
  cbv zeta in Hobs. rewrite Henc in Hobs. destruct Hobs as (Hsame & Hr & Hfs).
  destruct (extract_and_save E file_md5 is_image_pdf w) as [r start].
  cbn [fst snd] in *. subst r. exists start. repeat split; try assumption.
  - apply Hsame.
  - apply Hsame.
Qed.

(** The translate branch when an extracted text cannot be written: the
    dump of the paragraphs stops with the exception and nothing else is
    done. *)
Lemma main_translate_unencodable (a : args) (file_md5 : pystr) (is_image_pdf : bool)
    (w : world) :
  let p := if is_image_pdf then extracted_ocr E else extracted_direct E in
  let r := main_translate E a file_md5 is_image_pdf w in
  paragraphs_encodable p = false ->
  r.1 = inl UnicodeEncodeError
  /\ fs r.2 = <[paragraphs_file_of file_md5 := FBytes]> (fs w)
  /\ posts r.2 = posts w /\ cache_obj r.2 = cache_obj w.
Proof.
  cbv zeta. intros Henc. rewrite main_translate_loop.
  pose proof (extract_and_save_obs file_md5 is_image_pdf w) as Hobs.
  cbv zeta in Hobs. rewrite Henc in Hobs. destruct Hobs as ((Hc & Hp) & Hr & Hfs).
  destruct (extract_and_save E file_md5 is_image_pdf w) as [r start].
  cbn [fst snd] in *. subst r. repeat split; assumption.
Qed.

(** The loop over the paragraphs of a page, and the loop over the pages,
    cut in two. *)
Lemma translate_paragraphs_app (a : args) (file_md5 : pystr) (n : nat) (page_num : Z)
    (before rest : list (pystr * bbox)) :
  forall (i : nat) (w : world),
    translate_paragraphs E a file_md5 i n page_num (before ++ rest) w
    = match translate_paragraphs E a file_md5 i n page_num before w with
      | (inr _, w1) =>
          translate_paragraphs E a file_md5 (i + length before) n page_num rest w1
      | (inl e, w1) => (inl e, w1)
      end.
Proof.
  induction before as [|[text b] more IH]; intros i w.
  - cbn [app translate_paragraphs length]. rewrite Nat.add_0_r. reflexivity.
  - cbn [app translate_paragraphs length]. unfold mbind, M_bind.
    destruct (translate_paragraph E a file_md5 i n page_num text w) as [[e|r] w1];
      [reflexivity|].
    rewrite IH. replace (S i + length more)%nat with (i + S (length more))%nat by lia.
    reflexivity.
Qed.

Lemma translate_pages_app (a : args) (file_md5 : pystr) (pre rest : paragraphs_by_page) :
  forall w : world,
    translate_pages E a file_md5 (pre ++ rest) w
    = match translate_pages E a file_md5 pre w with
      | (inr _, w1) => translate_pages E a file_md5 rest w1
      | (inl e, w1) => (inl e, w1)
      end.
Proof.
  induction pre as [|[page_num paragraphs] more IH]; intros w; [reflexivity|].
  cbn [app translate_pages]. unfold bind_first, mbind, M_bind, lift.
  destruct (skip_page a page_num) as [e|[|]]; cbn [fst snd]; [reflexivity| |].
  - unfold mret, M_ret. apply IH.
  - destruct (translate_paragraphs E a file_md5 0 (length paragraphs) page_num
                paragraphs w) as [[e|r] w1]; [reflexivity|].
    apply IH.
Qed.

(** One paragraph of the loop that returns: the text could be hashed, and
    the entry of the text holds what [translate_text] returned when it was
    called after the progress line. *)
Lemma translate_paragraph_step (a : args) (file_md5 : pystr) (i n : nat)
    (page_num : Z) (text : pystr) (w : world) :
  (translate_paragraph E a file_md5 i n page_num text w).1 = inr tt ->
  encodable text = true
  /\ exists v,
       (translate_text E text file_md5 (ignore_cache a) false
          (print (progress_line i n page_num) w).2).1 = inr v
       /\ cache_lookup
            (cache_obj (translate_paragraph E a file_md5 i n page_num text w).2)
            file_md5 (md5_hexdigest E text) = Some v.
Proof.
  unfold translate_paragraph. cbv beta iota delta [bind_first mbind M_bind].
  set (start := (print (progress_line i n page_num) w).2).
  change (print (progress_line i n page_num) w) with (inr tt : res unit, start).
  cbv beta iota.
  destruct (translate_text E text file_md5 (ignore_cache a) false start)
    as [[e|v] w1]; cbn [fst snd]; [discriminate|].
  unfold lift. destruct (get_text_md5 E text) as [e|h] eqn:Hh; cbn [fst snd];
    [discriminate|].
  apply get_text_md5_inr in Hh as [Henc ->].
  unfold get_cache, put_cache. cbn [fst snd cache_obj]. intros _.
  split; [exact Henc|]. exists v. split; [reflexivity|apply cache_lookup_store].
Qed.

(** With the cache enabled no entry changes during the loops. *)
Lemma translate_paragraphs_keep (a : args) (file_md5 : pystr) (n : nat) (page_num : Z)
    (paragraphs : list (pystr * bbox)) (i : nat) (w : world) (f k v : pystr) :
  ignore_cache a = false ->
  cache_lookup (cache_obj w) f k = Some v ->
  cache_lookup
    (cache_obj (translate_paragraphs E a file_md5 i n page_num paragraphs w).2) f k
  = Some v.
Proof.
  intros Hic Hlook.
  apply (translate_paragraphs_invariant E (fun c => cache_lookup c f k = Some v));
    [|exact Hlook].
  intros i' text w' Hw'. apply translate_paragraph_keeps; assumption.
Qed.

Lemma translate_pages_keep (a : args) (file_md5 : pystr) (items : paragraphs_by_page)
    (w : world) (f k v : pystr) :
  ignore_cache a = false ->
  cache_lookup (cache_obj w) f k = Some v ->
  cache_lookup (cache_obj (translate_pages E a file_md5 items w).2) f k = Some v.
Proof.
  intros Hic Hlook.
  apply (translate_pages_invariant E (fun c => cache_lookup c f k = Some v));
    [|exact Hlook].
  intros i' n' page_num' text w' Hw'. apply translate_paragraph_keeps; assumption.
Qed.

(** With the cache enabled, an entry of the cache the translate branch
    starts with is still there when the loop reaches a paragraph. *)
Lemma paragraph_called_keeps (a : args) (file_md5 : pystr) (is_image_pdf : bool)
    (pre : paragraphs_by_page) (page_num : Z) (before : list (pystr * bbox))
    (n : nat) (w : world) (f k v : pystr) :
  ignore_cache a = false ->
  cache_lookup (cache_obj w) f k = Some v ->
  cache_lookup
    (cache_obj (paragraph_called E a file_md5 pre page_num before n
                  (extract_and_save E file_md5 is_image_pdf w).2)) f k
  = Some v.
Proof.
  intros Hic Hlook. unfold paragraph_called, paragraph_reached, print.
  cbn [fst snd cache_obj].
  apply translate_paragraphs_keep; [exact Hic|].
  apply translate_pages_keep; [exact Hic|].
  destruct (extract_and_save_obs file_md5 is_image_pdf w) as [[Hc _] _].
  rewrite Hc. exact Hlook.
Qed.

(** X23: the translate branch of [main] writes the paragraphs file before it
    translates anything.  When every extracted text can be encoded, the file
    holds the extracted paragraphs even when the loop stops on an exception;
    when the branch returns, the cache file holds the cache as the loop left
    it, or is left cut short when a string of the cache cannot be encoded;
    and no other file is written.  When an extracted text cannot be encoded,
    the branch raises [UnicodeEncodeError] with the paragraphs file cut
    short, and nothing is translated. *)
Theorem main_translate_files (a : args) (file_md5 : pystr) (is_image_pdf : bool)
    (w : world) :
  let paragraphs_by_page :=
    if is_image_pdf then extracted_ocr E else extracted_direct E in
  let r := main_translate E a file_md5 is_image_pdf w in
  if paragraphs_encodable paragraphs_by_page then
    fs r.2 !! paragraphs_file_of file_md5
    = Some (FJson (serialize_paragraphs paragraphs_by_page))
    /\ match r.1 with
       | inr _ =>
           fs r.2
           = <[cache_file := if cache_encodable (cache_obj r.2)
                             then FJson (json_of_cache (cache_obj r.2))
                             else FBytes]>
               (<[paragraphs_file_of file_md5 :=
                    FJson (serialize_paragraphs paragraphs_by_page)]> (fs w))
       | inl _ =>
           fs r.2 = <[paragraphs_file_of file_md5 :=
                        FJson (serialize_paragraphs paragraphs_by_page)]> (fs w)
       end
  else
    r.1 = inl UnicodeEncodeError
    /\ fs r.2 = <[paragraphs_file_of file_md5 := FBytes]> (fs w)
    /\ posts r.2 = posts w.
Proof.
  cbv zeta.
  destruct (paragraphs_encodable
              (if is_image_pdf then extracted_ocr E else extracted_direct E)) eqn:Henc.
  - destruct (main_translate_encodable a file_md5 is_image_pdf w Henc)
      as (start & _ & Hstart & ->).
    pose proof (translate_pages_fs a file_md5
                  (if is_image_pdf then extracted_ocr E else extracted_direct E)
                  start) as Hfs.
    destruct (translate_pages E a file_md5
                (if is_image_pdf then extracted_ocr E else extracted_direct E) start)
      as [[e|[]] w1]; cbn [fst snd] in *.
    + rewrite Hfs, Hstart. split; [apply lookup_insert_eq|reflexivity].
    + pose proof (save_translation_cache_obs cache_file (cache_obj w1) w1) as Hsave.
      cbv zeta in Hsave. destruct Hsave as (Hr & Hc & _ & Hf).
      unfold mbind, M_bind.
      destruct (save_translation_cache cache_file (cache_obj w1) w1) as [[e|[]] w2];
        cbn [fst snd] in *; [discriminate|].
      unfold print. cbn [fst snd fs cache_obj]. rewrite Hf, Hc, Hfs, Hstart.
      split; [|reflexivity].
      rewrite lookup_insert_ne
        by (intros Heq; symmetry in Heq;
            exact (paragraphs_file_is_not_cache_file file_md5 Heq)).
      apply lookup_insert_eq.
  - pose proof (main_translate_unencodable a file_md5 is_image_pdf w) as H.
    cbv zeta in H. destruct (H Henc) as (Hr & Hf & Hp & _). auto.
Qed.

(** X24: when the paragraphs file holds what the translate command wrote
    for paragraphs with distinct page numbers, the regenerate branch hands
    exactly these paragraphs to the renderer of the document type: nothing
    is re-extracted, reordered or lost in between. *)
Theorem main_regenerate_uses_saved_paragraphs (a : args) (file_md5 : pystr)
    (is_image_pdf : bool) (p : paragraphs_by_page) (w : world) :
  NoDup p.*1 ->
  fs w !! paragraphs_file_of file_md5 = Some (FJson (serialize_paragraphs p)) ->
  main_regenerate E a file_md5 is_image_pdf w
  = ((if is_image_pdf then
        print (lit "Creating translated PDF with image-based approach...");;
        create_translated_pdf_ocr_approach E (output_pdf a) p
          (PDict (cache_obj w)) (PStr file_md5) (opt_str (font a))
      else
        print (lit "Creating translated PDF with text-based approach...");;
        create_clean_translated_pdf E (output_pdf a) p file_md5 false 0 None);;
     print (lit "PDF regeneration completed. Output saved to " ++ output_pdf a)) w.
Proof.
  intros Hnd Hfile. unfold main_regenerate, load_paragraphs.
  cbv beta iota zeta delta [bind_first mbind M_bind path_exists read_file lift get_cache].
  rewrite bool_decide_eq_true_2 by (rewrite Hfile; eauto). cbn [negb fst snd].
  rewrite Hfile. unfold mret at 1, M_ret at 1. cbv beta iota.
  assert (deserialize_paragraphs (serialize_paragraphs p) = inr (raw_of p)) as ->.
  { unfold deserialize_paragraphs, serialize_paragraphs.
    pose proof (serialize_from_distinct p [] Hnd) as Hs.
    pose proof (deserialize_from_distinct p [] Hnd) as Hd.
    change (member_of <$> []) with (@nil (pystr * json)) in Hs.
    change (raw_of []) with (@nil (Z * list (json * list json))) in Hd.
    change ([] ++ p) with p in Hs, Hd.
    rewrite Hs. exact Hd. }
  rewrite typed_paragraphs_raw. reflexivity.
Qed.

End Commands.

(** ** The translate command and a later run *)

Section LaterRun.

Variable E : env.

(** C10: in a run of the translate branch that returns, take a paragraph of
    a page that is not skipped.  [translate_text] returned a value [v] for
    it, and when the paragraph has been processed the cache entry under
    (file_md5, md5(text)) is [v], whatever [--ignore-cache] says; [v] is the
    original text when the cache had no entry to use and every attempt
    failed or the body had no choices.  When the run was started without
    [--ignore-cache], the entry is still [v] at the end of the run; and
    when in addition every string of the cache can be encoded, the cache
    file holds the cache, a later run that finds the file as it was left
    loads that cache, and the translate branch of a later run started on it
    without [--ignore-cache] gets [v] for the paragraph from
    [translate_text] without a request. *)
Theorem translate_paragraph_caches_what_was_returned
    (a : args) (file_md5 : pystr) (is_image_pdf : bool) (w : world)
    (pre post : paragraphs_by_page) (page_num : Z)
    (before after : list (pystr * bbox)) (text : pystr) (b : bbox) :
  let run := main_translate E a file_md5 is_image_pdf w in
  let start := (extract_and_save E file_md5 is_image_pdf w).2 in
  let n := length (before ++ (text, b) :: after) in
  let called := paragraph_called E a file_md5 pre page_num before n start in
  let call := translate_text E text file_md5 (ignore_cache a) false called in
  let processed :=
    paragraph_reached E a file_md5 pre page_num (before ++ [(text, b)]) n start in
  (if is_image_pdf then extracted_ocr E else extracted_direct E)
  = pre ++ (page_num, before ++ (text, b) :: after) :: post ->
  skip_page a page_num = inr false ->
  run.1 = inr tt ->
  exists v : pystr,
    call.1 = inr v
    /\ cache_lookup (cache_obj processed) file_md5 (md5_hexdigest E text) = Some v
    /\ (cache_miss E called file_md5 text (ignore_cache a) ->
        config_complete E ->
        forall m : nat,
          (m <= 3)%nat ->
          (forall k, (k < m)%nat -> answer_retried (http_post E (posts called + k))) ->
          m = 3%nat \/ answer_without_choices (http_post E (posts called + m)) ->
          v = text)
    /\ (ignore_cache a = false ->
        cache_lookup (cache_obj run.2) file_md5 (md5_hexdigest E text) = Some v
        /\ (cache_encodable (cache_obj run.2) = true ->
            fs run.2 !! cache_file = Some (FJson (json_of_cache (cache_obj run.2)))
            /\ forall (E' : env) (w' : world),
                 md5_hexdigest E' = md5_hexdigest E ->
                 fs w' !! cache_file = fs run.2 !! cache_file ->
                 (load_translation_cache cache_file w').1
                 = inr (LoadedCache (cache_obj run.2))
                 /\ forall (a' : args) (is_image_pdf' : bool) (later : world)
                      (pre' post' : paragraphs_by_page) (page_num' : Z)
                      (before' after' : list (pystr * bbox)) (b' : bbox),
                      cache_obj later = cache_obj run.2 ->
                      ignore_cache a' = false ->
                      (if is_image_pdf' then extracted_ocr E' else extracted_direct E')
                      = pre' ++ (page_num', before' ++ (text, b') :: after') :: post' ->
                      skip_page a' page_num' = inr false ->
                      (main_translate E' a' file_md5 is_image_pdf' later).1 = inr tt ->
                      let called' :=
                        paragraph_called E' a' file_md5 pre' page_num' before'
                          (length (before' ++ (text, b') :: after'))
                          (extract_and_save E' file_md5 is_image_pdf' later).2 in
                      let call' := translate_text E' text file_md5 false false called' in
                      call'.1 = inr v /\ posts call'.2 = posts called')).
Proof.
  cbv zeta. intros Hext Hskip Hrun.
  set (n := length (before ++ (text, b) :: after)).
  rewrite main_translate_loop in Hrun |- *.
  pose proof (extract_and_save_obs E file_md5 is_image_pdf w) as Hobs.
  cbv zeta in Hobs. rewrite Hext in Hobs. destruct Hobs as (_ & Hsaved).
  destruct (extract_and_save E file_md5 is_image_pdf w) as [[e|p] start] eqn:Hes;
    cbn [fst snd] in *; [discriminate|].
  assert (p = pre ++ (page_num, before ++ (text, b) :: after) :: post) as ->.
  { destruct (paragraphs_encodable _); destruct Hsaved as [Hr _]; congruence. }
  clear Hsaved.
  destruct (translate_pages E a file_md5
              (pre ++ (page_num, before ++ (text, b) :: after) :: post) start)
    as [[e|[]] w1] eqn:Hloop; cbn [fst snd] in Hrun; [discriminate|].
  clear Hrun.
  (* the state and the cache file after the cache was saved *)
  set (run := (save_translation_cache cache_file (cache_obj w1);;
               print (lit "Translation completed. Cache saved to " ++ cache_file)) w1).
  assert (cache_obj run.2 = cache_obj w1
          /\ fs run.2 !! cache_file
             = Some (if cache_encodable (cache_obj w1)
                     then FJson (json_of_cache (cache_obj w1)) else FBytes))
    as [Hrc Hrf].
  { pose proof (save_translation_cache_obs cache_file (cache_obj w1) w1) as Hsave.
    cbv zeta in Hsave. destruct Hsave as (Hr & Hc & _ & Hf).
    subst run. unfold mbind, M_bind.
    destruct (save_translation_cache cache_file (cache_obj w1) w1) as [[e|[]] w2];
      cbn [fst snd] in *; [discriminate|].
    unfold print. cbn [fst snd fs cache_obj]. split; [exact Hc|].
    rewrite Hf. apply lookup_insert_eq. }
  clearbody run.
  (* the loop, cut at the paragraph *)
  rewrite translate_pages_app in Hloop.
  destruct (translate_pages E a file_md5 pre start) as [[e|[]] wa] eqn:Hpre;
    [discriminate|].
  cbn [translate_pages] in Hloop. unfold bind_first, mbind, M_bind, lift in Hloop.
  rewrite Hskip in Hloop. cbn [fst snd] in Hloop. fold n in Hloop.
  destruct (translate_paragraphs E a file_md5 0 n page_num
              (before ++ (text, b) :: after) wa) as [[e|[]] wb] eqn:Hps;
    [discriminate|].
  rewrite translate_paragraphs_app in Hps.
  destruct (translate_paragraphs E a file_md5 0 n page_num before wa)
    as [[e|[]] reached] eqn:Hbefore; [discriminate|].
  cbn [translate_paragraphs Nat.add] in Hps. unfold mbind, M_bind in Hps.
  destruct (translate_paragraph E a file_md5 (length before) n page_num text reached)
    as [[e|[]] wc] eqn:Hstep; [discriminate|].
  assert (paragraph_reached E a file_md5 pre page_num before n start = reached)
    as Hreached.
  { unfold paragraph_reached. rewrite Hpre. cbn [snd]. rewrite Hbefore. reflexivity. }
  assert (paragraph_reached E a file_md5 pre page_num (before ++ [(text, b)]) n start
          = wc) as Hprocessed.
  { unfold paragraph_reached. rewrite Hpre. cbn [snd].
    rewrite translate_paragraphs_app, Hbefore.
    cbn [translate_paragraphs Nat.add]. unfold mbind, M_bind. rewrite Hstep.
    reflexivity. }
  assert (paragraph_called E a file_md5 pre page_num before n start
          = (print (progress_line (length before) n page_num) reached).2) as Hcalled.
  { unfold paragraph_called. rewrite Hreached. reflexivity. }
  rewrite Hprocessed, Hcalled.
  destruct (translate_paragraph_step E a file_md5 (length before) n page_num text
              reached) as (Henc & v & Hcall & Hlook);
    [rewrite Hstep; reflexivity|].
  rewrite Hstep in Hlook. cbn [snd] in Hlook.
  set (called := (print (progress_line (length before) n page_num) reached).2) in *.
  exists v. split; [exact Hcall|]. split; [exact Hlook|]. split.
  - intros Hmiss Hcfg m Hm Hretried Hlast.
    destruct (outcomes_give_up E false called m Hm Hretried Hlast) as [Hno _].
    destruct (translate_text_failed E text file_md5 (ignore_cache a) false called
                Henc Hmiss Hno) as [Hr _].
    rewrite Hr in Hcall. congruence.
  - intros Hic.
    assert (cache_lookup (cache_obj w1) file_md5 (md5_hexdigest E text) = Some v)
      as Hend.
    { pose proof (translate_paragraphs_keep E a file_md5 n page_num after
                    (S (length before)) wc _ _ _ Hic Hlook) as Hafter.
      rewrite Hps in Hafter. cbn [snd] in Hafter.
      pose proof (translate_pages_keep E a file_md5 post wb _ _ _ Hic Hafter)
        as Hpost.
      rewrite Hloop in Hpost. exact Hpost. }
    rewrite Hrc. split; [exact Hend|].
    intros Hcenc. rewrite Hrf, Hcenc. split; [reflexivity|].
    intros E' w' Hmd5 Hfile. split.
    + rewrite (load_saved_cache cache_file (cache_obj w1) w'); [reflexivity|].
      exact Hfile.
    + intros a' is_image_pdf' later pre' post' page_num' before' after' b'
        Hlater Hic' _ _ _.
      cbv zeta.
      set (called' := paragraph_called E' a' file_md5 pre' page_num' before'
                        (length (before' ++ (text, b') :: after'))
                        (extract_and_save E' file_md5 is_image_pdf' later).2).
      assert (cache_lookup (cache_obj called') file_md5 (md5_hexdigest E' text)
              = Some v) as Hkept.
      { apply paragraph_called_keeps; [exact Hic'|].
        rewrite Hlater, Hmd5. exact Hend. }
      assert (encodable text = true) as Henc' by exact Henc.
      rewrite (translate_text_hit E' text file_md5 v false called' Henc' Hkept).
      split; reflexivity.
Qed.

End LaterRun.

(** ** The further properties on sample inputs *)

Section MoreInstances.

Import Samples.

(** The endpoint is down while the sample document is translated: the
    paragraph is cached as it is, the cache file holds it, and the next
    run gets it back without a request. *)
Lemma translate_paragraph_caches_sample :
  let run := main_translate down_env translate_args (lit "d0c") false empty_world in
  let start := (extract_and_save down_env (lit "d0c") false empty_world).2 in
  let called := paragraph_called down_env translate_args (lit "d0c") [] 0 [] 1 start in
  let called' :=
    paragraph_called down_env translate_args (lit "d0c") [] 0 [] 1
      (extract_and_save down_env (lit "d0c") false run.2).2 in
  extracted_direct down_env = [] ++ (0, [] ++ (hello, wide_box) :: []) :: []
  /\ skip_page translate_args 0 = inr false
  /\ run.1 = inr tt
  /\ ignore_cache translate_args = false
  /\ cache_encodable (cache_obj run.2) = true
  /\ (main_translate down_env translate_args (lit "d0c") false run.2).1 = inr tt
  /\ exists v : pystr,
       (translate_text down_env hello (lit "d0c") false false called).1 = inr v
       /\ v = hello
       /\ cache_lookup (cache_obj run.2) (lit "d0c") (md5_hexdigest down_env hello)
          = Some v
       /\ fs run.2 !! cache_file = Some (FJson (json_of_cache (cache_obj run.2)))
       /\ (load_translation_cache cache_file run.2).1
          = inr (LoadedCache (cache_obj run.2))
       /\ (translate_text down_env hello (lit "d0c") false false called').1 = inr v
       /\ posts (translate_text down_env hello (lit "d0c") false false called').2
          = posts called'.
Proof.
  cbv zeta.
  assert (extracted_direct down_env = [] ++ (0, [] ++ (hello, wide_box) :: []) :: [])
    as Hext by reflexivity.
  assert (skip_page translate_args 0 = inr false) as Hskip by reflexivity.
  assert ((main_translate down_env translate_args (lit "d0c") false empty_world).1
          = inr tt) as Hrun by (vm_compute; reflexivity).
  assert (ignore_cache translate_args = false) as Hic by reflexivity.
  assert (cache_encodable
            (cache_obj (main_translate down_env translate_args (lit "d0c") false
                          empty_world).2) = true) as Hcenc by (vm_compute; reflexivity).
  assert ((main_translate down_env translate_args (lit "d0c") false
             (main_translate down_env translate_args (lit "d0c") false empty_world).2).1
          = inr tt) as Hlater by (vm_compute; reflexivity).
  split; [exact Hext|]. split; [exact Hskip|]. split; [exact Hrun|].
  split; [exact Hic|]. split; [exact Hcenc|]. split; [exact Hlater|].
  destruct (translate_paragraph_caches_what_was_returned down_env translate_args
              (lit "d0c") false empty_world [] [] 0 [] [] hello wide_box
              Hext Hskip Hrun) as (v & Hcall & _ & Hfailed & Hkept).
  destruct (Hkept Hic) as (Hend & Hsaved).
  destruct (Hsaved Hcenc) as (Hfile & Hnext).
  destruct (Hnext down_env _ eq_refl eq_refl) as (Hload & Hagain).
  exists v. split; [exact Hcall|]. split.
  - apply Hfailed with (m := 3%nat).
    + right. vm_compute. reflexivity.
    + split; reflexivity.
    + apply le_n.
    + intros k _. apply transport_error.
    + left. reflexivity.
  - split; [exact Hend|]. split; [exact Hfile|]. split; [exact Hload|].
    exact (Hagain translate_args false _ [] [] 0 [] [] wide_box eq_refl Hic Hext Hskip
             Hlater).
Defined.

(** C10, the case it leaves out: [translate --ignore-cache] on a document
    with the same text on two pages, the first three requests failing.
    The first paragraph gets its original text back and the entry is set to
    it; the second paragraph is translated afresh and the entry becomes the
    translation, after four requests in all.  The cache file holds the
    translation, and the next run gets the translation for the paragraph,
    not the untranslated text. *)
Lemma ignore_cache_overwrites_failure :
  let run := main_translate late_env ignore_cache_args (lit "d0c") false empty_world in
  let start := (extract_and_save late_env (lit "d0c") false empty_world).2 in
  let called :=
    paragraph_called late_env ignore_cache_args (lit "d0c") [] 0 [] 1 start in
  let processed :=
    paragraph_reached late_env ignore_cache_args (lit "d0c") [] 0 [(hello, wide_box)] 1
      start in
  let called' :=
    paragraph_called late_env translate_args (lit "d0c") [] 0 [] 1
      (extract_and_save late_env (lit "d0c") false run.2).2 in
  extracted_direct late_env
  = [] ++ (0, [] ++ (hello, wide_box) :: []) :: [(1, [(hello, wide_box)])]
  /\ skip_page ignore_cache_args 0 = inr false
  /\ run.1 = inr tt
  /\ (translate_text late_env hello (lit "d0c") true false called).1 = inr hello
  /\ cache_lookup (cache_obj processed) (lit "d0c") (md5_hexdigest late_env hello)
     = Some hello
  /\ posts run.2 = 4%nat
  /\ cache_lookup (cache_obj run.2) (lit "d0c") (md5_hexdigest late_env hello)
     = Some privet
  /\ fs run.2 !! cache_file = Some (FJson (json_of_cache (cache_obj run.2)))
  /\ (main_translate late_env translate_args (lit "d0c") false run.2).1 = inr tt
  /\ (translate_text late_env hello (lit "d0c") false false called').1 = inr privet
  /\ posts (translate_text late_env hello (lit "d0c") false false called').2
     = posts called'.
Proof. cbv zeta. repeat split; vm_compute; reflexivity. Qed.

Lemma translate_text_without_configuration_sample :
  encodable hello = true
  /\ cache_miss no_key_env empty_world (lit "d0c") hello false
  /\ ~ config_complete no_key_env
  /\ (translate_text no_key_env hello (lit "d0c") false false empty_world).1 = inr hello
  /\ posts (translate_text no_key_env hello (lit "d0c") false false empty_world).2
     = posts empty_world.
Proof.
  assert (encodable hello = true) as Henc by (vm_compute; reflexivity).
  assert (cache_miss no_key_env empty_world (lit "d0c") hello false) as Hmiss
    by (right; vm_compute; reflexivity).
  assert (~ config_complete no_key_env) as Hcfg by (intros [Hkey _]; discriminate Hkey).
  pose proof (translate_text_without_configuration no_key_env hello (lit "d0c")
                false false empty_world Henc Hmiss Hcfg) as H.
  cbv zeta in H. destruct H as (Hr & Hp & _).
  split; [exact Henc|]. split; [exact Hmiss|]. split; [exact Hcfg|].
  split; [exact Hr|exact Hp].
Defined.

Lemma translate_run_keeps_entries_sample :
  ignore_cache translate_args = false
  /\ cache_lookup (cache_obj cached_world) (lit "d0c") hello = Some privet
  /\ cache_lookup
       (cache_obj (translate_pages down_env translate_args (lit "d0c") one_paragraph
                     cached_world).2) (lit "d0c") hello = Some privet.
Proof.
  assert (ignore_cache translate_args = false) as Hig by reflexivity.
  assert (cache_lookup (cache_obj cached_world) (lit "d0c") hello = Some privet)
    as Hentry by (vm_compute; reflexivity).
  split; [exact Hig|]. split; [exact Hentry|].
  exact (translate_run_keeps_entries down_env translate_args (lit "d0c") one_paragraph
           cached_world (lit "d0c") hello privet Hig Hentry).
Defined.

Lemma translate_run_other_documents_sample :
  lit "d0c" <> lit "0ther"
  /\ cache_obj (translate_pages fits_env translate_args (lit "0ther") one_paragraph
                  cached_world).2 !! lit "d0c"
     = cache_obj cached_world !! lit "d0c".
Proof.
  assert (lit "d0c" <> lit "0ther") as Hne by (intros Heq; discriminate Heq).
  split; [exact Hne|].
  exact (translate_run_other_documents fits_env translate_args (lit "0ther")
           one_paragraph cached_world (lit "d0c") Hne).
Defined.

Lemma translate_run_fills_cache_sample :
  (translate_pages down_env translate_args (lit "d0c") one_paragraph empty_world).1
  = inr tt
  /\ In (0, [(hello, wide_box)]) one_paragraph
  /\ skip_page translate_args 0 = inr false
  /\ In (hello, wide_box) [(hello, wide_box)]
  /\ exists text_md5,
      get_text_md5 down_env hello = inr text_md5
      /\ is_Some (cache_lookup
                    (cache_obj (translate_pages down_env translate_args (lit "d0c")
                                  one_paragraph empty_world).2)
                    (lit "d0c") text_md5).
Proof.
  assert ((translate_pages down_env translate_args (lit "d0c") one_paragraph
             empty_world).1 = inr tt) as Hrun by (vm_compute; reflexivity).
  assert (In (0, [(hello, wide_box)]) one_paragraph) as Hpage by (left; reflexivity).
  assert (skip_page translate_args 0 = inr false) as Hskip by reflexivity.
  assert (In (hello, wide_box) [(hello, wide_box)]) as Htext by (left; reflexivity).
  split; [exact Hrun|]. split; [exact Hpage|]. split; [exact Hskip|].
  split; [exact Htext|].
  exact (translate_run_fills_cache down_env translate_args (lit "d0c") one_paragraph
           empty_world 0 [(hello, wide_box)] hello wide_box Hrun Hpage Hskip Htext).
Defined.

Lemma is_image_based_pdf_first_five_sample :
  5 <= len (replicate 5 letter_page)
  /\ is_image_based_pdf (replicate 5 letter_page ++ [scanned_page; scanned_page]) (3 # 10)
     = is_image_based_pdf (replicate 5 letter_page) (3 # 10).
Proof.
  assert (5 <= len (replicate 5 letter_page)) as Hlen by (unfold len; simpl; lia).
  split; [exact Hlen|].
  exact (is_image_based_pdf_first_five (replicate 5 letter_page)
           [scanned_page; scanned_page] (3 # 10) Hlen).
Defined.

Lemma is_image_based_pdf_extremes_sample :
  [scanned_page; scanned_page] <> []
  /\ Forall no_text_block (take 5 [scanned_page; scanned_page])
  /\ (0 < 3 # 10)%Q
  /\ is_image_based_pdf [scanned_page; scanned_page] (3 # 10) = inr true
  /\ [letter_page] <> []
  /\ Forall text_only (take 5 [letter_page])
  /\ (3 # 10 <= 1)%Q
  /\ is_image_based_pdf [letter_page] (3 # 10) = inr false.
Proof.
  assert ([scanned_page; scanned_page] <> []) as Hdoc by discriminate.
  assert (Forall no_text_block (take 5 [scanned_page; scanned_page])) as Hscan
    by (repeat constructor).
  assert (0 < 3 # 10)%Q as Hpos by reflexivity.
  assert ([letter_page] <> []) as Hdoc' by discriminate.
  assert (Forall text_only (take 5 [letter_page])) as Htext
    by (constructor; [split; [discriminate|reflexivity]|constructor]).
  assert (3 # 10 <= 1)%Q as Hle by discriminate.
  split; [exact Hdoc|]. split; [exact Hscan|]. split; [exact Hpos|].
  split; [exact (proj1 (is_image_based_pdf_extremes _ (3 # 10) Hdoc) Hscan Hpos)|].
  split; [exact Hdoc'|]. split; [exact Htext|]. split; [exact Hle|].
  exact (proj2 (is_image_based_pdf_extremes _ (3 # 10) Hdoc') Htext Hle).
Defined.

Lemma commit_words_keeps_text_sample :
  commit_words fits_env (lit "tiro") 11 narrow_box 74 (split hello) [] 111
  = inr two_lines
  /\ wraps (inserted_lines two_lines) (split hello).
Proof.
  assert (commit_words fits_env (lit "tiro") 11 narrow_box 74 (split hello) [] 111
          = inr two_lines) as Hops by (vm_compute; reflexivity).
  split; [exact Hops|].
  exact (commit_words_keeps_text fits_env (lit "tiro") narrow_box 11 74 hello 111
           two_lines Hops).
Defined.

(** The width limit of a box from 0.1 to 59.1: the two subtractions of
    the source give 55, where the exact difference of the two binary64
    sides less 4 is above 55. *)
Lemma max_width_is_rounded :
  max_width decimal_box = 55%Q
  /\ (55 < x1 decimal_box - x0 decimal_box - 4)%Q.
Proof. split; vm_compute; reflexivity. Qed.

(** On that box the text "aaaa bbbbb" (ten characters: 55 at size 11) is
    wrapped at size 11, which makes it too tall, and fits at size 10. *)
Lemma decimal_box_commits_ten :
  fits_at fits_env (lit "tiro") (lit "aaaa bbbbb") decimal_box 11 = false
  /\ find (fits_at fits_env (lit "tiro") (lit "aaaa bbbbb") decimal_box) candidate_sizes
     = Some 10.
Proof. split; vm_compute; reflexivity. Qed.

(** Three additions of the line height 9 to the first base line of a box
    at 0.001 (size 7) do not give the first base line plus 27: the sum is
    34.001000000000005, not the binary64 number nearest to 34.001. *)
Lemma base_lines_are_rounded :
  Nat.iter 3 (fun y => fl_add y (of_int (7 + 2))) (fl_add (1 # 1000) (of_int 7))
  = 1196303835392377 # 35184372088832
  /\ round64 (34001 # 1000) = 4785215341569507 # 140737488355328
  /\ ~ (1196303835392377 # 35184372088832 == 4785215341569507 # 140737488355328)%Q.
Proof.
  split; [vm_compute; reflexivity|]. split; [vm_compute; reflexivity|].
  vm_compute. discriminate.
Qed.

Lemma commit_words_positions_sample :
  commit_words fits_env (lit "tiro") 11 narrow_box 74 (split hello) [] 111
  = inr two_lines
  /\ two_lines !! 1%nat
     = Some (InsertText 74 124 (lit "is a paragraph.") (lit "tiro") 11)
  /\ exists text,
      InsertText 74 124 (lit "is a paragraph.") (lit "tiro") 11
      = InsertText 74 (Nat.iter 1 (fun y => fl_add y (of_int (11 + 2))) 111%Q) text
          (lit "tiro") 11.
Proof.
  assert (commit_words fits_env (lit "tiro") 11 narrow_box 74 (split hello) [] 111
          = inr two_lines) as Hops by (vm_compute; reflexivity).
  assert (two_lines !! 1%nat
          = Some (InsertText 74 124 (lit "is a paragraph.") (lit "tiro") 11)) as Hk
    by reflexivity.
  split; [exact Hops|]. split; [exact Hk|].
  exact (commit_words_positions fits_env (lit "tiro") narrow_box 11 74 (split hello)
           [] 111 two_lines 1 _ Hops Hk).
Defined.

Lemma commit_words_line_widths_sample :
  commit_words fits_env (lit "tiro") 11 narrow_box 74 (split hello) [] 111
  = inr two_lines
  /\ In (lit "is a paragraph.") (inserted_lines two_lines)
  /\ (In (lit "is a paragraph.") (split hello)
      \/ line_fits (lit "is a paragraph.") 11 (max_width narrow_box) = true).
Proof.
  assert (commit_words fits_env (lit "tiro") 11 narrow_box 74 (split hello) [] 111
          = inr two_lines) as Hops by (vm_compute; reflexivity).
  assert (In (lit "is a paragraph.") (inserted_lines two_lines)) as Hin
    by (right; left; reflexivity).
  split; [exact Hops|]. split; [exact Hin|].
  exact (commit_words_line_widths fits_env (lit "tiro") narrow_box 11 74 hello 111
           two_lines (lit "is a paragraph.") Hops Hin).
Defined.

Lemma committed_lines_within_height_sample :
  fits_at fits_env (lit "tiro") hello narrow_box 11 = true
  /\ commit_words fits_env (lit "tiro") 11 narrow_box 74 (split hello) [] 111
     = inr two_lines
  /\ (1 <= 1 < length two_lines)%nat
  /\ (of_int (Z.of_nat 1 * (11 + 2)) <= max_height narrow_box)%Q.
Proof.
  assert (fits_at fits_env (lit "tiro") hello narrow_box 11 = true) as Hfits
    by (vm_compute; reflexivity).
  assert (commit_words fits_env (lit "tiro") 11 narrow_box 74 (split hello) [] 111
          = inr two_lines) as Hops by (vm_compute; reflexivity).
  assert (1 <= 1 < length two_lines)%nat as Hj by (simpl; lia).
  split; [exact Hfits|]. split; [exact Hops|]. split; [exact Hj|].
  exact (committed_lines_within_height fits_env (lit "tiro") narrow_box 11 74 hello 111
           two_lines 1 Hfits Hops Hj).
Defined.

Lemma render_page_covers_no_formula_sample :
  (render_page fits_env one_paragraph (lit "d0c") 0 letter_page cached_world).1
  = inr drawn_page
  /\ exists ops,
      drawn_page
      = DrawnPage (InsertImage (BBox 0 0 (page_width letter_page)
                                  (page_height letter_page)) (PagePixmap 0) :: ops)
      /\ forall rect, In (DrawRect rect) ops ->
           exists text,
             In (text, rect) (default [] (dict_get one_paragraph (Z.of_nat 0)))
             /\ is_formula text = inr false.
Proof.
  assert ((render_page fits_env one_paragraph (lit "d0c") 0 letter_page
             cached_world).1 = inr drawn_page) as Hpage by (vm_compute; reflexivity).
  split; [exact Hpage|].
  exact (render_page_covers_no_formula fits_env one_paragraph (lit "d0c") 0 letter_page
           cached_world drawn_page Hpage).
Defined.

Lemma create_clean_translated_pdf_output_sample :
  posts (create_clean_translated_pdf commit_fails_env (lit "out.pdf") one_paragraph
           (lit "d0c") false 0 None cached_world).2 = posts cached_world
  /\ cache_obj (create_clean_translated_pdf commit_fails_env (lit "out.pdf")
                  one_paragraph (lit "d0c") false 0 None cached_world).2
     = cache_obj cached_world.
Proof.
  pose proof (create_clean_translated_pdf_output commit_fails_env (lit "out.pdf")
                one_paragraph (lit "d0c") false 0 None cached_world) as H.
  cbv zeta in H. destruct H as (Hposts & Hcache & _).
  split; [exact Hposts|exact Hcache].
Defined.

Lemma ocr_draw_lines_above_bottom_sample :
  0 <= 0
  /\ (0 = 0 \/ (792 - y1 wide_box < 792 - y0 wide_box - of_int (0 * 14))%Q)
  /\ In (DrawString 74 678 hello) (ocr_draw_lines 792 wide_box 0 [hello; privet])
  /\ exists y text,
      DrawString 74 678 hello = DrawString (x0 wide_box + 2) y text
      /\ (792 - y1 wide_box < y)%Q.
Proof.
  assert (0 <= 0) as Hj by lia.
  assert (0 = 0 \/ (792 - y1 wide_box < 792 - y0 wide_box - of_int (0 * 14))%Q)
    as Hprev by (left; reflexivity).
  assert (In (DrawString 74 678 hello) (ocr_draw_lines 792 wide_box 0 [hello; privet]))
    as Hin by (left; vm_compute; reflexivity).
  split; [exact Hj|]. split; [exact Hprev|]. split; [exact Hin|].
  exact (ocr_draw_lines_above_bottom 792 wide_box [hello; privet] 0 _ Hj Hprev Hin).
Defined.

Lemma block_paragraph_kept_sample :
  block_type hello_block = 0
  /\ 10 < len (strip (block_text hello_block))
  /\ is_formula (block_text hello_block) = inr false
  /\ always_english (block_text hello_block) = inr (lit "en")
  /\ block_paragraph always_english hello_block = Some (hello, wide_box).
Proof.
  assert (block_type hello_block = 0) as Htype by reflexivity.
  assert (10 < len (strip (block_text hello_block))) as Hlong by (vm_compute; reflexivity).
  assert (is_formula (block_text hello_block) = inr false) as Hformula
    by (vm_compute; reflexivity).
  assert (always_english (block_text hello_block) = inr (lit "en")) as Hen by reflexivity.
  split; [exact Htype|]. split; [exact Hlong|]. split; [exact Hformula|].
  split; [exact Hen|].
  apply (proj2 (block_paragraph_kept always_english hello_block (hello, wide_box))).
  split; [reflexivity|]. split; [exact Htype|]. split; [exact Hlong|].
  split; [exact Hformula|]. left. exact Hen.
Defined.

Lemma ocr_group_paragraphs_sample :
  ocr_group always_english page_tokens [] [] None = inr [page_tokens_paragraph]
  /\ In page_tokens_paragraph [page_tokens_paragraph]
  /\ paragraph_of_tokens page_tokens page_tokens_paragraph
  /\ 10 < len (strip page_tokens_paragraph.1)
  /\ is_formula page_tokens_paragraph.1 = inr false.
Proof.
  assert (ocr_group always_english page_tokens [] [] None
          = inr [page_tokens_paragraph]) as Hrun by (vm_compute; reflexivity).
  assert (In page_tokens_paragraph [page_tokens_paragraph]) as Hin
    by (left; reflexivity).
  split; [exact Hrun|]. split; [exact Hin|].
  exact (ocr_group_paragraphs always_english page_tokens [page_tokens_paragraph]
           page_tokens_paragraph Hrun Hin).
Defined.

Lemma extract_text_with_ocr_pages_sample :
  extract_text_with_ocr always_english [page_tokens; []] false PNone PNone
  = inr [(0, [page_tokens_paragraph]); (1, [])]
  /\ ([(0, [page_tokens_paragraph]); (1, [])] : paragraphs_by_page).*1
     = Z.of_nat <$> seq 0 (length [page_tokens; []])
  /\ NoDup ([(0, [page_tokens_paragraph]); (1, [])] : paragraphs_by_page).*1.
Proof.
  assert (extract_text_with_ocr always_english [page_tokens; []] false PNone PNone
          = inr [(0, [page_tokens_paragraph]); (1, [])]) as Hrun
    by (vm_compute; reflexivity).
  split; [exact Hrun|].
  exact (extract_text_with_ocr_pages always_english [page_tokens; []] false PNone PNone
           _ Hrun).
Defined.

Lemma main_regenerate_uses_saved_paragraphs_sample :
  NoDup one_paragraph.*1
  /\ fs translated_world !! paragraphs_file_of (lit "d0c")
     = Some (FJson (serialize_paragraphs one_paragraph))
  /\ main_regenerate fits_env regenerate_args (lit "d0c") false translated_world
     = ((print (lit "Creating translated PDF with text-based approach...");;
         create_clean_translated_pdf fits_env (output_pdf regenerate_args)
           one_paragraph (lit "d0c") false 0 None);;
        print (lit "PDF regeneration completed. Output saved to "
               ++ output_pdf regenerate_args)) translated_world.
Proof.
  assert (NoDup one_paragraph.*1) as Hnd by apply NoDup_singleton.
  assert (fs translated_world !! paragraphs_file_of (lit "d0c")
          = Some (FJson (serialize_paragraphs one_paragraph))) as Hfile
    by (vm_compute; reflexivity).
  split; [exact Hnd|]. split; [exact Hfile|].
  exact (main_regenerate_uses_saved_paragraphs fits_env regenerate_args (lit "d0c")
           false one_paragraph translated_world Hnd Hfile).
Defined.

End MoreInstances.
